(** * OpenSearch MCP server: configuration resolution, client registry, dispatch

    A shallow embedding of
      - [src/types/config.ts]   ([createConfigFromEnv], [validateConfig], the
                                 multi-cluster module, lines 1-168),
      - [src/index.ts]          ([initializeOpenSearch], [getClient], the
                                 tool catalog and the tool-call handler),
      - [src/opensearch/client.ts] ([OpenSearchClient]: [createClient],
                                 its method table, [ping], the parameters
                                 of its requests, [applyIndexPrefix]).

    JavaScript values are an inductive type, [process.env] is a finite map
    from names to strings, the [Map] of clients is an association list in
    insertion order, and the server's methods run in a small
    state/trace/exception monad.  What lies outside the repository
    (JSON.parse, parseInt, zod's URL test and message text, the file
    system, the constructor of the client library, the network) is a
    record of oracles, [World]. *)

From Stdlib Require Import String Ascii List ZArith Bool Lia DecimalString.
Import ListNotations.
Open Scope string_scope.
Open Scope list_scope.
Set Warnings "-register-all".

(* ================================================================= *)
(** ** JavaScript values *)

(** Numbers are modelled by the integers plus NaN: every number the
    modelled code produces or inspects (timeouts, counts, sizes) is one. *)
Inductive JValue : Type :=
| JUndefined
| JNull
| JBool (b : bool)
| JNum (n : Z)
| JNaN
| JStr (s : string)
| JArr (xs : list JValue)
| JObj (props : list (string * JValue)).

Definition Props := list (string * JValue).

Definition is_empty (s : string) : bool :=
  match s with EmptyString => true | String _ _ => false end.

(** ToBoolean. *)
Definition truthy (v : JValue) : bool :=
  match v with
  | JUndefined | JNull | JNaN => false
  | JBool b => b
  | JNum n => negb (n =? 0)%Z
  | JStr s => negb (is_empty s)
  | JArr _ | JObj _ => true
  end.

(** [a || b] *)
Definition js_or (a b : JValue) : JValue := if truthy a then a else b.

Fixpoint lookup {A : Type} (k : string) (m : list (string * A)) : option A :=
  match m with
  | [] => None
  | (k', v) :: rest => if String.eqb k k' then Some v else lookup k rest
  end.

(** Property read [o.k] on an object's own properties. *)
Definition get (ps : Props) (k : string) : JValue :=
  match lookup k ps with Some v => v | None => JUndefined end.

(** [o.k = v]: overwrite in place, or add as the last property. *)
Fixpoint set_prop (k : string) (v : JValue) (ps : Props) : Props :=
  match ps with
  | [] => [(k, v)]
  | (k', v') :: rest =>
      if String.eqb k k' then (k, v) :: rest else (k', v') :: set_prop k v rest
  end.

Fixpoint join (sep : string) (xs : list string) : string :=
  match xs with
  | [] => EmptyString
  | [x] => x
  | x :: rest => x ++ sep ++ join sep rest
  end.

Definition nat_to_string (n : nat) : string :=
  NilZero.string_of_uint (Nat.to_uint n).

Definition Z_to_string (n : Z) : string :=
  NilZero.string_of_int (Z.to_int n).

(** ToString, as used by template literals.  Integers print in decimal
    (as JavaScript does below 1e21). *)
Fixpoint ToString (v : JValue) : string :=
  match v with
  | JUndefined => "undefined"
  | JNull => "null"
  | JBool true => "true"
  | JBool false => "false"
  | JNum n => Z_to_string n
  | JNaN => "NaN"
  | JStr s => s
  | JArr xs =>
      join "," (map (fun x => match x with
                              | JUndefined | JNull => EmptyString
                              | _ => ToString x
                              end) xs)
  | JObj _ => "[object Object]"
  end.

(** [s.split(sep)] for a one-character separator. *)
Fixpoint split_on (sep : ascii) (s : string) : list string :=
  match s with
  | EmptyString => [EmptyString]
  | String c rest =>
      if Ascii.eqb c sep then EmptyString :: split_on sep rest
      else match split_on sep rest with
           | [] => [String c EmptyString]
           | h :: t => String c h :: t
           end
  end.

Definition newline : string := String (ascii_of_nat 10) EmptyString.

(* ================================================================= *)
(** ** Errors, events, the outside world *)

Inductive ErrorCode : Type :=
| InternalError | InvalidRequest | MethodNotFound | InvalidParams.

(** What can be thrown: an [McpError] with its code, or any other [Error]
    (a plain [Error], a [TypeError], a backend failure) with its message. *)
Inductive Exn : Type :=
| EMcp (code : ErrorCode) (message : string)
| EError (message : string).

Definition code_number (c : ErrorCode) : string :=
  match c with
  | InternalError => "-32603"
  | InvalidRequest => "-32600"
  | MethodNotFound => "-32601"
  | InvalidParams => "-32602"
  end.

(** [error.message]; the SDK's [McpError] prefixes its code. *)
Definition exn_message (e : Exn) : string :=
  match e with
  | EMcp c m => "MCP error " ++ code_number c ++ ": " ++ m
  | EError m => m
  end.

Inductive Outcome (A : Type) : Type :=
| Ok (a : A)
| Throw (e : Exn).
Arguments Ok {A} a.
Arguments Throw {A} e.

Inductive Level : Type := LLog | LWarn | LError.

(** Observable events, in program order: console output of [index.ts],
    [config.ts] and [ping]; liveness probes; calls of client methods. *)
Inductive Event : Type :=
| Console (lvl : Level) (text : string)
| ConsoleExn (text : string) (e : Exn)
| Ping (cluster : string)
| Call (cluster : string) (method : string) (params : list JValue).

Definition Env := string -> option string.

Definition env_of (l : list (string * string)) : Env := fun k => lookup k l.

Definition env_remove (k : string) (env : Env) : Env :=
  fun k' => if String.eqb k' k then None else env k'.

(** [process.env.K] *)
Definition env_get (env : Env) (k : string) : JValue :=
  match env k with Some s => JStr s | None => JUndefined end.

(* ================================================================= *)
(** ** Validated configuration ([src/types/config.ts]) *)

Record AuthConfig : Type := mkAuth {
  username : option string;
  password : option string;
  apiKey : option string;
  awsRegion : option string;
  awsService : option string
}.

Record SslConfig : Type := mkSsl {
  rejectUnauthorized : bool;
  ca : option string;
  cert : option string;
  key : option string;
  caCertPath : option string;
  caBundle : option string
}.

(** [OpenSearchClusterConfig], the output type of
    [OpenSearchClusterConfigSchema]. *)
Record OpenSearchClusterConfig : Type := mkCluster {
  node : string;
  nodes : option (list string);
  auth : option AuthConfig;
  ssl : option SslConfig;
  requestTimeout : Z;
  pingTimeout : Z;
  maxRetries : Z;
  compression : bool;
  defaultIndex : option string;
  indexPrefix : option string
}.

(** [OpenSearchConfig]: the record of named clusters, in key order. *)
Record OpenSearchConfig : Type := mkConfig {
  clusters : list (string * OpenSearchClusterConfig)
}.

(** The credentials [createClient] passes to the client library. *)
Inductive ClientAuth : Type :=
| BasicAuth (user pass : string)
| ApiKeyAuth (apiKey : string).

(** The [https.AgentOptions] assembled for an https node. *)
Record AgentOptions : Type := mkAgent {
  agent_rejectUnauthorized : bool;
  agent_ca : option string;
  agent_cert : option string;
  agent_key : option string
}.

(** The [clientConfig] object passed to [new Client]. *)
Record ClientOptions : Type := mkOptions {
  opt_node : string;
  opt_nodes : option (list string);
  opt_requestTimeout : Z;
  opt_pingTimeout : Z;
  opt_maxRetries : Z;
  opt_compression : bool;
  opt_auth : option ClientAuth;
  opt_ssl : option AgentOptions
}.

(** Outcome of the client library's ping: an HTTP status, or an exception. *)
Inductive ProbeOutcome : Type :=
| Status (code : Z)
| ProbeError (message : string).

(** Everything the repository calls but does not define. *)
Record World : Type := mkWorld {
  (** [JSON.parse]: [None] when it throws. *)
  JSON_parse : string -> option JValue;
  (** [parseInt] *)
  parseInt : string -> JValue;
  (** zod's [z.string().url()] test *)
  is_url : string -> bool;
  (** the text zod's issues are rendered to, one line per issue *)
  zod_issues : JValue -> string;
  (** [this.client.ping()] of the client built for a cluster entry *)
  probe : string -> OpenSearchClusterConfig -> ProbeOutcome;
  (** a method of [OpenSearchClient] run on a cluster with its arguments:
      the response body, or the message of the error it throws *)
  backend : string -> string -> list JValue -> JValue + string;
  (** [fs.readFileSync(path, 'utf8')]: the content, or the thrown error
      as it prints *)
  readFileSync : string -> string + string;
  (** [new Client(options)] of the client library: the message of the
      error it throws when it rejects the options (a node whose protocol
      it does not speak, say), [None] when it builds the client *)
  new_Client : ClientOptions -> option string;
  (** the message of the [ReferenceError] that calling [require] raises
      in an ES module, which this program is ([index.ts] reads
      [import.meta.url]) *)
  require_error : string
}.

Notation "x <-? a ; b" :=
  (match a with Some x => b | None => None end)
  (at level 61, a at next level, right associativity, only parsing).

(** [z.string().optional()] *)
Definition parse_opt_string (v : JValue) : option (option string) :=
  match v with
  | JUndefined => Some None
  | JStr s => Some (Some s)
  | _ => None
  end.

(** [z.number().default(d)] *)
Definition parse_number_default (d : Z) (v : JValue) : option Z :=
  match v with
  | JUndefined => Some d
  | JNum n => Some n
  | _ => None
  end.

(** [z.boolean().default(d)] *)
Definition parse_bool_default (d : bool) (v : JValue) : option bool :=
  match v with
  | JUndefined => Some d
  | JBool b => Some b
  | _ => None
  end.

Section Schema.
Variable W : World.

(** [z.string().url()] *)
Definition parse_url (v : JValue) : option string :=
  match v with
  | JStr s => if is_url W s then Some s else None
  | _ => None
  end.

Fixpoint parse_url_list (xs : list JValue) : option (list string) :=
  match xs with
  | [] => Some []
  | x :: rest =>
      u <-? parse_url x ;
      us <-? parse_url_list rest ;
      Some (u :: us)
  end.

(** [z.array(z.string().url()).optional()] *)
Definition parse_nodes (v : JValue) : option (option (list string)) :=
  match v with
  | JUndefined => Some None
  | JArr xs => us <-? parse_url_list xs ; Some (Some us)
  | _ => None
  end.

Definition parse_auth (v : JValue) : option (option AuthConfig) :=
  match v with
  | JUndefined => Some None
  | JObj ps =>
      u <-? parse_opt_string (get ps "username") ;
      p <-? parse_opt_string (get ps "password") ;
      k <-? parse_opt_string (get ps "apiKey") ;
      r <-? parse_opt_string (get ps "awsRegion") ;
      s <-? parse_opt_string (get ps "awsService") ;
      Some (Some (mkAuth u p k r s))
  | _ => None
  end.

Definition parse_ssl (v : JValue) : option (option SslConfig) :=
  match v with
  | JUndefined => Some None
  | JObj ps =>
      r <-? parse_bool_default true (get ps "rejectUnauthorized") ;
      a <-? parse_opt_string (get ps "ca") ;
      c <-? parse_opt_string (get ps "cert") ;
      k <-? parse_opt_string (get ps "key") ;
      p <-? parse_opt_string (get ps "caCertPath") ;
      b <-? parse_opt_string (get ps "caBundle") ;
      Some (Some (mkSsl r a c k p b))
  | _ => None
  end.

(** [OpenSearchClusterConfigSchema.parse]: [None] when it throws. *)
Definition parse_cluster (v : JValue) : option OpenSearchClusterConfig :=
  match v with
  | JObj ps =>
      n <-? parse_url (get ps "node") ;
      ns <-? parse_nodes (get ps "nodes") ;
      a <-? parse_auth (get ps "auth") ;
      s <-? parse_ssl (get ps "ssl") ;
      rt <-? parse_number_default 30000 (get ps "requestTimeout") ;
      pt <-? parse_number_default 3000 (get ps "pingTimeout") ;
      mr <-? parse_number_default 3 (get ps "maxRetries") ;
      cp <-? parse_bool_default false (get ps "compression") ;
      di <-? parse_opt_string (get ps "defaultIndex") ;
      ip <-? parse_opt_string (get ps "indexPrefix") ;
      Some (mkCluster n ns a s rt pt mr cp di ip)
  | _ => None
  end.

(** [z.record(z.string(), OpenSearchClusterConfigSchema)]: every value
    must pass; one failing value fails the record.  zod checks the value
    under the key [__proto__] like any other and then leaves that key out
    of the object it returns. *)
Fixpoint parse_record (es : Props)
  : option (list (string * OpenSearchClusterConfig)) :=
  match es with
  | [] => Some []
  | (k, v) :: rest =>
      c <-? parse_cluster v ;
      cs <-? parse_record rest ;
      Some (if String.eqb k "__proto__" then cs else (k, c) :: cs)
  end.

(** [OpenSearchConfigSchema.parse] *)
Definition parse_config (v : JValue) : option OpenSearchConfig :=
  match v with
  | JObj ps =>
      match get ps "clusters" with
      | JObj es => cs <-? parse_record es ; Some (mkConfig cs)
      | _ => None
      end
  | _ => None
  end.

(** [validateConfig]: the multi-cluster shape first, then the legacy
    single-cluster shape wrapped as cluster [default], else an [Error]. *)
Definition validateConfig (config : JValue) : Outcome OpenSearchConfig :=
  match parse_config config with
  | Some c => Ok c
  | None =>
      match parse_cluster config with
      | Some legacyConfig => Ok (mkConfig [("default", legacyConfig)])
      | None =>
          Throw (EError ("Invalid OpenSearch configuration:" ++ newline
                         ++ zod_issues W config))
      end
  end.

(* --------------------------------------------------------------- *)
(** *** [createConfigFromEnv] *)

Section FromEnv.
Variable env : Env.

Definition E (k : string) : JValue := env_get env k.

(** The object literal both shorthand branches build. *)
Definition cluster_from_env : JValue :=
  JObj [
    ("node", js_or (E "OPENSEARCH_URL") (E "OPENSEARCH_NODE"));
    ("nodes",
      match env "OPENSEARCH_NODES" with
      | Some s => if is_empty s then JUndefined
                  else JArr (map JStr (split_on "," s))
      | None => JUndefined
      end);
    ("auth", JObj [
      ("username", E "OPENSEARCH_USERNAME");
      ("password", E "OPENSEARCH_PASSWORD");
      ("apiKey", E "OPENSEARCH_API_KEY");
      ("awsRegion", E "AWS_REGION");
      ("awsService", js_or (E "AWS_SERVICE") (JStr "es"))]);
    ("ssl", JObj [
      ("rejectUnauthorized",
        JBool (negb (match env "OPENSEARCH_REJECT_UNAUTHORIZED" with
                     | Some s => String.eqb s "false"
                     | None => false
                     end)));
      ("caCertPath", E "OPENSEARCH_CA_CERT_PATH");
      ("caBundle", E "OPENSEARCH_CA_BUNDLE")]);
    ("requestTimeout",
      match env "OPENSEARCH_REQUEST_TIMEOUT" with
      | Some s => if is_empty s then JUndefined else parseInt W s
      | None => JUndefined
      end);
    ("defaultIndex", E "OPENSEARCH_DEFAULT_INDEX");
    ("indexPrefix", E "OPENSEARCH_INDEX_PREFIX")
  ].

Definition has_endpoint : bool :=
  truthy (E "OPENSEARCH_URL") || truthy (E "OPENSEARCH_NODE").

Definition bulk_warning : Event :=
  Console LWarn
    "Failed to parse OPENSEARCH_CLUSTERS JSON, falling back to legacy format".

(** The legacy branch and the final [return { clusters: {} }]. *)
Definition legacy_or_empty : JValue :=
  if has_endpoint
  then JObj [("clusters", JObj [("default", cluster_from_env)])]
  else JObj [("clusters", JObj [])].

(** Lines 130-139: the bulk declaration, when the variable is set and
    not empty; a parse failure is caught, warned about, and falls
    through to lines 141-167. *)
Definition bulk_or_later : JValue * list Event :=
  match env "OPENSEARCH_CLUSTERS" with
  | Some text =>
      if is_empty text then (legacy_or_empty, [])
      else match JSON_parse W text with
           | Some clustersConfig =>
               (JObj [("clusters", clustersConfig)], [])
           | None => (legacy_or_empty, [bulk_warning])
           end
  | None => (legacy_or_empty, [])
  end.

(** [clusters[clusterName] = cluster] on the fresh object [clusters],
    line 105.  Any name but one adds an own property.  Assigning to
    [__proto__] makes the cluster object the prototype of [clusters]
    instead: [clusters] gets no own property, and what enumeration
    ([for ... in], which zod's record uses) and property reads find in it
    are the properties of the cluster object. *)
Definition assign_cluster (clusterName : string) (cluster : JValue)
  : JValue :=
  if String.eqb clusterName "__proto__" then cluster
  else JObj [(clusterName, cluster)].

(** The returned object and what was written to the console. *)
Definition createConfigFromEnv : JValue * list Event :=
  let clusterName := E "OPENSEARCH_CLUSTER_NAME" in
  if truthy clusterName && has_endpoint
  then (JObj [("clusters",
               assign_cluster (ToString clusterName) cluster_from_env)], [])
  else bulk_or_later.
End FromEnv.
End Schema.

(* ================================================================= *)
(** ** The server ([src/index.ts]) *)

(** An [OpenSearchClient] instance: the configuration it was built from,
    tagged with the cluster entry it was built for (its identity). *)
Record OpenSearchClient : Type := mkClient {
  client_cluster : string;
  client_config : OpenSearchClusterConfig
}.

(** The fields of [OpenSearchMCPServer] that change. *)
Record Server : Type := mkServer {
  opensearchClients : list (string * OpenSearchClient);
  config : option OpenSearchConfig
}.

Definition new_server : Server := mkServer [] None.

(** *** A JavaScript [Map] with string keys, in insertion order *)

Definition map_keys {A : Type} (m : list (string * A)) : list string :=
  map fst m.

(** [m.set(k, v)]: an existing key keeps its position. *)
Fixpoint map_set {A : Type} (k : string) (v : A) (m : list (string * A))
  : list (string * A) :=
  match m with
  | [] => [(k, v)]
  | (k', v') :: rest =>
      if String.eqb k k' then (k, v) :: rest else (k', v') :: map_set k v rest
  end.

(** [m.get(key)] for an arbitrary key value: only a string can be equal
    to a string key. *)
Definition map_get_js {A : Type} (key : JValue) (m : list (string * A))
  : option A :=
  match key with
  | JStr s => lookup s m
  | _ => None
  end.

(** *** The monad of server methods: state, trace, exceptions *)

Definition M (A : Type) : Type := Server -> Outcome A * Server * list Event.

Definition ret {A : Type} (a : A) : M A := fun s => (Ok a, s, []).

Definition throw {A : Type} (e : Exn) : M A := fun s => (Throw e, s, []).

Definition bind {A B : Type} (m : M A) (f : A -> M B) : M B :=
  fun s =>
    let '(r, s1, t1) := m s in
    match r with
    | Ok a => let '(r2, s2, t2) := f a s1 in (r2, s2, t1 ++ t2)
    | Throw e => (Throw e, s1, t1)
    end.

(** [try { m } catch (error) { h error }] *)
Definition try_catch {A : Type} (m : M A) (h : Exn -> M A) : M A :=
  fun s =>
    let '(r, s1, t1) := m s in
    match r with
    | Ok a => (Ok a, s1, t1)
    | Throw e => let '(r2, s2, t2) := h e s1 in (r2, s2, t1 ++ t2)
    end.

Definition emit (ev : Event) : M unit := fun s => (Ok tt, s, [ev]).

Definition emit_all (evs : list Event) : M unit := fun s => (Ok tt, s, evs).

Definition clients : M (list (string * OpenSearchClient)) :=
  fun s => (Ok (opensearchClients s), s, []).

Definition set_client (k : string) (c : OpenSearchClient) : M unit :=
  fun s => (Ok tt, mkServer (map_set k c (opensearchClients s)) (config s), []).

Definition set_config (c : OpenSearchConfig) : M unit :=
  fun s => (Ok tt, mkServer (opensearchClients s) (Some c), []).

Definition lift {A : Type} (o : Outcome A) : M A := fun s => (o, s, []).

Notation "x <- m ;; k" := (bind m (fun x => k))
  (at level 61, m at next level, right associativity).
Notation "m ;; k" := (bind m (fun _ => k))
  (at level 61, right associativity).

(** [for (const x of xs) body(x)] *)
Fixpoint for_each {A : Type} (xs : list A) (body : A -> M unit) : M unit :=
  match xs with
  | [] => ret tt
  | x :: rest => body x ;; for_each rest body
  end.

(** *** [OpenSearchClient] ([src/opensearch/client.ts]) *)

(** The public methods the class defines, lines 118-501. *)
Definition OpenSearchClient_methods : list string :=
  [ "ping"; "info"; "clusterHealth"; "clusterStats"; "search"; "index";
    "bulk"; "get"; "delete"; "update"; "catIndices"; "indexStats";
    "createIndex"; "deleteIndex"; "indexExists"; "getMapping"; "putMapping";
    "refresh"; "count"; "aggregate"; "close" ].

Definition has_method (m : string) : bool :=
  existsb (String.eqb m) OpenSearchClient_methods.

(** [applyIndexPrefix], lines 489-494. *)
Definition applyIndexPrefix (c : OpenSearchClient) (index : string) : string :=
  match indexPrefix (client_config c) with
  | Some p =>
      if negb (is_empty p) && negb (String.prefix p index)
      then p ++ index
      else index
  | None => index
  end.

(** *** [createClient], lines 42-113 *)

(** A string that is set and not empty. *)
Definition given (o : option string) : option string :=
  match o with
  | Some s => if is_empty s then None else Some s
  | None => None
  end.

Definition ca_warning (path text : string) : Event :=
  Console LWarn ("Warning: Could not read CA certificate file " ++ path
                 ++ ": " ++ text).

Section CreateClient.
Variable W : World.

(** Lines 54-75.  With a non-empty [awsRegion], line 67 calls [require],
    which an ES module does not define: the call throws and the rest of
    the branch is never reached. *)
Definition clientAuth (a : AuthConfig) : Outcome (option ClientAuth) :=
  let first :=
    match given (username a), given (password a) with
    | Some u, Some p => Some (BasicAuth u p)
    | _, _ =>
        match given (apiKey a) with
        | Some k => Some (ApiKeyAuth k)
        | None => None
        end
    end in
  match given (awsRegion a) with
  | Some region => Throw (EError (require_error W))
  | None => Ok first
  end.

(** Lines 80-109. *)
Definition agentOptions (s : SslConfig) : AgentOptions * list Event :=
  let '(ca1, printed) :=
    match given (caCertPath s) with
    | Some path =>
        match readFileSync W path with
        | inl caCert => (Some caCert, [])
        | inr text => (None, [ca_warning path text])
        end
    | None => (None, [])
    end in
  let ca2 := match given (caBundle s) with
             | Some bundle => Some bundle
             | None => ca1
             end in
  (mkAgent (rejectUnauthorized s) ca2 (given (cert s)) (given (key s)),
   printed).

(** Lines 43-110: the object [clientConfig] as it stands at line 112, or
    the error thrown on the way, and what was printed. *)
Definition clientConfig (config : OpenSearchClusterConfig)
  : Outcome ClientOptions * list Event :=
  match match auth config with
        | Some a => clientAuth a
        | None => Ok None
        end with
  | Throw e => (Throw e, [])
  | Ok a =>
      let '(s, printed) :=
        match ssl config with
        | Some s =>
            if String.prefix "https" (node config)
            then let '(agent, printed) := agentOptions s in
                 (Some agent, printed)
            else (None, [])
        | None => (None, [])
        end in
      (Ok (mkOptions (node config) (nodes config) (requestTimeout config)
             (pingTimeout config) (maxRetries config) (compression config)
             a s),
       printed)
  end.

(** [createClient], and with it [new OpenSearchClient(config)]: the
    options the library client was built from, or the error thrown by
    the lines above or by [new Client] at line 112, and what was
    printed. *)
Definition createClient (config : OpenSearchClusterConfig)
  : Outcome ClientOptions * list Event :=
  let '(built, printed) := clientConfig config in
  match built with
  | Ok options =>
      match new_Client W options with
      | Some message => (Throw (EError message), printed)
      | None => (Ok options, printed)
      end
  | Throw e => (Throw e, printed)
  end.
End CreateClient.

Section Server.
Variable W : World.
Variable env : Env.

(** [client.ping()], lines 118-126. *)
Definition ping (c : OpenSearchClient) : M bool :=
  emit (Ping (client_cluster c)) ;;
  match probe W (client_cluster c) (client_config c) with
  | Status code => ret (code =? 200)%Z
  | ProbeError msg =>
      emit (ConsoleExn "OpenSearch ping failed:" (EError msg)) ;;
      ret false
  end.

(** [client.method(...params)].  A name the class does not define reads
    as [undefined], and calling it is a [TypeError].  A defined method is
    one call on the backend of that client (what it prints or prepares
    inside is not traced). *)
Definition invoke (c : OpenSearchClient) (method : string)
           (params : list JValue) : M JValue :=
  if has_method method then
    emit (Call (client_cluster c) method params) ;;
    match backend W (client_cluster c) method params with
    | inl body => ret body
    | inr msg => throw (EError msg)
    end
  else throw (EError ("client." ++ method ++ " is not a function")).

(** The body of the loop at lines 87-99.  [new OpenSearchClient(config)]
    runs [createClient]; what that throws leaves the loop and is caught
    at line 106. *)
Definition connect (entry : string * OpenSearchClusterConfig) : M unit :=
  let '(clusterName, clusterConfig) := entry in
  let '(built, printed) := createClient W clusterConfig in
  emit_all printed ;;
  lift built ;;
  let client := mkClient clusterName clusterConfig in
  isConnected <- ping client ;;
  if negb isConnected then
    emit (Console LWarn ("Warning: Failed to connect to OpenSearch cluster '"
                         ++ clusterName ++ "'"))
  else
    set_client clusterName client ;;
    emit (Console LLog ("Successfully connected to OpenSearch cluster '"
                        ++ clusterName ++ "'")).

Definition no_cluster_message : string :=
  "Failed to connect to any OpenSearch cluster".

(** [initializeOpenSearch], lines 74-113. *)
Definition initializeOpenSearch : M unit :=
  cs <- clients ;;
  if (0 <? length cs)%nat then ret tt
  else
    try_catch
      (let '(envConfig, printed) := createConfigFromEnv W env in
       emit_all printed ;;
       cfg <- lift (validateConfig W envConfig) ;;
       set_config cfg ;;
       for_each (clusters cfg) connect ;;
       cs' <- clients ;;
       if (length cs' =? 0)%nat then throw (EError no_cluster_message)
       else
         emit (Console LLog ("Initialized " ++ nat_to_string (length cs')
                             ++ " OpenSearch cluster(s)")))
      (fun error =>
         emit (ConsoleExn "Failed to initialize OpenSearch clients:" error) ;;
         throw (EMcp InternalError
                  ("Failed to initialize OpenSearch: " ++ exn_message error))).

Definition first_key (cs : list (string * OpenSearchClient)) : JValue :=
  match map_keys cs with
  | k :: _ => JStr k
  | [] => JUndefined
  end.

Definition not_found_message (targetCluster : JValue)
           (cs : list (string * OpenSearchClient)) : string :=
  "Cluster '" ++ ToString targetCluster ++ "' not found. Available clusters: "
  ++ join ", " (map_keys cs).

(** [getClient], lines 118-139.  An omitted argument is [JUndefined]. *)
Definition getClient (clusterName : JValue) : M OpenSearchClient :=
  cs <- clients ;;
  let targetCluster := js_or clusterName (first_key cs) in
  if negb (truthy targetCluster) then
    throw (EMcp InvalidRequest
      "No clusters configured. Please configure at least one OpenSearch cluster.")
  else
    match map_get_js targetCluster cs with
    | None => throw (EMcp InvalidRequest (not_found_message targetCluster cs))
    | Some client => ret client
    end.

(** [getAvailableClusters], lines 144-146. *)
Definition getAvailableClusters : M (list string) :=
  cs <- clients ;; ret (map_keys cs).

(* --------------------------------------------------------------- *)
(** *** The tool handlers, lines 833-1334 *)

(** A tool result [{ content: [{ type: "text", text }] }] whose text is
    [JSON.stringify(json, null, 2)]. *)
Inductive ToolResult : Type :=
| TextContent (json : JValue).

(** [Object.keys(v)] *)
Definition Object_keys (v : JValue) : Outcome (list string) :=
  match v with
  | JObj ps => Ok (map fst ps)
  | JArr xs => Ok (map nat_to_string (seq 0 (length xs)))
  | JStr s => Ok (map nat_to_string (seq 0 (String.length s)))
  | JUndefined | JNull =>
      Throw (EError "Cannot convert undefined or null to object")
  | _ => Ok []
  end.

(** Every handler but [handleListClusters] has one shape: read
    [args.cluster], resolve the client, call one client method on
    arguments taken from [args], wrap what it returns. *)
Record ToolHandler : Type := mkHandler {
  method : string;
  params : Props -> list JValue;
  respond : Props -> JValue -> Outcome JValue
}.

Definition undefined_args_message : string :=
  "Cannot read properties of undefined (reading 'cluster')".

(** [args] is [None] when the request carries no [arguments]. *)
Definition run_handler (h : ToolHandler) (args : option Props)
  : M ToolResult :=
  match args with
  | None => throw (EError undefined_args_message)
  | Some a =>
      client <- getClient (get a "cluster") ;;
      result <- invoke client (method h) (params h a) ;;
      json <- lift (respond h a result) ;;
      ret (TextContent json)
  end.

Definition plain (_ : Props) (result : JValue) : Outcome JValue := Ok result.

Definition done (what verb field : string) (a : Props) (result : JValue)
  : Outcome JValue :=
  Ok (JObj [("success", JBool true);
            ("message", JStr (what ++ " '" ++ ToString (get a field) ++ "' "
                              ++ verb ++ " successfully"));
            ("details", result)]).

Definition summary (total names : string) (_ : Props) (result : JValue)
  : Outcome JValue :=
  match Object_keys result with
  | Ok ks => Ok (JObj [(total, JNum (Z.of_nat (length ks)));
                       (names, JArr (map JStr ks));
                       ("details", result)])
  | Throw e => Throw e
  end.

Definition handleListClusters (_ : option Props) : M ToolResult :=
  cs <- getAvailableClusters ;;
  ret (TextContent (JObj [("clusters", JArr (map JStr cs));
                          ("count", JNum (Z.of_nat (length cs)))])).

Definition searchParams (a : Props) : Props :=
  let p0 := [("index", get a "index");
             ("size", js_or (get a "size") (JNum 10));
             ("from", js_or (get a "from") (JNum 0))] in
  let p1 := if truthy (get a "query")
            then set_prop "body" (JObj [("query", get a "query")]) p0
            else if truthy (get a "q") then set_prop "q" (get a "q") p0
            else p0 in
  let p2 := if truthy (get a "sort")
            then set_prop "sort" (get a "sort") p1 else p1 in
  let p3 := match get a "_source" with
            | JUndefined => p2
            | src => set_prop "_source" src p2
            end in
  if truthy (get a "highlight") then
    let body := match get p3 "body" with
                | JObj b => b
                | _ => []
                end in
    set_prop "body" (JObj (set_prop "highlight" (get a "highlight") body)) p3
  else p3.

Definition handleSearch : ToolHandler :=
  mkHandler "search" (fun a => [JObj (searchParams a)]) plain.

Definition handleAggregate : ToolHandler :=
  mkHandler "aggregate"
    (fun a => [get a "index"; get a "aggregations"; get a "query"]) plain.

Definition handleCount : ToolHandler :=
  mkHandler "count"
    (fun a => [get a "index";
               if truthy (get a "query")
               then JObj [("query", get a "query")] else JUndefined])
    plain.

Definition handleIndexDocument : ToolHandler :=
  mkHandler "index"
    (fun a => [JObj [("index", get a "index"); ("id", get a "id");
                     ("body", get a "document");
                     ("refresh", get a "refresh")]])
    plain.

Definition handleBulkIndex : ToolHandler :=
  mkHandler "bulk"
    (fun a => [JObj [("body", get a "operations");
                     ("refresh", get a "refresh")]])
    plain.

Definition handleGetDocument : ToolHandler :=
  mkHandler "get"
    (fun a => [JObj [("index", get a "index"); ("id", get a "id");
                     ("_source", get a "_source")]])
    plain.

Definition updateBody (a : Props) : Props :=
  let b1 := if truthy (get a "doc") then [("doc", get a "doc")] else [] in
  let b2 := if truthy (get a "script")
            then set_prop "script" (get a "script") b1 else b1 in
  if truthy (get a "upsert")
  then set_prop "upsert" (get a "upsert") b2 else b2.

Definition handleUpdateDocument : ToolHandler :=
  mkHandler "update"
    (fun a => [JObj [("index", get a "index"); ("id", get a "id");
                     ("body", JObj (updateBody a));
                     ("refresh", get a "refresh")]])
    plain.

Definition handleDeleteDocument : ToolHandler :=
  mkHandler "delete"
    (fun a => [JObj [("index", get a "index"); ("id", get a "id");
                     ("refresh", get a "refresh")]])
    plain.

Definition handleListIndices : ToolHandler :=
  mkHandler "catIndices" (fun a => [JObj a]) plain.

Definition handleCreateIndex : ToolHandler :=
  mkHandler "createIndex"
    (fun a => [get a "index"; get a "settings"; get a "mappings"]) plain.

Definition handleDeleteIndex : ToolHandler :=
  mkHandler "deleteIndex" (fun a => [get a "index"]) plain.

Definition handleGetMapping : ToolHandler :=
  mkHandler "getMapping" (fun a => [get a "index"]) plain.

Definition handlePutMapping : ToolHandler :=
  mkHandler "putMapping" (fun a => [get a "index"; get a "mappings"]) plain.

Definition handleClusterHealth : ToolHandler :=
  mkHandler "clusterHealth" (fun a => [get a "index"; JObj a]) plain.

Definition handleClusterStats : ToolHandler :=
  mkHandler "clusterStats" (fun _ => []) plain.

Definition handleIndexStats : ToolHandler :=
  mkHandler "indexStats" (fun a => [get a "index"]) plain.

Definition handleClusterInfo : ToolHandler :=
  mkHandler "info" (fun _ => []) plain.

Definition handleCreateUser : ToolHandler :=
  mkHandler "createUser"
    (fun a => [get a "username"; get a "password"; get a "attributes"])
    (done "User" "created" "username").

Definition handleDeleteUser : ToolHandler :=
  mkHandler "deleteUser" (fun a => [get a "username"])
    (done "User" "deleted" "username").

Definition handleGetUser : ToolHandler :=
  mkHandler "getUser" (fun a => [get a "username"]) plain.

Definition handleListUsers : ToolHandler :=
  mkHandler "listUsers" (fun _ => []) (summary "total_users" "users").

Definition handleCreateRole : ToolHandler :=
  mkHandler "createRole" (fun a => [get a "role_name"; get a "permissions"])
    (done "Role" "created" "role_name").

Definition handleDeleteRole : ToolHandler :=
  mkHandler "deleteRole" (fun a => [get a "role_name"])
    (done "Role" "deleted" "role_name").

Definition handleGetRole : ToolHandler :=
  mkHandler "getRole" (fun a => [get a "role_name"]) plain.

Definition handleListRoles : ToolHandler :=
  mkHandler "listRoles" (fun _ => []) (summary "total_roles" "roles").

Definition handleMapRole : ToolHandler :=
  mkHandler "createRoleMapping"
    (fun a => [get a "role_name"; get a "users"; get a "backend_roles";
               get a "hosts"])
    (done "Role mapping for" "created" "role_name").

Definition handleGetRoleMapping : ToolHandler :=
  mkHandler "getRoleMapping" (fun a => [get a "role_name"]) plain.

Definition handleListRoleMappings : ToolHandler :=
  mkHandler "listRoleMappings" (fun _ => [])
    (summary "total_mappings" "role_mappings").

(* --------------------------------------------------------------- *)
(** *** The tool-call request handler, lines 747-829 *)

Inductive Case : Type :=
| ListClusters
| ClusterTool (h : ToolHandler).

(** The [case] labels of the [switch], in order. *)
Definition cases : list (string * Case) :=
  [ ("opensearch_list_clusters", ListClusters);
    ("opensearch_search", ClusterTool handleSearch);
    ("opensearch_aggregate", ClusterTool handleAggregate);
    ("opensearch_count", ClusterTool handleCount);
    ("opensearch_index_document", ClusterTool handleIndexDocument);
    ("opensearch_bulk_index", ClusterTool handleBulkIndex);
    ("opensearch_get_document", ClusterTool handleGetDocument);
    ("opensearch_update_document", ClusterTool handleUpdateDocument);
    ("opensearch_delete_document", ClusterTool handleDeleteDocument);
    ("opensearch_list_indices", ClusterTool handleListIndices);
    ("opensearch_create_index", ClusterTool handleCreateIndex);
    ("opensearch_delete_index", ClusterTool handleDeleteIndex);
    ("opensearch_get_mapping", ClusterTool handleGetMapping);
    ("opensearch_put_mapping", ClusterTool handlePutMapping);
    ("opensearch_cluster_health", ClusterTool handleClusterHealth);
    ("opensearch_cluster_stats", ClusterTool handleClusterStats);
    ("opensearch_index_stats", ClusterTool handleIndexStats);
    ("opensearch_cluster_info", ClusterTool handleClusterInfo);
    ("opensearch_create_user", ClusterTool handleCreateUser);
    ("opensearch_delete_user", ClusterTool handleDeleteUser);
    ("opensearch_get_user", ClusterTool handleGetUser);
    ("opensearch_list_users", ClusterTool handleListUsers);
    ("opensearch_create_role", ClusterTool handleCreateRole);
    ("opensearch_delete_role", ClusterTool handleDeleteRole);
    ("opensearch_get_role", ClusterTool handleGetRole);
    ("opensearch_list_roles", ClusterTool handleListRoles);
    ("opensearch_map_role", ClusterTool handleMapRole);
    ("opensearch_get_role_mapping", ClusterTool handleGetRoleMapping);
    ("opensearch_list_role_mappings", ClusterTool handleListRoleMappings) ].

(** [switch (name) { ... default: throw ... }] *)
Definition dispatch (name : string) (args : option Props) : M ToolResult :=
  match lookup name cases with
  | Some ListClusters => handleListClusters args
  | Some (ClusterTool h) => run_handler h args
  | None => throw (EMcp MethodNotFound ("Unknown tool: " ++ name))
  end.

Definition not_initialized_message : string :=
  "OpenSearch clients not initialized".

(** The [catch] clause of the tool-call handler. *)
Definition rewrap (name : string) (error : Exn) : M ToolResult :=
  match error with
  | EMcp _ _ => throw error
  | EError msg =>
      throw (EMcp InternalError ("Tool " ++ name ++ " failed: " ++ msg))
  end.

(** The [CallToolRequestSchema] handler. *)
Definition callTool (name : string) (args : option Props) : M ToolResult :=
  initializeOpenSearch ;;
  cs <- clients ;;
  if (length cs =? 0)%nat
  then throw (EMcp InternalError not_initialized_message)
  else
    try_catch (dispatch name args) (rewrap name).
End Server.

(* ================================================================= *)
(** ** The tool catalog (the [ListToolsRequestSchema] handler, lines 152-745) *)

Record Tool : Type := mkTool {
  tool_name : string;
  properties : list string;
  required : list string
}.

Definition catalog : list Tool :=
  [ mkTool "opensearch_list_clusters" [] [];
    mkTool "opensearch_search"
      ["cluster"; "index"; "query"; "q"; "size"; "from"; "sort"; "_source";
       "highlight"] [];
    mkTool "opensearch_aggregate"
      ["cluster"; "index"; "aggregations"; "query"; "size"]
      ["index"; "aggregations"];
    mkTool "opensearch_count" ["cluster"; "index"; "query"] [];
    mkTool "opensearch_index_document"
      ["cluster"; "index"; "id"; "document"; "refresh"] ["index"; "document"];
    mkTool "opensearch_bulk_index"
      ["cluster"; "operations"; "refresh"] ["operations"];
    mkTool "opensearch_get_document"
      ["cluster"; "index"; "id"; "_source"] ["index"; "id"];
    mkTool "opensearch_update_document"
      ["cluster"; "index"; "id"; "doc"; "script"; "upsert"; "refresh"]
      ["index"; "id"];
    mkTool "opensearch_delete_document"
      ["cluster"; "index"; "id"; "refresh"] ["index"; "id"];
    mkTool "opensearch_list_indices"
      ["cluster"; "format"; "health"; "status"] [];
    mkTool "opensearch_create_index"
      ["cluster"; "index"; "settings"; "mappings"] ["index"];
    mkTool "opensearch_delete_index" ["cluster"; "index"] ["index"];
    mkTool "opensearch_get_mapping" ["cluster"; "index"] [];
    mkTool "opensearch_put_mapping"
      ["cluster"; "index"; "mappings"] ["index"; "mappings"];
    mkTool "opensearch_cluster_health"
      ["cluster"; "index"; "level"; "wait_for_status"; "timeout"] [];
    mkTool "opensearch_cluster_stats" ["cluster"] [];
    mkTool "opensearch_index_stats" ["cluster"; "index"; "metric"] [];
    mkTool "opensearch_cluster_info" ["cluster"] [];
    mkTool "opensearch_create_user"
      ["cluster"; "username"; "password"; "attributes"]
      ["username"; "password"];
    mkTool "opensearch_delete_user" ["cluster"; "username"] ["username"];
    mkTool "opensearch_get_user" ["cluster"; "username"] ["username"];
    mkTool "opensearch_list_users" ["cluster"] [];
    mkTool "opensearch_create_role"
      ["cluster"; "role_name"; "permissions"] ["role_name"; "permissions"];
    mkTool "opensearch_delete_role" ["cluster"; "role_name"] ["role_name"];
    mkTool "opensearch_get_role" ["cluster"; "role_name"] ["role_name"];
    mkTool "opensearch_list_roles" ["cluster"] [];
    mkTool "opensearch_map_role"
      ["cluster"; "role_name"; "users"; "backend_roles"; "hosts"]
      ["role_name"];
    mkTool "opensearch_get_role_mapping" ["cluster"; "role_name"]
      ["role_name"];
    mkTool "opensearch_list_role_mappings" ["cluster"] [] ].

Definition catalog_names : list string := map tool_name catalog.

(* ================================================================= *)
(** ** Notions used in the statements *)

(** Whether the liveness probe of a configured cluster succeeds:
    the ping answers with status 200. *)
Definition probe_ok (W : World) (entry : string * OpenSearchClusterConfig)
  : bool :=
  match probe W (fst entry) (snd entry) with
  | Status code => (code =? 200)%Z
  | ProbeError _ => false
  end.

(** Whether [new OpenSearchClient(config)] returns for a configured
    cluster, rather than throws. *)
Definition constructs (W : World) (entry : string * OpenSearchClusterConfig)
  : bool :=
  match fst (createClient W (snd entry)) with
  | Ok _ => true
  | Throw _ => false
  end.

(** The AWS region a cluster is configured with, when not empty. *)
Definition aws_region (c : OpenSearchClusterConfig) : option string :=
  match auth c with
  | Some a => given (awsRegion a)
  | None => None
  end.

Definition client_entry (entry : string * OpenSearchClusterConfig)
  : string * OpenSearchClient :=
  (fst entry, mkClient (fst entry) (snd entry)).

(** The object [createConfigFromEnv] hands to [validateConfig]. *)
Definition declared (entries : Props) : JValue :=
  JObj [("clusters", JObj entries)].

(** What a handler makes of the backend's answer once the tool-call
    handler has caught and re-wrapped a failure. *)
Definition answered (name : string) (h : ToolHandler) (a : Props)
           (answer : JValue + string) : Outcome ToolResult :=
  match answer with
  | inl body =>
      match respond h a body with
      | Ok json => Ok (TextContent json)
      | Throw (EMcp c m) => Throw (EMcp c m)
      | Throw (EError m) =>
          Throw (EMcp InternalError ("Tool " ++ name ++ " failed: " ++ m))
      end
  | inr m => Throw (EMcp InternalError ("Tool " ++ name ++ " failed: " ++ m))
  end.

(** The catalog tools whose handler calls a method that [OpenSearchClient]
    does not define. *)
Definition tools_without_method : list string :=
  map fst
    (filter (fun nc => match snd nc with
                       | ListClusters => false
                       | ClusterTool h => negb (has_method (method h))
                       end) cases).

(* ================================================================= *)
(** ** The claims' wording, where a claim is compared with the code *)

Module SpecWords.
Section Rules.
Variable W : World.
Variable env : Env.

(** Rule 1: a cluster name and an endpoint, together. *)
Definition named_source : option JValue :=
  if truthy (E env "OPENSEARCH_CLUSTER_NAME") && has_endpoint env
  then Some (JObj [(ToString (E env "OPENSEARCH_CLUSTER_NAME"),
                    cluster_from_env W env)])
  else None.

(** Rule 2: the serialized map of clusters, when set and parseable. *)
Definition bulk_source : option JValue :=
  match env "OPENSEARCH_CLUSTERS" with
  | Some text => if is_empty text then None else JSON_parse W text
  | None => None
  end.

(** Rule 3: an endpoint without a name, keyed by the fixed name. *)
Definition legacy_source : option JValue :=
  if has_endpoint env
  then Some (JObj [("default", cluster_from_env W env)])
  else None.

Definition sources : list (option JValue) :=
  [named_source; bulk_source; legacy_source].
End Rules.

(** How many cluster definitions a source's value holds. *)
Definition definitions (m : JValue) : nat :=
  match m with
  | JObj es => length es
  | _ => 0
  end.

(** "The first source that yields any cluster definitions wins";
    rule 4 is the empty map. *)
Fixpoint first_yielding (srcs : list (option JValue)) : JValue :=
  match srcs with
  | [] => JObj []
  | Some m :: rest =>
      if (0 <? definitions m)%nat then m else first_yielding rest
  | None :: rest => first_yielding rest
  end.

(** The first source that is present wins, whatever it holds. *)
Fixpoint first_present (srcs : list (option JValue)) : JValue :=
  match srcs with
  | [] => JObj []
  | Some m :: _ => m
  | None :: rest => first_present rest
  end.
End SpecWords.

(* ================================================================= *)
(** ** A concrete world for the worked examples *)

Module Sample.
Definition dq : string := String (ascii_of_nat 34) EmptyString.
Definition quoted (s : string) : string := dq ++ s ++ dq.

(** The JSON text of a map with the clusters [east] and [west]. *)
Definition east_west_text : string :=
  "{" ++ quoted "east" ++ ":{" ++ quoted "node" ++ ":"
  ++ quoted "http://east:9200" ++ "}," ++ quoted "west" ++ ":{"
  ++ quoted "node" ++ ":" ++ quoted "http://west:9200" ++ "}}".

Definition east_west_value : JValue :=
  JObj [("east", JObj [("node", JStr "http://east:9200")]);
        ("west", JObj [("node", JStr "http://west:9200")])].

(** A text [JSON.parse] rejects. *)
Definition malformed_text : string := "{east: http://east:9200".

(** [JSON.parse] on the documents the examples use: the two-cluster map,
    the empty object, and texts it rejects. *)
Definition parse (text : string) : option JValue :=
  if String.eqb text east_west_text then Some east_west_value
  else if String.eqb text "{}" then Some (JObj [])
  else None.

Fixpoint digits (s : string) (acc : option Z) : option Z :=
  match s with
  | EmptyString => acc
  | String c rest =>
      let n := nat_of_ascii c in
      if ((48 <=? n) && (n <=? 57))%nat
      then digits rest
             (Some (10 * match acc with Some a => a | None => 0 end
                    + Z.of_nat (n - 48)))%Z
      else acc
  end.

(** [parseInt] on unsigned decimal text. *)
Definition parse_int (s : string) : JValue :=
  match digits s None with
  | Some n => JNum n
  | None => JNaN
  end.

Definition url (s : string) : bool :=
  String.prefix "http://" s || String.prefix "https://" s.

(** One line per cluster entry whose [node] is not a URL. *)
Definition issues (config : JValue) : string :=
  match config with
  | JObj ps =>
      match get ps "clusters" with
      | JObj es =>
          join newline
            (map (fun e => ("clusters." ++ fst e ++ ".node: Invalid url")%string)
               (filter (fun e =>
                          match snd e with
                          | JObj c =>
                              match get c "node" with
                              | JStr s => negb (url s)
                              | _ => true
                              end
                          | _ => true
                          end) es))
      | _ => "clusters: Required"
      end
  | _ => "Expected object"
  end.

(** No file can be read. *)
Definition no_file (path : string) : string + string :=
  inr "Error: ENOENT: no such file or directory".

(** The client library builds a client from any options. *)
Definition accept (options : ClientOptions) : option string := None.

Definition no_require : string := "require is not defined".

(** The world in which exactly the clusters named in [down] refuse the
    connection, and every backend call is acknowledged. *)
Definition world (down : list string) : World :=
  mkWorld parse parse_int url issues
    (fun name _ =>
       if existsb (String.eqb name) down
       then ProbeError "connect ECONNREFUSED"
       else Status 200)
    (fun _ _ _ => inl (JObj [("acknowledged", JBool true)]))
    no_file accept no_require.

(** Bulk declaration of [east] and [west], with [west] as the default. *)
Definition env_east_west : Env :=
  env_of [("OPENSEARCH_CLUSTERS", east_west_text);
          ("OPENSEARCH_DEFAULT_CLUSTER", "west")].

Definition client_of (name url : string) : OpenSearchClient :=
  mkClient name
    (mkCluster url None None None 30000 3000 3 false None None).

Definition east : OpenSearchClient := client_of "east" "http://east:9200".
Definition west : OpenSearchClient := client_of "west" "http://west:9200".

Definition config_east_west : OpenSearchConfig :=
  mkConfig [("east", client_config east); ("west", client_config west)].

(** The server after both clusters answered the probe. *)
Definition server_east_west : Server :=
  mkServer [("east", east); ("west", west)] (Some config_east_west).

(** The server after only [east] answered. *)
Definition server_east : Server :=
  mkServer [("east", east)] (Some config_east_west).
End Sample.

(** A world with a cluster whose node is a URL the client library does
    not accept: [ftp://files:9200] passes [z.string().url()], and
    [new Client] rejects its protocol. *)
Module Ftp.
Definition text : string :=
  "{" ++ Sample.quoted "east" ++ ":{" ++ Sample.quoted "node" ++ ":"
  ++ Sample.quoted "http://east:9200" ++ "}," ++ Sample.quoted "files" ++ ":{"
  ++ Sample.quoted "node" ++ ":" ++ Sample.quoted "ftp://files:9200" ++ "}}".

Definition value : JValue :=
  JObj [("east", JObj [("node", JStr "http://east:9200")]);
        ("files", JObj [("node", JStr "ftp://files:9200")])].

Definition parse (t : string) : option JValue :=
  if String.eqb t text then Some value else None.

Definition url (s : string) : bool :=
  Sample.url s || String.prefix "ftp://" s.

Definition library (options : ClientOptions) : option string :=
  if Sample.url (opt_node options) then None
  else Some "Invalid protocol: 'ftp:'".

(** Every cluster answers the probe. *)
Definition world : World :=
  mkWorld parse Sample.parse_int url Sample.issues
    (fun _ _ => Status 200)
    (fun _ _ _ => inl (JObj [("acknowledged", JBool true)]))
    Sample.no_file library Sample.no_require.

Definition env : Env := env_of [("OPENSEARCH_CLUSTERS", text)].

Definition files : OpenSearchClient :=
  Sample.client_of "files" "ftp://files:9200".

Definition config : OpenSearchConfig :=
  mkConfig [("east", client_config Sample.east);
            ("files", client_config files)].
End Ftp.

(* ================================================================= *)
(** ** What the client hands to the library ([src/opensearch/client.ts]) *)

Module Client.

(** How [x.startsWith] fails on a value that is not a string. *)
Definition not_a_string (name : string) (v : JValue) : Exn :=
  match v with
  | JUndefined =>
      EError "Cannot read properties of undefined (reading 'startsWith')"
  | JNull => EError "Cannot read properties of null (reading 'startsWith')"
  | _ => EError (name ++ ".startsWith is not a function")
  end.

(** [applyIndexPrefix], lines 489-494, on whatever value arrives at run
    time: without a prefix the value is returned untouched. *)
Definition applyIndexPrefix_js (c : OpenSearchClient) (index : JValue)
  : Outcome JValue :=
  match indexPrefix (client_config c) with
  | None => Ok index
  | Some p =>
      if is_empty p then Ok index
      else match index with
           | JStr s => Ok (JStr (applyIndexPrefix c s))
           | other => Throw (not_a_string "index" other)
           end
  end.

(** [index ? this.applyIndexPrefix(index) : undefined] *)
Definition optional_index (c : OpenSearchClient) (index : JValue)
  : Outcome JValue :=
  if truthy index then applyIndexPrefix_js c index else Ok JUndefined.

(** [{ ...target, ...src }]: every own key of [src], in order, is read
    from [src] and written to the target. *)
Definition spread (src target : Props) : Props :=
  fold_left (fun acc k => set_prop k (get src k) acc) (map fst src) target.

Fixpoint chars (s : string) : list JValue :=
  match s with
  | EmptyString => []
  | String c rest => JStr (String c EmptyString) :: chars rest
  end.

(** The own enumerable properties a spread copies from a value. *)
Definition own_props (v : JValue) : Props :=
  match v with
  | JObj ps => ps
  | JArr xs => combine (map nat_to_string (seq 0 (length xs))) xs
  | JStr s => combine (map nat_to_string (seq 0 (String.length s))) (chars s)
  | _ => []
  end.

Definition opt_str (o : option string) : JValue :=
  match o with Some s => JStr s | None => JUndefined end.

Definition bind_outcome {A B : Type} (o : Outcome A) (f : A -> Outcome B)
  : Outcome B :=
  match o with Ok a => f a | Throw e => Throw e end.

Fixpoint map_outcome {A B : Type} (f : A -> Outcome B) (xs : list A)
  : Outcome (list B) :=
  match xs with
  | [] => Ok []
  | x :: rest =>
      bind_outcome (f x) (fun y =>
      bind_outcome (map_outcome f rest) (fun ys => Ok (y :: ys)))
  end.

(** The callback of [searchParams.index.map], lines 191-193. *)
Definition prefix_element (p : string) (idx : JValue) : Outcome JValue :=
  match idx with
  | JStr s => Ok (JStr (if String.prefix p s then s else p ++ s))
  | other => Throw (not_a_string "idx" other)
  end.

(** [search], lines 173-207: the object passed to [this.client.search]. *)
Definition searchParams (c : OpenSearchClient) (params : Props)
  : Outcome Props :=
  let sp :=
    spread params
      [("index", js_or (get params "index")
                       (opt_str (defaultIndex (client_config c))));
       ("body", get params "body");
       ("size", get params "size");
       ("from", get params "from");
       ("sort", get params "sort");
       ("_source", get params "_source");
       ("q", get params "q");
       ("timeout", get params "timeout");
       ("scroll", get params "scroll")] in
  match indexPrefix (client_config c) with
  | None => Ok sp
  | Some p =>
      if negb (is_empty p) && truthy (get sp "index") then
        match get sp "index" with
        | JArr xs =>
            bind_outcome (map_outcome (prefix_element p) xs) (fun ys =>
            Ok (set_prop "index" (JArr ys) sp))
        | JStr s =>
            Ok (set_prop "index"
                  (JStr (if String.prefix p s then s else p ++ s)) sp)
        | _ => Ok sp
        end
      else Ok sp
  end.

(** [index], lines 212-230. *)
Definition indexParams (c : OpenSearchClient) (params : Props)
  : Outcome Props :=
  bind_outcome (applyIndexPrefix_js c (get params "index")) (fun i =>
  Ok [("index", i); ("id", get params "id"); ("body", get params "body");
      ("refresh", get params "refresh"); ("routing", get params "routing");
      ("timeout", get params "timeout"); ("pipeline", get params "pipeline")]).

(** [bulk], lines 235-252. *)
Definition bulkParams (c : OpenSearchClient) (params : Props)
  : Outcome Props :=
  bind_outcome (optional_index c (get params "index")) (fun i =>
  Ok [("index", i); ("body", get params "body");
      ("refresh", get params "refresh"); ("routing", get params "routing");
      ("timeout", get params "timeout"); ("pipeline", get params "pipeline")]).

(** [get], lines 257-272. *)
Definition getParams (c : OpenSearchClient) (params : Props)
  : Outcome Props :=
  bind_outcome (applyIndexPrefix_js c (get params "index")) (fun i =>
  Ok [("index", i); ("id", get params "id");
      ("_source", get params "_source"); ("routing", get params "routing")]).

(** [delete], lines 277-293. *)
Definition deleteParams (c : OpenSearchClient) (params : Props)
  : Outcome Props :=
  bind_outcome (applyIndexPrefix_js c (get params "index")) (fun i =>
  Ok [("index", i); ("id", get params "id");
      ("refresh", get params "refresh"); ("routing", get params "routing");
      ("timeout", get params "timeout")]).

(** [update], lines 298-316. *)
Definition updateParams (c : OpenSearchClient) (params : Props)
  : Outcome Props :=
  bind_outcome (applyIndexPrefix_js c (get params "index")) (fun i =>
  Ok [("index", i); ("id", get params "id"); ("body", get params "body");
      ("refresh", get params "refresh"); ("routing", get params "routing");
      ("timeout", get params "timeout");
      ("retry_on_conflict", get params "retry_on_conflict")]).

(** [catIndices], lines 321-332. *)
Definition catIndicesParams (params : JValue) : Props :=
  spread (own_props params) [("format", JStr "json")].

(** [clusterHealth], lines 144-155. *)
Definition clusterHealthParams (index params : JValue) : Props :=
  spread (own_props params) [("index", index)].

(** [indexStats], [getMapping], [refresh]: lines 337-347, 401-411, 432-442. *)
Definition optionalIndexParams (c : OpenSearchClient) (index : JValue)
  : Outcome Props :=
  bind_outcome (optional_index c index) (fun i => Ok [("index", i)]).

(** [deleteIndex], [indexExists]: lines 372-382, 387-396. *)
Definition requiredIndexParams (c : OpenSearchClient) (index : JValue)
  : Outcome Props :=
  bind_outcome (applyIndexPrefix_js c index) (fun i => Ok [("index", i)]).

(** [createIndex], lines 352-367. *)
Definition createIndexParams (c : OpenSearchClient)
           (index settings mappings : JValue) : Outcome Props :=
  let b1 := if truthy settings then [("settings", settings)] else [] in
  let body := if truthy mappings then set_prop "mappings" mappings b1 else b1 in
  bind_outcome (applyIndexPrefix_js c index) (fun i =>
  Ok [("index", i);
      ("body", match body with [] => JUndefined | _ => JObj body end)]).

(** [putMapping], lines 416-427. *)
Definition putMappingParams (c : OpenSearchClient) (index mapping : JValue)
  : Outcome Props :=
  bind_outcome (applyIndexPrefix_js c index) (fun i =>
  Ok [("index", i); ("body", mapping)]).

(** [count], lines 447-458. *)
Definition countParams (c : OpenSearchClient) (index body : JValue)
  : Outcome Props :=
  bind_outcome (optional_index c index) (fun i =>
  Ok [("index", i); ("body", body)]).

(** [aggregate], lines 463-484: the object its inner [search] passes on. *)
Definition aggregateParams (c : OpenSearchClient)
           (index aggregations query : JValue) : Outcome Props :=
  let b0 := [("aggs", aggregations); ("size", JNum 0)] in
  let body := if truthy query then set_prop "query" query b0 else b0 in
  searchParams c [("index", index); ("body", JObj body)].

Definition arg (n : nat) (args : list JValue) : JValue := nth n args JUndefined.

(** Reading a property of the first parameter of a method whose
    parameter is an object. *)
Definition params_of (v : JValue) : Outcome Props :=
  match v with
  | JObj ps => Ok ps
  | JUndefined =>
      Throw (EError "Cannot read properties of undefined (reading 'index')")
  | JNull => Throw (EError "Cannot read properties of null (reading 'index')")
  | _ => Ok []
  end.

(** The library call a method of the class makes for given arguments:
    the library function and its argument, or the error thrown while the
    argument is prepared.  [None] for a name the class does not define. *)
Definition request (c : OpenSearchClient) (method : string)
           (args : list JValue) : option (Outcome (string * JValue)) :=
  let on (f : string) (o : Outcome Props) :=
    Some (bind_outcome o (fun ps => Ok (f, JObj ps))) in
  let with_params (f : string) (build : Props -> Outcome Props) :=
    on f (bind_outcome (params_of (arg 0 args)) build) in
  if String.eqb method "ping" then Some (Ok ("ping", JUndefined))
  else if String.eqb method "info" then Some (Ok ("info", JUndefined))
  else if String.eqb method "clusterHealth" then
    on "cluster.health" (Ok (clusterHealthParams (arg 0 args) (arg 1 args)))
  else if String.eqb method "clusterStats" then
    Some (Ok ("cluster.stats", JUndefined))
  else if String.eqb method "search" then
    with_params "search" (searchParams c)
  else if String.eqb method "index" then with_params "index" (indexParams c)
  else if String.eqb method "bulk" then with_params "bulk" (bulkParams c)
  else if String.eqb method "get" then with_params "get" (getParams c)
  else if String.eqb method "delete" then
    with_params "delete" (deleteParams c)
  else if String.eqb method "update" then
    with_params "update" (updateParams c)
  else if String.eqb method "catIndices" then
    on "cat.indices" (Ok (catIndicesParams (arg 0 args)))
  else if String.eqb method "indexStats" then
    on "indices.stats" (optionalIndexParams c (arg 0 args))
  else if String.eqb method "createIndex" then
    on "indices.create"
       (createIndexParams c (arg 0 args) (arg 1 args) (arg 2 args))
  else if String.eqb method "deleteIndex" then
    on "indices.delete" (requiredIndexParams c (arg 0 args))
  else if String.eqb method "indexExists" then
    on "indices.exists" (requiredIndexParams c (arg 0 args))
  else if String.eqb method "getMapping" then
    on "indices.getMapping" (optionalIndexParams c (arg 0 args))
  else if String.eqb method "putMapping" then
    on "indices.putMapping" (putMappingParams c (arg 0 args) (arg 1 args))
  else if String.eqb method "refresh" then
    on "indices.refresh" (optionalIndexParams c (arg 0 args))
  else if String.eqb method "count" then
    on "count" (countParams c (arg 0 args) (arg 1 args))
  else if String.eqb method "aggregate" then
    on "search"
       (aggregateParams c (arg 0 args) (arg 1 args) (arg 2 args))
  else if String.eqb method "close" then Some (Ok ("close", JUndefined))
  else None.

End Client.

(* ================================================================= *)
(** ** Resources and shutdown ([src/index.ts]) *)

(** A resource result [{ contents: [{ uri, mimeType, text }] }] whose text
    is [JSON.stringify(json, null, 2)]. *)
Inductive ResourceResult : Type :=
| ResourceContents (uri : string) (json : JValue).

Section Resources.
Variable W : World.
Variable env : Env.

(** The [switch (uri)] of the resource handler, lines 1377-1390. *)
Definition resource_data (client : OpenSearchClient) (uri : string)
  : M JValue :=
  if String.eqb uri "opensearch://cluster/info" then invoke W client "info" []
  else if String.eqb uri "opensearch://cluster/health"
  then invoke W client "clusterHealth" []
  else if String.eqb uri "opensearch://indices/list"
  then invoke W client "catIndices" []
  else throw (EMcp InvalidRequest ("Unknown resource: " ++ uri)).

(** The [ReadResourceRequestSchema] handler, lines 1365-1408.  Its
    [catch] wraps every error, an [McpError] included. *)
Definition readResource (uri : string) : M ResourceResult :=
  initializeOpenSearch W env ;;
  cs <- clients ;;
  if (length cs =? 0)%nat
  then throw (EMcp InternalError not_initialized_message)
  else
    client <- getClient JUndefined ;;
    try_catch
      (data <- resource_data client uri ;;
       ret (ResourceContents uri data))
      (fun error =>
         throw (EMcp InternalError
                  ("Failed to read resource " ++ uri ++ ": "
                   ++ exn_message error))).

(** The loop body of the SIGINT handler, lines 1569-1572. *)
Definition close_one (entry : string * OpenSearchClient) : M unit :=
  emit (Console LLog ("Closing connection to cluster '" ++ fst entry
                      ++ "'...")) ;;
  invoke W (snd entry) "close" [] ;;
  ret tt.

(** The SIGINT handler of [run], lines 1567-1574; returning normally is
    reaching [process.exit(0)]. *)
Definition shutdown : M unit :=
  emit (Console LLog "Shutting down OpenSearch MCP server...") ;;
  cs <- clients ;;
  for_each cs close_one.
End Resources.

(** What it means for a cluster configuration to hold only URLs. *)
Definition urls_only (W : World) (c : OpenSearchClusterConfig) : Prop :=
  is_url W (node c) = true
  /\ match nodes c with
     | Some us => Forall (fun u => is_url W u = true) us
     | None => True
     end.

(** The [auth] and [ssl] objects every shorthand cluster gets from the
    environment, as validation returns them. *)
Definition env_auth (env : Env) : AuthConfig :=
  mkAuth (env "OPENSEARCH_USERNAME") (env "OPENSEARCH_PASSWORD")
    (env "OPENSEARCH_API_KEY") (env "AWS_REGION")
    (Some (match given (env "AWS_SERVICE") with
           | Some s => s
           | None => "es"
           end)).

Definition env_ssl (env : Env) : SslConfig :=
  mkSsl (negb (match env "OPENSEARCH_REJECT_UNAUTHORIZED" with
               | Some s => String.eqb s "false"
               | None => false
               end))
    None None None
    (env "OPENSEARCH_CA_CERT_PATH") (env "OPENSEARCH_CA_BUNDLE").

(** The [nodes] and [requestTimeout] values of a shorthand cluster. *)
Definition env_nodes (env : Env) : JValue :=
  match env "OPENSEARCH_NODES" with
  | Some s => if is_empty s then JUndefined
              else JArr (map JStr (split_on "," s))
  | None => JUndefined
  end.

Definition env_timeout (W : World) (env : Env) : JValue :=
  match env "OPENSEARCH_REQUEST_TIMEOUT" with
  | Some s => if is_empty s then JUndefined else parseInt W s
  | None => JUndefined
  end.

(** The key a shorthand cluster is registered under. *)
Definition shorthand_name (env : Env) : string :=
  match given (env "OPENSEARCH_CLUSTER_NAME") with
  | Some n => if has_endpoint env then n else "default"
  | None => "default"
  end.

(** The handlers whose client method prefixes the index without looking
    at it first: [index], [get], [update], [delete], [createIndex],
    [deleteIndex], [putMapping]. *)
Definition prefixing_tools : list ToolHandler :=
  [handleIndexDocument; handleGetDocument; handleUpdateDocument;
   handleDeleteDocument; handleCreateIndex; handleDeleteIndex;
   handlePutMapping].

(** The resources and the client method each is read with. *)
Definition resources : list (string * string) :=
  [("opensearch://cluster/info", "info");
   ("opensearch://cluster/health", "clusterHealth");
   ("opensearch://indices/list", "catIndices")].

(** The [close] call a shutdown makes for a registry entry. *)
Definition close_call (entry : string * OpenSearchClient) : Event :=
  Call (client_cluster (snd entry)) "close" [].

(** A configuration that differs from [c] in [ssl.ca] only. *)
Definition with_ca (ca' : option string) (c : OpenSearchClusterConfig)
  : OpenSearchClusterConfig :=
  mkCluster (node c) (nodes c) (auth c)
    (match ssl c with
     | Some s => Some (mkSsl (rejectUnauthorized s) ca' (cert s) (key s)
                         (caCertPath s) (caBundle s))
     | None => None
     end)
    (requestTimeout c) (pingTimeout c) (maxRetries c) (compression c)
    (defaultIndex c) (indexPrefix c).

(** The backend calls of a trace, in order. *)
Definition calls (trace : list Event) : list Event :=
  filter (fun ev => match ev with Call _ _ _ => true | _ => false end) trace.

(** The probes of a trace, in order. *)
Definition pings (trace : list Event) : list Event :=
  filter (fun ev => match ev with Ping _ => true | _ => false end) trace.

(** The tools handled by [run_handler]: every case but the cluster list. *)
Definition cluster_tools : list (string * ToolHandler) :=
  flat_map (fun nc => match snd nc with
                      | ListClusters => []
                      | ClusterTool h => [(fst nc, h)]
                      end) cases.

(* ================================================================= *)
(** ** Worked examples *)

Example east_west_text_is :
  Sample.east_west_text =
  String "{" (Sample.dq ++ "east" ++ Sample.dq ++ ":{" ++ Sample.dq ++ "node"
    ++ Sample.dq ++ ":" ++ Sample.dq ++ "http://east:9200" ++ Sample.dq ++ "},"
    ++ Sample.dq ++ "west" ++ Sample.dq ++ ":{" ++ Sample.dq ++ "node"
    ++ Sample.dq ++ ":" ++ Sample.dq ++ "http://west:9200" ++ Sample.dq ++ "}}").
Proof. reflexivity. Qed.

(** Both clusters up: the first tool call builds the registry. *)
Example initialize_east_west :
  initializeOpenSearch (Sample.world []) Sample.env_east_west new_server
  = (Ok tt, Sample.server_east_west,
     [Ping "east";
      Console LLog "Successfully connected to OpenSearch cluster 'east'";
      Ping "west";
      Console LLog "Successfully connected to OpenSearch cluster 'west'";
      Console LLog "Initialized 2 OpenSearch cluster(s)"]).
Proof. vm_compute. reflexivity. Qed.

(** [west] down: it is skipped with a warning. *)
Example initialize_east_only :
  initializeOpenSearch (Sample.world ["west"]) Sample.env_east_west new_server
  = (Ok tt, Sample.server_east,
     [Ping "east";
      Console LLog "Successfully connected to OpenSearch cluster 'east'";
      Ping "west";
      ConsoleExn "OpenSearch ping failed:" (EError "connect ECONNREFUSED");
      Console LWarn "Warning: Failed to connect to OpenSearch cluster 'west'";
      Console LLog "Initialized 1 OpenSearch cluster(s)"]).
Proof. vm_compute. reflexivity. Qed.

(** The scenario of the specification: [resolve("west")] lists [east]. *)
Example resolve_west_lists_east :
  getClient (JStr "west") Sample.server_east
  = (Throw (EMcp InvalidRequest
              "Cluster 'west' not found. Available clusters: east"),
     Sample.server_east, []).
Proof. reflexivity. Qed.

Example resolve_default_is_east :
  getClient JUndefined Sample.server_east = (Ok Sample.east, Sample.server_east, []).
Proof. reflexivity. Qed.

Example list_clusters_east_west :
  callTool (Sample.world []) Sample.env_east_west "opensearch_list_clusters"
    None Sample.server_east_west
  = (Ok (TextContent (JObj [("clusters", JArr [JStr "east"; JStr "west"]);
                            ("count", JNum 2)])),
     Sample.server_east_west, []).
Proof. vm_compute. reflexivity. Qed.

Example search_builds_body :
  searchParams [("index", JStr "logs"); ("query", JObj []);
                ("highlight", JObj [])]
  = [("index", JStr "logs"); ("size", JNum 10); ("from", JNum 0);
     ("body", JObj [("query", JObj []); ("highlight", JObj [])])].
Proof. reflexivity. Qed.

Example legacy_env_gives_default :
  fst (createConfigFromEnv (Sample.world [])
         (env_of [("OPENSEARCH_URL", "http://one:9200")]))
  = JObj [("clusters",
           JObj [("default",
                  cluster_from_env (Sample.world [])
                    (env_of [("OPENSEARCH_URL", "http://one:9200")]))])].
Proof. reflexivity. Qed.

(* ================================================================= *)
(** ** Basic facts *)

Lemma is_empty_true (s : string) : is_empty s = true <-> s = EmptyString.
Proof. destruct s; simpl; split; congruence. Qed.

Lemma is_empty_false (s : string) : is_empty s = false <-> s <> EmptyString.
Proof. destruct s; simpl; split; congruence. Qed.

Lemma lookup_fresh {A : Type} (k : string) (m : list (string * A)) :
  ~ In k (map fst m) -> lookup k m = None.
Proof.
  induction m as [|[k' v] m IH]; simpl; intros H; [reflexivity|].
  destruct (String.eqb_spec k k') as [->|Hne].
  - exfalso. apply H. now left.
  - apply IH. intros Hin. apply H. now right.
Qed.

Lemma map_set_fresh {A : Type} (k : string) (v : A) (m : list (string * A)) :
  ~ In k (map fst m) -> map_set k v m = m ++ [(k, v)].
Proof.
  induction m as [|[k' v'] m IH]; simpl; intros H; [reflexivity|].
  destruct (String.eqb_spec k k') as [->|Hne].
  - exfalso. apply H. now left.
  - f_equal. apply IH. intros Hin. apply H. now right.
Qed.

Lemma prefix_app (p s : string) : String.prefix p (p ++ s) = true.
Proof.
  induction p as [|a p IH]; simpl.
  - destruct s; reflexivity.
  - destruct (ascii_dec a a); [exact IH | congruence].
Qed.

Lemma cases_follow_catalog : map fst cases = catalog_names.
Proof. reflexivity. Qed.

(** A server whose registry is built returns from [initializeOpenSearch]
    at once. *)
Lemma initialize_when_built (W : World) (env : Env) (st : Server) :
  opensearchClients st <> [] ->
  initializeOpenSearch W env st = (Ok tt, st, []).
Proof.
  intros H. unfold initializeOpenSearch, bind, clients.
  destruct (opensearchClients st) as [|c cs]; [congruence|]. reflexivity.
Qed.

(* ================================================================= *)
(** ** C10: the index prefix *)

(** C10.  For a client configured with a non-empty index prefix [p] and any
    index name [s], applying the prefix twice gives the same string as
    applying it once, and the result starts with [p]. *)
Theorem C10_applyIndexPrefix_idempotent
  (c : OpenSearchClient) (p s : string)
  (Hp : indexPrefix (client_config c) = Some p)
  (Hne : p <> EmptyString) :
  applyIndexPrefix c (applyIndexPrefix c s) = applyIndexPrefix c s
  /\ String.prefix p (applyIndexPrefix c s) = true.
Proof.
  unfold applyIndexPrefix. rewrite Hp.
  apply is_empty_false in Hne. rewrite Hne. simpl.
  destruct (String.prefix p s) eqn:Hs; simpl.
  - split; [rewrite Hs; reflexivity | exact Hs].
  - split; [rewrite (prefix_app p s); reflexivity | apply prefix_app].
Qed.

Lemma C10_witness :
  applyIndexPrefix
    (mkClient "east"
       (mkCluster "http://east:9200" None None None 30000 3000 3 false None
          (Some "prod-")))
    (applyIndexPrefix
       (mkClient "east"
          (mkCluster "http://east:9200" None None None 30000 3000 3 false None
             (Some "prod-"))) "logs")
  = applyIndexPrefix
      (mkClient "east"
         (mkCluster "http://east:9200" None None None 30000 3000 3 false None
            (Some "prod-"))) "logs"
  /\ String.prefix "prod-"
       (applyIndexPrefix
          (mkClient "east"
             (mkCluster "http://east:9200" None None None 30000 3000 3 false
                None (Some "prod-"))) "logs") = true.
Proof.
  apply (C10_applyIndexPrefix_idempotent
           (mkClient "east"
              (mkCluster "http://east:9200" None None None 30000 3000 3 false
                 None (Some "prod-"))) "prod-" "logs").
  - reflexivity.
  - discriminate.
Defined.

Example prefix_added_once :
  applyIndexPrefix
    (mkClient "east"
       (mkCluster "http://east:9200" None None None 30000 3000 3 false None
          (Some "prod-"))) "logs" = "prod-logs".
Proof. reflexivity. Qed.

(* ================================================================= *)
(** ** C7 and C1: resolving a cluster *)

(** C7, as stated, fails at the empty name: it is falsy, so [getClient]
    takes it for an omitted name and answers with the first cluster.
    Here [east] is the only cluster, the empty name is not registered, and
    a client is returned. *)
Lemma C7_counterexample :
  ~ In EmptyString (map_keys (opensearchClients Sample.server_east))
  /\ getClient (JStr EmptyString) Sample.server_east
     = (Ok Sample.east, Sample.server_east, []).
Proof.
  split.
  - simpl. intros [H|[]]. discriminate H.
  - reflexivity.
Qed.

(** C7, amended.  For every non-empty name that is not a key of the
    registry, [getClient] throws an InvalidRequest error whose message
    names the requested cluster and lists the registered names, in order,
    separated by commas; no client is returned and the server is unchanged. *)
Theorem C7_unregistered_name_is_not_found
  (st : Server) (name : string)
  (Hname : name <> EmptyString)
  (Habsent : ~ In name (map_keys (opensearchClients st))) :
  getClient (JStr name) st
  = (Throw (EMcp InvalidRequest
              ("Cluster '" ++ name ++ "' not found. Available clusters: "
               ++ join ", " (map_keys (opensearchClients st)))),
     st, []).
Proof.
  unfold getClient, bind, clients, js_or. simpl.
  apply is_empty_false in Hname. rewrite Hname. simpl. rewrite Hname. simpl.
  rewrite (lookup_fresh name (opensearchClients st) Habsent).
  reflexivity.
Qed.

Lemma C7_witness :
  getClient (JStr "west") Sample.server_east
  = (Throw (EMcp InvalidRequest
              ("Cluster '" ++ "west" ++ "' not found. Available clusters: "
               ++ join ", " (map_keys (opensearchClients Sample.server_east)))),
     Sample.server_east, []).
Proof.
  apply (C7_unregistered_name_is_not_found Sample.server_east "west").
  - discriminate.
  - simpl. intros [H|[]]. discriminate H.
Defined.

(** With no name given, [getClient] answers with the first registered
    cluster; nothing else is consulted. *)
Lemma getClient_omitted (st : Server) (k : string) (c : OpenSearchClient)
      (rest : list (string * OpenSearchClient)) :
  opensearchClients st = (k, c) :: rest ->
  k <> EmptyString ->
  getClient JUndefined st = (Ok c, st, []).
Proof.
  intros Hst Hk. unfold getClient, bind, clients, js_or, first_key.
  rewrite Hst. simpl. apply is_empty_false in Hk. rewrite Hk. simpl.
  rewrite String.eqb_refl. reflexivity.
Qed.

(** C1, on the code.  The environment declares [east] and [west] and sets
    OPENSEARCH_DEFAULT_CLUSTER to [west]; both clusters answer the probe.
    The registry then holds both, and a request without a cluster name is
    served by [east], the first constructed: the default is never read. *)
Theorem C1_default_cluster_is_ignored :
  Sample.env_east_west "OPENSEARCH_DEFAULT_CLUSTER" = Some "west"
  /\ initializeOpenSearch (Sample.world []) Sample.env_east_west new_server
     = (Ok tt, Sample.server_east_west,
        [Ping "east";
         Console LLog "Successfully connected to OpenSearch cluster 'east'";
         Ping "west";
         Console LLog "Successfully connected to OpenSearch cluster 'west'";
         Console LLog "Initialized 2 OpenSearch cluster(s)"])
  /\ map_keys (opensearchClients Sample.server_east_west) = ["east"; "west"]
  /\ getClient JUndefined Sample.server_east_west
     = (Ok Sample.east, Sample.server_east_west, [])
  /\ callTool (Sample.world []) Sample.env_east_west "opensearch_cluster_info"
       (Some []) new_server
     = (Ok (TextContent (JObj [("acknowledged", JBool true)])),
        Sample.server_east_west,
        [Ping "east";
         Console LLog "Successfully connected to OpenSearch cluster 'east'";
         Ping "west";
         Console LLog "Successfully connected to OpenSearch cluster 'west'";
         Console LLog "Initialized 2 OpenSearch cluster(s)";
         Call "east" "info" []]).
Proof. repeat split; vm_compute; reflexivity. Qed.

(* ================================================================= *)
(** ** C4: building the registry *)

Lemma connect_result (W : World) (entry : string * OpenSearchClusterConfig)
      (st : Server) :
  constructs W entry = true ->
  ~ In (fst entry) (map_keys (opensearchClients st)) ->
  exists trace,
    connect W entry st
    = (Ok tt,
       mkServer (opensearchClients st
                 ++ (if probe_ok W entry then [client_entry entry] else []))
                (config st),
       trace).
Proof.
  intros Hbuilt Hfresh. destruct entry as [name cfg]. simpl in Hfresh.
  unfold constructs in Hbuilt. simpl in Hbuilt.
  unfold connect, probe_ok, client_entry.
  destruct (createClient W cfg) as [[options|e] printed];
    simpl in Hbuilt; [|discriminate].
  unfold ping, bind, emit, emit_all, lift, set_client.
  simpl. destruct (probe W name cfg) as [code|msg]; simpl.
  - destruct (code =? 200)%Z; simpl.
    + rewrite (map_set_fresh _ _ _ Hfresh). eexists. reflexivity.
    + rewrite app_nil_r. destruct st. eexists. reflexivity.
  - rewrite app_nil_r. destruct st. eexists. reflexivity.
Qed.

(** A cluster whose client cannot be constructed ends the loop: the error
    is thrown before the probe, and the registry is as it was. *)
Lemma connect_throws (W : World) (entry : string * OpenSearchClusterConfig)
      (st : Server) (e : Exn) :
  fst (createClient W (snd entry)) = Throw e ->
  connect W entry st = (Throw e, st, snd (createClient W (snd entry))).
Proof.
  intros H. destruct entry as [name cfg]. simpl in *.
  unfold connect. destruct (createClient W cfg) as [built printed].
  simpl in H. subst built.
  unfold bind, emit_all, lift. simpl. rewrite app_nil_r. reflexivity.
Qed.

Lemma connect_all (W : World) (entries : list (string * OpenSearchClusterConfig)) :
  forall st,
    Forall (fun e => constructs W e = true) entries ->
    NoDup (map fst entries) ->
    (forall k, In k (map fst entries) ->
               ~ In k (map_keys (opensearchClients st))) ->
    exists trace,
      for_each entries (connect W) st
      = (Ok tt,
         mkServer (opensearchClients st
                   ++ map client_entry (filter (probe_ok W) entries))
                  (config st),
         trace).
Proof.
  induction entries as [|e es IH]; intros st Hbuilt Hnd Hfresh.
  - simpl. rewrite app_nil_r. destruct st. eexists. reflexivity.
  - simpl in Hnd. inversion Hnd as [|? ? Hnotin Hnd']; subst.
    inversion Hbuilt as [|? ? Hb Hbuilt']; subst.
    destruct (connect_result W e st Hb) as [t1 H1].
    { apply Hfresh. now left. }
    simpl for_each. unfold bind at 1. rewrite H1.
    match goal with
    | |- context [for_each es (connect W) ?s1] =>
        destruct (IH s1 Hbuilt' Hnd') as [t2 H2]
    end.
    { intros k Hk. simpl. unfold map_keys. rewrite map_app, in_app_iff.
      intros [Hin|Hin].
      - exact (Hfresh k (or_intror Hk) Hin).
      - destruct (probe_ok W e); simpl in Hin; [|contradiction].
        destruct Hin as [Heq|[]]. subst k. contradiction. }
    rewrite H2. simpl. eexists. f_equal. f_equal. f_equal.
    rewrite <- app_assoc. f_equal.
    destruct (probe_ok W e); reflexivity.
Qed.





Example one_of_two_fails :
  let W := Sample.world ["west"] in
  length (clusters Sample.config_east_west) = 2%nat
  /\ length (filter (fun e => negb (probe_ok W e))
               (clusters Sample.config_east_west)) = 1%nat
  /\ map_keys (opensearchClients
                 (snd (fst (initializeOpenSearch W Sample.env_east_west
                              new_server)))) = ["east"].
Proof. vm_compute. repeat split; reflexivity. Qed.

Example all_fail :
  initializeOpenSearch (Sample.world ["east"; "west"]) Sample.env_east_west
    new_server
  = (Throw (EMcp InternalError
      "Failed to initialize OpenSearch: Failed to connect to any OpenSearch cluster"),
     mkServer [] (Some Sample.config_east_west),
     [Ping "east";
      ConsoleExn "OpenSearch ping failed:" (EError "connect ECONNREFUSED");
      Console LWarn "Warning: Failed to connect to OpenSearch cluster 'east'";
      Ping "west";
      ConsoleExn "OpenSearch ping failed:" (EError "connect ECONNREFUSED");
      Console LWarn "Warning: Failed to connect to OpenSearch cluster 'west'";
      ConsoleExn "Failed to initialize OpenSearch clients:"
        (EError "Failed to connect to any OpenSearch cluster")]).
Proof. vm_compute. reflexivity. Qed.

(* ================================================================= *)
(** ** C2, C3 and C9: dispatching a tool call *)

(** On a built registry a tool call is the [switch] inside its
    [try]/[catch]. *)
Lemma callTool_when_built (W : World) (env : Env) (st : Server)
      (name : string) (args : option Props) :
  opensearchClients st <> [] ->
  callTool W env name args st
  = try_catch (dispatch W name args) (rewrap name) st.
Proof.
  intros Hbuilt. unfold callTool. unfold bind at 1.
  rewrite (initialize_when_built W env st Hbuilt).
  unfold bind at 1. unfold clients at 1.
  destruct (opensearchClients st) as [|c cs] eqn:Hcs; [congruence|].
  change (length (c :: cs) =? 0)%nat with false. cbv beta iota.
  destruct (try_catch (dispatch W name args) (rewrap name) st) as [[r s] t].
  reflexivity.
Qed.

(** C2, as stated, fails on a server whose registry is not built yet: the
    handler runs [initializeOpenSearch] before it looks at the tool name.
    (a) With every cluster down, an unknown name is answered with the
    internal initialization error, after both clusters were probed.
    (b) With the clusters up, the unknown name is reported, but only after
    both clusters were probed and the registry was filled. *)
Lemma C2_counterexample :
  ~ In "no_such_tool" catalog_names
  /\ callTool (Sample.world ["east"; "west"]) Sample.env_east_west
       "no_such_tool" (Some []) new_server
     = (Throw (EMcp InternalError
         "Failed to initialize OpenSearch: Failed to connect to any OpenSearch cluster"),
        mkServer [] (Some Sample.config_east_west),
        [Ping "east";
         ConsoleExn "OpenSearch ping failed:" (EError "connect ECONNREFUSED");
         Console LWarn "Warning: Failed to connect to OpenSearch cluster 'east'";
         Ping "west";
         ConsoleExn "OpenSearch ping failed:" (EError "connect ECONNREFUSED");
         Console LWarn "Warning: Failed to connect to OpenSearch cluster 'west'";
         ConsoleExn "Failed to initialize OpenSearch clients:"
           (EError "Failed to connect to any OpenSearch cluster")])
  /\ callTool (Sample.world []) Sample.env_east_west
       "no_such_tool" (Some []) new_server
     = (Throw (EMcp MethodNotFound "Unknown tool: no_such_tool"),
        Sample.server_east_west,
        [Ping "east";
         Console LLog "Successfully connected to OpenSearch cluster 'east'";
         Ping "west";
         Console LLog "Successfully connected to OpenSearch cluster 'west'";
         Console LLog "Initialized 2 OpenSearch cluster(s)"]).
Proof.
  split; [|split].
  - vm_compute. intuition discriminate.
  - vm_compute. reflexivity.
  - vm_compute. reflexivity.
Qed.

(** C2, amended.  On a server whose registry is already built, a tool call
    with a name outside the catalog, whatever its arguments, throws the
    MethodNotFound error "Unknown tool: <name>"; nothing is probed or
    called (the trace is empty) and the server is unchanged. *)
Theorem C2_unknown_tool_on_built_registry
  (W : World) (env : Env) (st : Server) (name : string) (args : option Props)
  (Hbuilt : opensearchClients st <> [])
  (Hunknown : ~ In name catalog_names) :
  callTool W env name args st
  = (Throw (EMcp MethodNotFound ("Unknown tool: " ++ name)), st, []).
Proof.
  rewrite (callTool_when_built W env st name args Hbuilt).
  unfold try_catch, dispatch.
  rewrite <- cases_follow_catalog in Hunknown.
  rewrite (lookup_fresh name cases Hunknown).
  reflexivity.
Qed.

Lemma C2_witness :
  callTool (Sample.world []) Sample.env_east_west "no_such_tool" None
    Sample.server_east
  = (Throw (EMcp MethodNotFound ("Unknown tool: " ++ "no_such_tool")),
     Sample.server_east, []).
Proof.
  apply (C2_unknown_tool_on_built_registry
           (Sample.world []) Sample.env_east_west Sample.server_east
           "no_such_tool" None).
  - discriminate.
  - vm_compute. intuition discriminate.
Defined.

(** A tool call on a built registry, for a tool whose client method the
    class defines: resolve, call, wrap. *)
Lemma callTool_calls_the_backend
      (W : World) (env : Env) (st : Server) (name : string) (h : ToolHandler)
      (a : Props) (client : OpenSearchClient) :
  opensearchClients st <> [] ->
  lookup name cases = Some (ClusterTool h) ->
  has_method (method h) = true ->
  getClient (get a "cluster") st = (Ok client, st, []) ->
  callTool W env name (Some a) st
  = (answered name h a
       (backend W (client_cluster client) (method h) (params h a)),
     st,
     [Call (client_cluster client) (method h) (params h a)]).
Proof.
  intros Hbuilt Hcase Hm Hclient.
  rewrite (callTool_when_built W env st name (Some a) Hbuilt).
  unfold try_catch, dispatch. rewrite Hcase.
  unfold run_handler. unfold bind at 1. rewrite Hclient.
  unfold invoke. rewrite Hm.
  unfold bind, emit, lift, ret, throw, answered, rewrap.
  destruct (backend W (client_cluster client) (method h) (params h a))
    as [body|msg]; simpl.
  - destruct (respond h a body) as [json|[c0 m|m]]; reflexivity.
  - reflexivity.
Qed.

(** C3, as stated, fails: nothing checks the required fields.  The
    aggregate tool requires [index] and [aggregations]; called with an
    empty argument object on a built registry it resolves the first
    cluster and calls [client.aggregate(undefined, undefined, undefined)],
    and the caller gets the backend's answer, not an error. *)
Lemma C3_counterexample :
  In (mkTool "opensearch_aggregate"
        ["cluster"; "index"; "aggregations"; "query"; "size"]
        ["index"; "aggregations"]) catalog
  /\ lookup "index" (@nil (string * JValue)) = None
  /\ callTool (Sample.world []) Sample.env_east_west "opensearch_aggregate"
       (Some []) Sample.server_east_west
     = (Ok (TextContent (JObj [("acknowledged", JBool true)])),
        Sample.server_east_west,
        [Call "east" "aggregate" [JUndefined; JUndefined; JUndefined]]).
Proof.
  split; [|split].
  - simpl. tauto.
  - reflexivity.
  - vm_compute. reflexivity.
Qed.

(** C3, amended.  Dispatch does not check required fields.  For every
    catalog tool [t] that declares required fields and whose client method
    the class defines, and every argument object [a] that lacks one of
    them, on a built registry: when the cluster selector of [a] resolves
    to a client, that client's method is called exactly once, with the
    missing fields passed as [undefined], and the caller receives the
    wrapped answer of that call (never an error about the arguments); the
    registry is unchanged. *)
Theorem C3_missing_required_field_reaches_the_backend
  (W : World) (env : Env) (st : Server) (t : Tool) (h : ToolHandler)
  (a : Props) (field : string) (client : OpenSearchClient)
  (Hbuilt : opensearchClients st <> [])
  (Ht : In t catalog)
  (Hcase : lookup (tool_name t) cases = Some (ClusterTool h))
  (Hm : has_method (method h) = true)
  (Hrequired : In field (required t))
  (Hmissing : lookup field a = None)
  (Hclient : getClient (get a "cluster") st = (Ok client, st, [])) :
  get a field = JUndefined
  /\ callTool W env (tool_name t) (Some a) st
     = (answered (tool_name t) h a
          (backend W (client_cluster client) (method h) (params h a)),
        st,
        [Call (client_cluster client) (method h) (params h a)])
  /\ (forall c m,
        fst (fst (callTool W env (tool_name t) (Some a) st)) = Throw (EMcp c m)
        -> c = InternalError).
Proof.
  assert (Hcall := callTool_calls_the_backend W env st (tool_name t) h a client
                     Hbuilt Hcase Hm Hclient).
  split; [|split].
  - unfold get. rewrite Hmissing. reflexivity.
  - exact Hcall.
  - intros c m. rewrite Hcall. simpl. unfold answered.
    destruct (backend W (client_cluster client) (method h) (params h a))
      as [body|msg].
    + destruct (respond h a body) as [json|[c0 m0|m0]] eqn:Hresp.
      * discriminate.
      * exfalso. clear Hcall.
        simpl in Ht.
        repeat (destruct Ht as [<-|Ht];
                [simpl in Hcase; try discriminate;
                 injection Hcase as <-; simpl in Hm, Hresp;
                 try discriminate |]).
        contradiction.
      * intros H. injection H as <- _. reflexivity.
    + intros H. injection H as <- _. reflexivity.
Qed.

Lemma C3_witness :
  get (@nil (string * JValue)) "index" = JUndefined
  /\ callTool (Sample.world []) Sample.env_east_west "opensearch_aggregate"
       (Some []) Sample.server_east_west
     = (answered "opensearch_aggregate" handleAggregate []
          (backend (Sample.world []) "east" "aggregate"
             [JUndefined; JUndefined; JUndefined]),
        Sample.server_east_west,
        [Call "east" "aggregate" [JUndefined; JUndefined; JUndefined]])
  /\ (forall c m,
        fst (fst (callTool (Sample.world []) Sample.env_east_west
                    "opensearch_aggregate" (Some []) Sample.server_east_west))
        = Throw (EMcp c m)
        -> c = InternalError).
Proof.
  apply (C3_missing_required_field_reaches_the_backend
           (Sample.world []) Sample.env_east_west Sample.server_east_west
           (mkTool "opensearch_aggregate"
              ["cluster"; "index"; "aggregations"; "query"; "size"]
              ["index"; "aggregations"])
           handleAggregate [] "index" Sample.east).
  - discriminate.
  - simpl. tauto.
  - reflexivity.
  - reflexivity.
  - simpl. tauto.
  - reflexivity.
  - reflexivity.
Defined.

(** A handler whose method the class lacks fails before any backend call,
    once the cluster is resolved. *)
Lemma callTool_without_method
      (W : World) (env : Env) (st : Server) (name : string) (h : ToolHandler)
      (a : Props) (client : OpenSearchClient) :
  opensearchClients st <> [] ->
  lookup name cases = Some (ClusterTool h) ->
  has_method (method h) = false ->
  getClient (get a "cluster") st = (Ok client, st, []) ->
  callTool W env name (Some a) st
  = (Throw (EMcp InternalError
              ("Tool " ++ name ++ " failed: client." ++ method h
               ++ " is not a function")),
     st, []).
Proof.
  intros Hbuilt Hcase Hm Hclient.
  rewrite (callTool_when_built W env st name (Some a) Hbuilt).
  unfold try_catch, dispatch. rewrite Hcase.
  unfold run_handler. unfold bind at 1. rewrite Hclient.
  unfold invoke. rewrite Hm. reflexivity.
Qed.

(** C9, on the code.  Eleven catalog tools, all of security
    administration, call a client method that [OpenSearchClient] does not
    define; the other seventeen cluster tools call one it defines.  Creating
    a user on a built registry therefore ends in a TypeError, reported as an
    internal error, and the backend is never called. *)
Theorem C9_security_tools_have_no_client_method :
  tools_without_method
  = ["opensearch_create_user"; "opensearch_delete_user";
     "opensearch_get_user"; "opensearch_list_users";
     "opensearch_create_role"; "opensearch_delete_role";
     "opensearch_get_role"; "opensearch_list_roles";
     "opensearch_map_role"; "opensearch_get_role_mapping";
     "opensearch_list_role_mappings"]
  /\ has_method "createUser" = false
  /\ callTool (Sample.world []) Sample.env_east_west "opensearch_create_user"
       (Some [("username", JStr "alice"); ("password", JStr "s3cret")])
       Sample.server_east_west
     = (Throw (EMcp InternalError
         "Tool opensearch_create_user failed: client.createUser is not a function"),
        Sample.server_east_west, []).
Proof.
  split; [|split].
  - reflexivity.
  - reflexivity.
  - vm_compute. reflexivity.
Qed.

(* ================================================================= *)
(** ** C6: validating the resolved configuration *)

(** When every value passes the cluster schema the record passes, and
    returns the entries in order, each value in its validated form, the
    key [__proto__] left out. *)
Lemma parse_record_kept (W : World) (entries : Props) :
  Forall (fun e => parse_cluster W (snd e) <> None) entries ->
  exists cs,
    parse_record W entries = Some cs
    /\ Forall2 (fun kc kv => fst kc = fst kv
                             /\ parse_cluster W (snd kv) = Some (snd kc))
         cs
         (filter (fun e => negb (String.eqb (fst e) "__proto__")) entries).
Proof.
  induction 1 as [|[k v] es Hv _ IH]; simpl.
  - exists []. split; [reflexivity | constructor].
  - simpl in Hv. destruct IH as [cs [Hes Hall]].
    destruct (parse_cluster W v) as [c|] eqn:Hc; [|congruence].
    rewrite Hes. destruct (String.eqb k "__proto__"); simpl.
    + exists cs. split; [reflexivity | exact Hall].
    + exists ((k, c) :: cs). split; [reflexivity|].
      constructor; [simpl; split; [reflexivity | exact Hc] | exact Hall].
Qed.

Lemma parse_record_all_or_nothing (W : World) (entries : Props) :
  Exists (fun e => parse_cluster W (snd e) = None) entries ->
  parse_record W entries = None.
Proof.
  induction 1 as [[k v] es Hbad | [k v] es _ IH]; simpl.
  - simpl in Hbad. rewrite Hbad. reflexivity.
  - destruct (parse_cluster W v); [|reflexivity]. rewrite IH. reflexivity.
Qed.

(** C6, as stated, fails: an entry that fails validation is not dropped,
    it fails the whole configuration.  [east] is valid on its own, the
    node of [west] is not a URL, and [validateConfig] throws. *)
Lemma C6_counterexample :
  parse_cluster (Sample.world [])
    (JObj [("node", JStr "http://east:9200")]) <> None
  /\ parse_cluster (Sample.world []) (JObj [("node", JStr "not a url")]) = None
  /\ validateConfig (Sample.world [])
       (declared [("east", JObj [("node", JStr "http://east:9200")]);
                  ("west", JObj [("node", JStr "not a url")])])
     = Throw (EError ("Invalid OpenSearch configuration:" ++ newline
                      ++ "clusters.west.node: Invalid url")).
Proof.
  split; [|split].
  - vm_compute. discriminate.
  - reflexivity.
  - vm_compute. reflexivity.
Qed.

(** C6, amended.  Validation of a declared map of clusters is all or
    nothing.  If every entry passes the cluster schema, validation
    succeeds and returns every entry, in order, under its name and in its
    validated form (an entry under the key [__proto__], which zod leaves
    out of what it returns, apart).  If at least one entry fails the
    cluster schema, validation throws "Invalid OpenSearch configuration"
    for the whole map: no entry is kept. *)
Theorem C6_validation_is_all_or_nothing
  (W : World) (entries : Props) :
  (Forall (fun e => parse_cluster W (snd e) <> None) entries ->
   exists cfg,
     validateConfig W (declared entries) = Ok cfg
     /\ Forall2 (fun kc kv => fst kc = fst kv
                              /\ parse_cluster W (snd kv) = Some (snd kc))
          (clusters cfg)
          (filter (fun e => negb (String.eqb (fst e) "__proto__")) entries))
  /\ (Exists (fun e => parse_cluster W (snd e) = None) entries ->
      validateConfig W (declared entries)
      = Throw (EError ("Invalid OpenSearch configuration:" ++ newline
                       ++ zod_issues W (declared entries)))).
Proof.
  unfold validateConfig, declared, parse_config. simpl.
  split.
  - intros Hall.
    destruct (parse_record_kept W entries Hall) as [cs [Hes Hkept]].
    rewrite Hes. exists (mkConfig cs). split; [reflexivity | exact Hkept].
  - intros Hbad. rewrite (parse_record_all_or_nothing W entries Hbad).
    reflexivity.
Qed.

Lemma C6_witness :
  (exists cfg,
     validateConfig (Sample.world [])
       (declared [("east", JObj [("node", JStr "http://east:9200")]);
                  ("west", JObj [("node", JStr "http://west:9200")])])
     = Ok cfg
     /\ Forall2 (fun kc kv => fst kc = fst kv
                              /\ parse_cluster (Sample.world []) (snd kv)
                                 = Some (snd kc))
          (clusters cfg)
          (filter (fun e => negb (String.eqb (fst e) "__proto__"))
             [("east", JObj [("node", JStr "http://east:9200")]);
              ("west", JObj [("node", JStr "http://west:9200")])]))
  /\ validateConfig (Sample.world [])
       (declared [("east", JObj [("node", JStr "http://east:9200")]);
                  ("west", JObj [("node", JStr "not a url")])])
     = Throw (EError ("Invalid OpenSearch configuration:" ++ newline
                      ++ zod_issues (Sample.world [])
                           (declared
                              [("east", JObj [("node", JStr "http://east:9200")]);
                               ("west", JObj [("node", JStr "not a url")])]))).
Proof.
  split.
  - apply (proj1 (C6_validation_is_all_or_nothing (Sample.world [])
                    [("east", JObj [("node", JStr "http://east:9200")]);
                     ("west", JObj [("node", JStr "http://west:9200")])])).
    repeat constructor; simpl; discriminate.
  - apply (proj2 (C6_validation_is_all_or_nothing (Sample.world [])
                    [("east", JObj [("node", JStr "http://east:9200")]);
                     ("west", JObj [("node", JStr "not a url")])])).
    right. left. reflexivity.
Defined.

(** A valid entry under the key [__proto__] is checked and left out. *)
Example proto_entry_is_left_out :
  validateConfig (Sample.world []) (declared
    [("east", JObj [("node", JStr "http://east:9200")]);
     ("__proto__", JObj [("node", JStr "http://west:9200")])])
  = Ok (mkConfig [("east", client_config Sample.east)])
  /\ validateConfig (Sample.world []) (declared
       [("east", JObj [("node", JStr "http://east:9200")]);
        ("__proto__", JObj [("node", JStr "not a url")])])
     = Throw (EError ("Invalid OpenSearch configuration:" ++ newline
                      ++ "clusters.__proto__.node: Invalid url")).
Proof. vm_compute. split; reflexivity. Qed.

Example valid_map_is_kept :
  validateConfig (Sample.world []) (declared
    [("east", JObj [("node", JStr "http://east:9200")]);
     ("west", JObj [("node", JStr "http://west:9200")])])
  = Ok Sample.config_east_west.
Proof. vm_compute. reflexivity. Qed.

(* ================================================================= *)
(** ** C5 and C8: the precedence of configuration sources *)

(** Removing the bulk variable changes neither the endpoint test nor the
    object built from the individual variables. *)
Lemma has_endpoint_without_bulk (env : Env) :
  has_endpoint (env_remove "OPENSEARCH_CLUSTERS" env) = has_endpoint env.
Proof. reflexivity. Qed.

Lemma cluster_from_env_without_bulk (W : World) (env : Env) :
  cluster_from_env W (env_remove "OPENSEARCH_CLUSTERS" env)
  = cluster_from_env W env.
Proof. reflexivity. Qed.

Lemma legacy_or_empty_without_bulk (W : World) (env : Env) :
  legacy_or_empty W (env_remove "OPENSEARCH_CLUSTERS" env)
  = legacy_or_empty W env.
Proof. reflexivity. Qed.

Lemma legacy_or_empty_is_legacy_source (W : World) (env : Env) :
  legacy_or_empty W env
  = JObj [("clusters",
           SpecWords.first_present [SpecWords.legacy_source W env])].
Proof.
  unfold legacy_or_empty, SpecWords.legacy_source.
  destruct (has_endpoint env); reflexivity.
Qed.

(** C5, as stated, fails when the bulk declaration parses but declares no
    cluster: it still wins, although it yields no cluster definition and
    the legacy variables would yield one.  With OPENSEARCH_CLUSTERS set to
    the empty object and OPENSEARCH_URL set, the result is the empty map. *)
Lemma C5_counterexample :
  let W := Sample.world [] in
  let env := env_of [("OPENSEARCH_CLUSTERS", "{}");
                     ("OPENSEARCH_URL", "http://legacy:9200")] in
  SpecWords.sources W env
  = [None; Some (JObj []);
     Some (JObj [("default", cluster_from_env W env)])]
  /\ SpecWords.first_yielding (SpecWords.sources W env)
     = JObj [("default", cluster_from_env W env)]
  /\ createConfigFromEnv W env = (JObj [("clusters", JObj [])], [])
  /\ fst (createConfigFromEnv W env)
     <> JObj [("clusters",
               SpecWords.first_yielding (SpecWords.sources W env))].
Proof.
  intros W env. split; [|split; [|split]].
  - reflexivity.
  - reflexivity.
  - reflexivity.
  - vm_compute. discriminate.
Qed.

(** An ordinary cluster name becomes an own key of the map. *)
Lemma assign_cluster_ordinary (env : Env) (cluster : JValue) :
  env "OPENSEARCH_CLUSTER_NAME" <> Some "__proto__" ->
  assign_cluster (ToString (E env "OPENSEARCH_CLUSTER_NAME")) cluster
  = JObj [(ToString (E env "OPENSEARCH_CLUSTER_NAME"), cluster)].
Proof.
  intros Hname. unfold E, env_get, assign_cluster.
  destruct (env "OPENSEARCH_CLUSTER_NAME") as [n|]; simpl; [|reflexivity].
  destruct (String.eqb_spec n "__proto__") as [->|_];
    [congruence | reflexivity].
Qed.

(** C5, amended.  Resolution tries the sources in the order named
    shorthand, bulk declaration, legacy shorthand, and the first source
    that is present wins with whatever it holds (a bulk declaration that
    parses wins even when it declares no cluster); nothing of a later
    source is merged in, and with no source the map is empty.  This holds
    for every cluster name but [__proto__], which as a key of the map
    declares no cluster.  In particular, when a bulk declaration and the
    legacy endpoint are both present and the named shorthand is not, the
    result is exactly the bulk declaration. *)
Theorem C5_first_present_source_wins (W : World) (env : Env) :
  (env "OPENSEARCH_CLUSTER_NAME" <> Some "__proto__" ->
   fst (createConfigFromEnv W env)
   = JObj [("clusters", SpecWords.first_present (SpecWords.sources W env))])
  /\ (forall bulk,
        SpecWords.named_source W env = None ->
        SpecWords.bulk_source W env = Some bulk ->
        SpecWords.legacy_source W env <> None ->
        createConfigFromEnv W env = (JObj [("clusters", bulk)], [])).
Proof.
  unfold createConfigFromEnv, bulk_or_later, SpecWords.sources,
    SpecWords.named_source, SpecWords.bulk_source.
  split.
  - intros Hname.
    destruct (truthy (E env "OPENSEARCH_CLUSTER_NAME") && has_endpoint env).
    { simpl. rewrite (assign_cluster_ordinary env _ Hname). reflexivity. }
    simpl SpecWords.first_present.
    destruct (env "OPENSEARCH_CLUSTERS") as [text|].
    + destruct (is_empty text).
      * apply legacy_or_empty_is_legacy_source.
      * destruct (JSON_parse W text); [reflexivity|].
        apply legacy_or_empty_is_legacy_source.
    + apply legacy_or_empty_is_legacy_source.
  - intros bulk Hnamed Hbulk _.
    destruct (truthy (E env "OPENSEARCH_CLUSTER_NAME") && has_endpoint env);
      [discriminate|].
    destruct (env "OPENSEARCH_CLUSTERS") as [text|]; [|discriminate].
    destruct (is_empty text); [discriminate|].
    rewrite Hbulk. reflexivity.
Qed.

Lemma C5_witness :
  let W := Sample.world [] in
  let env := env_of [("OPENSEARCH_CLUSTERS", Sample.east_west_text);
                     ("OPENSEARCH_URL", "http://legacy:9200");
                     ("OPENSEARCH_USERNAME", "admin")] in
  fst (createConfigFromEnv W env)
  = JObj [("clusters", SpecWords.first_present (SpecWords.sources W env))]
  /\ createConfigFromEnv W env
     = (JObj [("clusters", Sample.east_west_value)], []).
Proof.
  intros W env.
  destruct (C5_first_present_source_wins W env) as [Hfirst Hbulk].
  split.
  - apply Hfirst. vm_compute. discriminate.
  - apply Hbulk.
    + reflexivity.
    + vm_compute. reflexivity.
    + vm_compute. discriminate.
Defined.

(** The cluster name [__proto__]: the assignment sets the prototype of the
    map, which declares nothing under that name; what validation finds in
    the map are the fields of the cluster object, and it throws. *)
Example proto_name_declares_no_cluster :
  let W := Sample.world [] in
  let env := env_of [("OPENSEARCH_CLUSTER_NAME", "__proto__");
                     ("OPENSEARCH_URL", "http://prod:9200")] in
  createConfigFromEnv W env
  = (JObj [("clusters", cluster_from_env W env)], [])
  /\ fst (createConfigFromEnv W env)
     <> JObj [("clusters",
               SpecWords.first_present (SpecWords.sources W env))]
  /\ exists message,
       validateConfig W (fst (createConfigFromEnv W env))
       = Throw (EError message).
Proof.
  intros W env. split; [reflexivity|]. split.
  - vm_compute. discriminate.
  - eexists. vm_compute. reflexivity.
Qed.

Example named_shorthand_wins :
  let W := Sample.world [] in
  let env := env_of [("OPENSEARCH_CLUSTER_NAME", "prod");
                     ("OPENSEARCH_URL", "http://prod:9200");
                     ("OPENSEARCH_CLUSTERS", Sample.east_west_text)] in
  createConfigFromEnv W env
  = (JObj [("clusters", JObj [("prod", cluster_from_env W env)])], []).
Proof. reflexivity. Qed.

(** C8, as stated, fails when the named shorthand applies: the bulk
    variable is then never read, so no warning is printed and the result
    is the named cluster, not the legacy one. *)
Lemma C8_counterexample :
  let W := Sample.world [] in
  let env := env_of [("OPENSEARCH_CLUSTER_NAME", "prod");
                     ("OPENSEARCH_URL", "http://prod:9200");
                     ("OPENSEARCH_CLUSTERS", Sample.malformed_text)] in
  env "OPENSEARCH_CLUSTERS" = Some Sample.malformed_text
  /\ JSON_parse W Sample.malformed_text = None
  /\ createConfigFromEnv W env
     = (JObj [("clusters", JObj [("prod", cluster_from_env W env)])], [])
  /\ fst (createConfigFromEnv W env) <> legacy_or_empty W env.
Proof.
  intros W env. split; [|split; [|split]].
  - reflexivity.
  - reflexivity.
  - reflexivity.
  - vm_compute. discriminate.
Qed.

(** C8, amended.  For every environment in which the named shorthand does
    not apply and the bulk variable is set, not empty, and rejected by
    JSON.parse: resolution prints the warning, returns what the legacy rule
    gives (cluster [default] when an endpoint is set, the empty map
    otherwise), which is what it returns with the bulk variable unset; it
    returns normally, never with an error. *)
Theorem C8_malformed_bulk_falls_back_to_legacy
  (W : World) (env : Env) (text : string)
  (Hnamed : truthy (E env "OPENSEARCH_CLUSTER_NAME") && has_endpoint env = false)
  (Hset : env "OPENSEARCH_CLUSTERS" = Some text)
  (Hnonempty : text <> EmptyString)
  (Hmalformed : JSON_parse W text = None) :
  createConfigFromEnv W env = (legacy_or_empty W env, [bulk_warning])
  /\ legacy_or_empty W env
     = JObj [("clusters",
              SpecWords.first_present [SpecWords.legacy_source W env])]
  /\ fst (createConfigFromEnv W env)
     = fst (createConfigFromEnv W (env_remove "OPENSEARCH_CLUSTERS" env)).
Proof.
  apply is_empty_false in Hnonempty.
  assert (Hhere : createConfigFromEnv W env
                  = (legacy_or_empty W env, [bulk_warning])).
  { unfold createConfigFromEnv, bulk_or_later.
    rewrite Hnamed, Hset, Hnonempty, Hmalformed. reflexivity. }
  split; [exact Hhere|]. split.
  - apply legacy_or_empty_is_legacy_source.
  - rewrite Hhere. unfold createConfigFromEnv, bulk_or_later.
    change (E (env_remove "OPENSEARCH_CLUSTERS" env) "OPENSEARCH_CLUSTER_NAME")
      with (E env "OPENSEARCH_CLUSTER_NAME").
    rewrite has_endpoint_without_bulk, Hnamed.
    unfold env_remove at 1. simpl.
    symmetry. apply legacy_or_empty_without_bulk.
Qed.

Lemma C8_witness :
  let W := Sample.world [] in
  let env := env_of [("OPENSEARCH_URL", "http://legacy:9200");
                     ("OPENSEARCH_CLUSTERS", Sample.malformed_text)] in
  createConfigFromEnv W env = (legacy_or_empty W env, [bulk_warning])
  /\ legacy_or_empty W env
     = JObj [("clusters",
              SpecWords.first_present [SpecWords.legacy_source W env])]
  /\ fst (createConfigFromEnv W env)
     = fst (createConfigFromEnv W (env_remove "OPENSEARCH_CLUSTERS" env)).
Proof.
  intros W env.
  apply (C8_malformed_bulk_falls_back_to_legacy W env Sample.malformed_text).
  - reflexivity.
  - reflexivity.
  - discriminate.
  - reflexivity.
Defined.

Example malformed_bulk_then_legacy :
  let W := Sample.world [] in
  let env := env_of [("OPENSEARCH_URL", "http://legacy:9200");
                     ("OPENSEARCH_CLUSTERS", Sample.malformed_text)] in
  createConfigFromEnv W env
  = (JObj [("clusters", JObj [("default", cluster_from_env W env)])],
     [Console LWarn
        "Failed to parse OPENSEARCH_CLUSTERS JSON, falling back to legacy format"]).
Proof. reflexivity. Qed.

(* ================================================================= *)
(** ** More of configuration resolution *)

Lemma get_clusters_only (x : JValue) : get [("clusters", x)] "node" = JUndefined.
Proof. reflexivity. Qed.

(** A value with only a [clusters] property never passes for a legacy
    single-cluster configuration. *)
Lemma legacy_shape_rejected (W : World) (x : JValue) :
  parse_cluster W (JObj [("clusters", x)]) = None.
Proof. reflexivity. Qed.

Lemma validate_declared (W : World) (x : JValue) :
  validateConfig W (JObj [("clusters", x)])
  = match x with
    | JObj es =>
        match parse_record W es with
        | Some cs => Ok (mkConfig cs)
        | None =>
            Throw (EError ("Invalid OpenSearch configuration:" ++ newline
                           ++ zod_issues W (JObj [("clusters", x)])))
        end
    | _ => Throw (EError ("Invalid OpenSearch configuration:" ++ newline
                          ++ zod_issues W (JObj [("clusters", x)])))
    end.
Proof.
  assert (Hg : get [("clusters", x)] "clusters" = x) by reflexivity.
  unfold validateConfig, parse_config. rewrite Hg, legacy_shape_rejected.
  destruct x; try reflexivity.
  destruct (parse_record W props); reflexivity.
Qed.

(** The named shorthand, when it applies, decides alone: the bulk variable
    is not read, nothing is printed, and the map is what the assignment
    of the named cluster makes of the empty object. *)
Theorem named_shorthand_ignores_bulk (W : World) (env : Env)
  (Hnamed : truthy (E env "OPENSEARCH_CLUSTER_NAME") && has_endpoint env = true) :
  createConfigFromEnv W env
  = (JObj [("clusters",
            assign_cluster (ToString (E env "OPENSEARCH_CLUSTER_NAME"))
              (cluster_from_env W env))], [])
  /\ createConfigFromEnv W (env_remove "OPENSEARCH_CLUSTERS" env)
     = createConfigFromEnv W env.
Proof.
  unfold createConfigFromEnv.
  change (E (env_remove "OPENSEARCH_CLUSTERS" env) "OPENSEARCH_CLUSTER_NAME")
    with (E env "OPENSEARCH_CLUSTER_NAME").
  rewrite has_endpoint_without_bulk, Hnamed.
  split; reflexivity.
Qed.

Lemma named_shorthand_ignores_bulk_witness :
  let W := Sample.world [] in
  let env := env_of [("OPENSEARCH_CLUSTER_NAME", "prod");
                     ("OPENSEARCH_NODE", "http://prod:9200");
                     ("OPENSEARCH_CLUSTERS", Sample.east_west_text)] in
  createConfigFromEnv W env
  = (JObj [("clusters",
            assign_cluster (ToString (E env "OPENSEARCH_CLUSTER_NAME"))
              (cluster_from_env W env))], [])
  /\ createConfigFromEnv W (env_remove "OPENSEARCH_CLUSTERS" env)
     = createConfigFromEnv W env.
Proof.
  intros W env. apply (named_shorthand_ignores_bulk W env). reflexivity.
Defined.

(** X1.  A cluster name without an endpoint is ignored: resolution gives what
    it gives with the name unset, which is the bulk declaration when that
    parses and the empty map otherwise. *)
Theorem cluster_name_without_endpoint_is_ignored (W : World) (env : Env)
  (Hno : has_endpoint env = false) :
  createConfigFromEnv W env
  = createConfigFromEnv W (env_remove "OPENSEARCH_CLUSTER_NAME" env)
  /\ fst (createConfigFromEnv W env)
     = JObj [("clusters",
              match given (env "OPENSEARCH_CLUSTERS") with
              | Some text =>
                  match JSON_parse W text with
                  | Some bulk => bulk
                  | None => JObj []
                  end
              | None => JObj []
              end)].
Proof.
  unfold createConfigFromEnv.
  assert (Hno' : has_endpoint (env_remove "OPENSEARCH_CLUSTER_NAME" env) = false)
    by exact Hno.
  rewrite Hno, Hno', !andb_false_r.
  split.
  - reflexivity.
  - unfold bulk_or_later, given, legacy_or_empty.
    rewrite Hno.
    destruct (env "OPENSEARCH_CLUSTERS") as [text|]; [|reflexivity].
    destruct (is_empty text); [reflexivity|].
    destruct (JSON_parse W text); reflexivity.
Qed.

Lemma cluster_name_without_endpoint_is_ignored_witness :
  let W := Sample.world [] in
  let env := env_of [("OPENSEARCH_CLUSTER_NAME", "prod");
                     ("OPENSEARCH_USERNAME", "admin")] in
  createConfigFromEnv W env
  = createConfigFromEnv W (env_remove "OPENSEARCH_CLUSTER_NAME" env)
  /\ fst (createConfigFromEnv W env)
     = JObj [("clusters",
              match given (env "OPENSEARCH_CLUSTERS") with
              | Some text =>
                  match JSON_parse W text with
                  | Some bulk => bulk
                  | None => JObj []
                  end
              | None => JObj []
              end)].
Proof.
  intros W env.
  apply (cluster_name_without_endpoint_is_ignored W env). reflexivity.
Defined.

Lemma parse_url_list_urls (W : World) (xs : list JValue) :
  forall us, parse_url_list W xs = Some us ->
             Forall (fun u => is_url W u = true) us.
Proof.
  induction xs as [|x xs IH]; simpl; intros us H.
  - injection H as <-. constructor.
  - destruct x; try discriminate. simpl in H.
    destruct (is_url W s) eqn:Hs; [|discriminate].
    destruct (parse_url_list W xs) as [us'|]; [|discriminate].
    injection H as <-. constructor; [exact Hs | now apply IH].
Qed.

Lemma parse_cluster_urls (W : World) (v : JValue) (c : OpenSearchClusterConfig) :
  parse_cluster W v = Some c -> urls_only W c.
Proof.
  unfold parse_cluster. destruct v; try discriminate.
  destruct (parse_url W (get props "node")) as [n|] eqn:Hn; [|discriminate].
  destruct (parse_nodes W (get props "nodes")) as [ns|] eqn:Hns; [|discriminate].
  destruct (parse_auth (get props "auth")); [|discriminate].
  destruct (parse_ssl (get props "ssl")); [|discriminate].
  destruct (parse_number_default 30000 (get props "requestTimeout"));
    [|discriminate].
  destruct (parse_number_default 3000 (get props "pingTimeout"));
    [|discriminate].
  destruct (parse_number_default 3 (get props "maxRetries")); [|discriminate].
  destruct (parse_bool_default false (get props "compression"));
    [|discriminate].
  destruct (parse_opt_string (get props "defaultIndex")); [|discriminate].
  destruct (parse_opt_string (get props "indexPrefix")); [|discriminate].
  intros H. injection H as <-. unfold urls_only. simpl. split.
  - unfold parse_url in Hn. destruct (get props "node"); try discriminate.
    destruct (is_url W s) eqn:Hs; [|discriminate]. injection Hn as <-.
    exact Hs.
  - unfold parse_nodes in Hns. destruct (get props "nodes"); try discriminate.
    + injection Hns as <-. exact I.
    + destruct (parse_url_list W xs) as [us|] eqn:Hus; [|discriminate].
      injection Hns as <-. exact (parse_url_list_urls W xs us Hus).
Qed.

Lemma parse_record_urls (W : World) (es : Props) :
  forall cs, parse_record W es = Some cs ->
             Forall (fun e => urls_only W (snd e)) cs.
Proof.
  induction es as [|[k v] es IH]; simpl; intros cs H.
  - injection H as <-. constructor.
  - destruct (parse_cluster W v) as [c|] eqn:Hc; [|discriminate].
    destruct (parse_record W es) as [cs'|]; [|discriminate].
    injection H as <-.
    destruct (String.eqb k "__proto__"); [now apply IH|].
    constructor.
    + exact (parse_cluster_urls W v c Hc).
    + now apply IH.
Qed.

(** X2.  Whatever value [validateConfig] accepts, in either shape, every
    cluster of the result has a node that passed the URL test, and so has
    every entry of its [nodes] list. *)
Theorem validated_clusters_hold_urls
  (W : World) (v : JValue) (cfg : OpenSearchConfig)
  (Hvalid : validateConfig W v = Ok cfg) :
  Forall (fun e => urls_only W (snd e)) (clusters cfg).
Proof.
  unfold validateConfig in Hvalid.
  destruct (parse_config W v) as [c|] eqn:Hc.
  - injection Hvalid as <-. unfold parse_config in Hc.
    destruct v; try discriminate.
    destruct (get props "clusters"); try discriminate.
    destruct (parse_record W props0) as [cs|] eqn:Hcs; [|discriminate].
    injection Hc as <-. simpl. exact (parse_record_urls W props0 cs Hcs).
  - destruct (parse_cluster W v) as [lc|] eqn:Hl; [|discriminate].
    injection Hvalid as <-. simpl. constructor; [|constructor].
    exact (parse_cluster_urls W v lc Hl).
Qed.

Lemma validated_clusters_hold_urls_witness :
  Forall (fun e => urls_only (Sample.world []) (snd e))
    (clusters Sample.config_east_west).
Proof.
  apply (validated_clusters_hold_urls (Sample.world [])
           (declared [("east", JObj [("node", JStr "http://east:9200")]);
                      ("west", JObj [("node", JStr "http://west:9200")])])
           Sample.config_east_west).
  vm_compute. reflexivity.
Defined.

Lemma parse_opt_string_env (env : Env) (k : string) :
  parse_opt_string (E env k) = Some (env k).
Proof. unfold E, env_get. destruct (env k); reflexivity. Qed.

Lemma parse_env_auth (env : Env) :
  parse_auth (JObj [
    ("username", E env "OPENSEARCH_USERNAME");
    ("password", E env "OPENSEARCH_PASSWORD");
    ("apiKey", E env "OPENSEARCH_API_KEY");
    ("awsRegion", E env "AWS_REGION");
    ("awsService", js_or (E env "AWS_SERVICE") (JStr "es"))])
  = Some (Some (env_auth env)).
Proof.
  unfold parse_auth, env_auth.
  change (get _ "username") with (E env "OPENSEARCH_USERNAME").
  change (get _ "password") with (E env "OPENSEARCH_PASSWORD").
  change (get _ "apiKey") with (E env "OPENSEARCH_API_KEY").
  change (get _ "awsRegion") with (E env "AWS_REGION").
  change (get _ "awsService") with (js_or (E env "AWS_SERVICE") (JStr "es")).
  rewrite !parse_opt_string_env.
  unfold js_or, E, env_get, given.
  destruct (env "AWS_SERVICE") as [s|]; [|reflexivity].
  simpl. destruct (is_empty s); reflexivity.
Qed.

Lemma parse_env_ssl (env : Env) :
  parse_ssl (JObj [
    ("rejectUnauthorized",
      JBool (negb (match env "OPENSEARCH_REJECT_UNAUTHORIZED" with
                   | Some s => String.eqb s "false"
                   | None => false
                   end)));
    ("caCertPath", E env "OPENSEARCH_CA_CERT_PATH");
    ("caBundle", E env "OPENSEARCH_CA_BUNDLE")])
  = Some (Some (env_ssl env)).
Proof.
  unfold parse_ssl, env_ssl.
  change (get _ "rejectUnauthorized")
    with (JBool (negb (match env "OPENSEARCH_REJECT_UNAUTHORIZED" with
                       | Some s => String.eqb s "false"
                       | None => false
                       end))).
  change (get _ "ca") with JUndefined.
  change (get _ "cert") with JUndefined.
  change (get _ "key") with JUndefined.
  change (get _ "caCertPath") with (E env "OPENSEARCH_CA_CERT_PATH").
  change (get _ "caBundle") with (E env "OPENSEARCH_CA_BUNDLE").
  rewrite !parse_opt_string_env. reflexivity.
Qed.

(** Validation of the object the shorthand branches build: it depends
    on the endpoint, the node list and the timeout only. *)
Lemma parse_env_cluster (W : World) (env : Env) :
  parse_cluster W (cluster_from_env W env)
  = match parse_url W (js_or (E env "OPENSEARCH_URL") (E env "OPENSEARCH_NODE")),
          parse_nodes W (env_nodes env),
          parse_number_default 30000 (env_timeout W env) with
    | Some n, Some ns, Some rt =>
        Some (mkCluster n ns (Some (env_auth env)) (Some (env_ssl env))
                rt 3000 3 false
                (env "OPENSEARCH_DEFAULT_INDEX") (env "OPENSEARCH_INDEX_PREFIX"))
    | _, _, _ => None
    end.
Proof.
  unfold parse_cluster, cluster_from_env.
  change (get _ "node")
    with (js_or (E env "OPENSEARCH_URL") (E env "OPENSEARCH_NODE")).
  change (get _ "nodes") with (env_nodes env).
  change (get _ "requestTimeout") with (env_timeout W env).
  change (get _ "pingTimeout") with JUndefined.
  change (get _ "maxRetries") with JUndefined.
  change (get _ "compression") with JUndefined.
  change (get _ "defaultIndex") with (E env "OPENSEARCH_DEFAULT_INDEX").
  change (get _ "indexPrefix") with (E env "OPENSEARCH_INDEX_PREFIX").
  match goal with
  | |- context [parse_auth ?a] =>
      replace (parse_auth a) with (Some (Some (env_auth env)))
        by (symmetry; apply parse_env_auth)
  end.
  match goal with
  | |- context [parse_ssl ?a] =>
      replace (parse_ssl a) with (Some (Some (env_ssl env)))
        by (symmetry; apply parse_env_ssl)
  end.
  rewrite !parse_opt_string_env.
  destruct (parse_url W _); [|reflexivity].
  destruct (parse_nodes W _); [|reflexivity].
  destruct (parse_number_default 30000 _); reflexivity.
Qed.

Lemma parse_record_single (W : World) (k : string) (v : JValue) :
  parse_record W [(k, v)]
  = match parse_cluster W v with
    | Some c => Some (if String.eqb k "__proto__" then [] else [(k, c)])
    | None => None
    end.
Proof.
  unfold parse_record. destruct (parse_cluster W v); reflexivity.
Qed.

(** With an endpoint and no bulk declaration, resolution assigns the one
    shorthand cluster to its name, the given one or [default]. *)
Lemma shorthand_config (W : World) (env : Env) :
  has_endpoint env = true ->
  env "OPENSEARCH_CLUSTERS" = None ->
  createConfigFromEnv W env
  = (JObj [("clusters",
            assign_cluster (shorthand_name env) (cluster_from_env W env))],
     []).
Proof.
  intros Hend Hbulk.
  unfold createConfigFromEnv, bulk_or_later, legacy_or_empty, shorthand_name,
    given, E, env_get.
  rewrite Hend, Hbulk, andb_true_r.
  destruct (env "OPENSEARCH_CLUSTER_NAME") as [n|]; [|reflexivity].
  simpl. destruct (is_empty n); reflexivity.
Qed.

(** The cluster object in the place of the map of clusters (what the
    name [__proto__] leads to) never validates: its [node] is a text or
    undefined, and no cluster. *)
Lemma cluster_as_map_is_invalid (W : World) (env : Env) :
  validateConfig W (JObj [("clusters", cluster_from_env W env)])
  = Throw (EError ("Invalid OpenSearch configuration:" ++ newline
                   ++ zod_issues W
                        (JObj [("clusters", cluster_from_env W env)]))).
Proof.
  rewrite validate_declared.
  assert (Hn : parse_cluster W
                 (js_or (E env "OPENSEARCH_URL") (E env "OPENSEARCH_NODE"))
               = None).
  { unfold js_or, E, env_get.
    destruct (env "OPENSEARCH_URL") as [u|];
      destruct (env "OPENSEARCH_NODE") as [n|]; simpl;
      repeat match goal with
             | |- context [if ?c then _ else _] => destruct c
             end; reflexivity. }
  unfold cluster_from_env at 1. cbn [parse_record]. rewrite Hn. reflexivity.
Qed.

(** A configuration that fails validation fails initialization, before
    any cluster is probed, and leaves the server as it was. *)
Lemma initialize_invalid (W : World) (env : Env) (st : Server) (e : Exn) :
  opensearchClients st = [] ->
  validateConfig W (fst (createConfigFromEnv W env)) = Throw e ->
  initializeOpenSearch W env st
  = (Throw (EMcp InternalError
              ("Failed to initialize OpenSearch: " ++ exn_message e)),
     st,
     snd (createConfigFromEnv W env)
     ++ [ConsoleExn "Failed to initialize OpenSearch clients:" e]).
Proof.
  intros Hempty Hbad.
  unfold initializeOpenSearch. unfold bind at 1. unfold clients at 1.
  rewrite Hempty. simpl.
  destruct (createConfigFromEnv W env) as [envConfig printed].
  simpl in Hbad |- *.
  unfold try_catch, bind, emit_all, lift, emit, throw. rewrite Hbad. simpl.
  rewrite app_nil_r. reflexivity.
Qed.

(** X3.  A timeout that [parseInt] cannot read makes the whole configuration
    invalid.  With an endpoint, no bulk declaration, and
    OPENSEARCH_REQUEST_TIMEOUT set to a text [parseInt] turns into NaN,
    validation throws, so the first request fails with the internal
    error of initialization; no cluster is probed and the registry stays
    empty. *)
Theorem unreadable_timeout_fails_startup
  (W : World) (env : Env) (st : Server) (text : string)
  (Hempty : opensearchClients st = [])
  (Hend : has_endpoint env = true)
  (Hbulk : env "OPENSEARCH_CLUSTERS" = None)
  (Hset : env "OPENSEARCH_REQUEST_TIMEOUT" = Some text)
  (Htext : text <> EmptyString)
  (Hnan : parseInt W text = JNaN) :
  let invalid :=
    EError ("Invalid OpenSearch configuration:" ++ newline
            ++ zod_issues W (fst (createConfigFromEnv W env))) in
  validateConfig W (fst (createConfigFromEnv W env)) = Throw invalid
  /\ initializeOpenSearch W env st
     = (Throw (EMcp InternalError
                 ("Failed to initialize OpenSearch: " ++ exn_message invalid)),
        st,
        [ConsoleExn "Failed to initialize OpenSearch clients:" invalid]).
Proof.
  intros invalid.
  assert (Hv : validateConfig W (fst (createConfigFromEnv W env))
               = Throw invalid).
  { unfold invalid. rewrite (shorthand_config W env Hend Hbulk). simpl fst.
    unfold assign_cluster.
    destruct (String.eqb (shorthand_name env) "__proto__");
      [apply cluster_as_map_is_invalid|].
    rewrite validate_declared, parse_record_single, parse_env_cluster.
    assert (Ht : env_timeout W env = JNaN).
    { unfold env_timeout. rewrite Hset.
      apply is_empty_false in Htext. rewrite Htext. exact Hnan. }
    rewrite Ht.
    destruct (parse_url W _); [|reflexivity].
    destruct (parse_nodes W _); reflexivity. }
  split; [exact Hv|].
  rewrite (initialize_invalid W env st invalid Hempty Hv).
  rewrite (shorthand_config W env Hend Hbulk). reflexivity.
Qed.

Lemma unreadable_timeout_fails_startup_witness :
  let W := Sample.world [] in
  let env := env_of [("OPENSEARCH_URL", "http://one:9200");
                     ("OPENSEARCH_REQUEST_TIMEOUT", "soon")] in
  let invalid :=
    EError ("Invalid OpenSearch configuration:" ++ newline
            ++ zod_issues W (fst (createConfigFromEnv W env))) in
  validateConfig W (fst (createConfigFromEnv W env)) = Throw invalid
  /\ initializeOpenSearch W env new_server
     = (Throw (EMcp InternalError
                 ("Failed to initialize OpenSearch: " ++ exn_message invalid)),
        new_server,
        [ConsoleExn "Failed to initialize OpenSearch clients:" invalid]).
Proof.
  intros W env.
  apply (unreadable_timeout_fails_startup W env new_server "soon").
  - reflexivity.
  - reflexivity.
  - reflexivity.
  - reflexivity.
  - discriminate.
  - reflexivity.
Defined.

(** X4.  A bulk declaration that parses, but not to an object, is fatal: unlike
    a text JSON.parse rejects, it is not skipped.  When the named shorthand
    does not apply and OPENSEARCH_CLUSTERS parses to a value that is not
    an object (null, a number, a string, an array), validation throws
    and initialization fails without probing, whatever legacy variables
    are set. *)
Theorem bulk_that_is_no_object_is_fatal
  (W : World) (env : Env) (st : Server) (text : string) (bulk : JValue)
  (Hempty : opensearchClients st = [])
  (Hnamed : truthy (E env "OPENSEARCH_CLUSTER_NAME") && has_endpoint env = false)
  (Hset : env "OPENSEARCH_CLUSTERS" = Some text)
  (Htext : text <> EmptyString)
  (Hparsed : JSON_parse W text = Some bulk)
  (Hshape : forall es, bulk <> JObj es) :
  let invalid :=
    EError ("Invalid OpenSearch configuration:" ++ newline
            ++ zod_issues W (JObj [("clusters", bulk)])) in
  createConfigFromEnv W env = (JObj [("clusters", bulk)], [])
  /\ initializeOpenSearch W env st
     = (Throw (EMcp InternalError
                 ("Failed to initialize OpenSearch: " ++ exn_message invalid)),
        st,
        [ConsoleExn "Failed to initialize OpenSearch clients:" invalid]).
Proof.
  intros invalid.
  assert (Hc : createConfigFromEnv W env = (JObj [("clusters", bulk)], [])).
  { unfold createConfigFromEnv, bulk_or_later.
    apply is_empty_false in Htext.
    rewrite Hnamed, Hset, Htext, Hparsed. reflexivity. }
  split; [exact Hc|].
  assert (Hv : validateConfig W (fst (createConfigFromEnv W env))
               = Throw invalid).
  { rewrite Hc. simpl fst. rewrite validate_declared.
    destruct bulk; try reflexivity. exfalso. exact (Hshape props eq_refl). }
  rewrite (initialize_invalid W env st invalid Hempty Hv), Hc. reflexivity.
Qed.

Lemma bulk_that_is_no_object_is_fatal_witness :
  let W := mkWorld (fun _ => Some JNull) Sample.parse_int Sample.url
             Sample.issues (fun _ _ => Status 200) (fun _ _ _ => inl JNull)
             Sample.no_file Sample.accept Sample.no_require in
  let env := env_of [("OPENSEARCH_CLUSTERS", "null");
                     ("OPENSEARCH_URL", "http://one:9200")] in
  let invalid :=
    EError ("Invalid OpenSearch configuration:" ++ newline
            ++ zod_issues W (JObj [("clusters", JNull)])) in
  createConfigFromEnv W env = (JObj [("clusters", JNull)], [])
  /\ initializeOpenSearch W env new_server
     = (Throw (EMcp InternalError
                 ("Failed to initialize OpenSearch: " ++ exn_message invalid)),
        new_server,
        [ConsoleExn "Failed to initialize OpenSearch clients:" invalid]).
Proof.
  intros W env.
  apply (bulk_that_is_no_object_is_fatal W env new_server "null" JNull).
  - reflexivity.
  - reflexivity.
  - reflexivity.
  - discriminate.
  - reflexivity.
  - intros es. discriminate.
Defined.

(** X5.  Without a recognizable source (no endpoint, and no bulk declaration
    or an empty one) the resolved map is empty and valid; the failure
    comes from initialization, which reports that no cluster could be
    connected although none was probed. *)
Theorem no_source_fails_without_probing
  (W : World) (env : Env) (st : Server)
  (Hempty : opensearchClients st = [])
  (Hend : has_endpoint env = false)
  (Hbulk : given (env "OPENSEARCH_CLUSTERS") = None) :
  createConfigFromEnv W env = (JObj [("clusters", JObj [])], [])
  /\ validateConfig W (JObj [("clusters", JObj [])]) = Ok (mkConfig [])
  /\ initializeOpenSearch W env st
     = (Throw (EMcp InternalError
                 ("Failed to initialize OpenSearch: " ++ no_cluster_message)),
        mkServer [] (Some (mkConfig [])),
        [ConsoleExn "Failed to initialize OpenSearch clients:"
           (EError no_cluster_message)]).
Proof.
  assert (Hc : createConfigFromEnv W env = (JObj [("clusters", JObj [])], [])).
  { unfold createConfigFromEnv, bulk_or_later, legacy_or_empty.
    rewrite Hend, andb_false_r. unfold given in Hbulk.
    destruct (env "OPENSEARCH_CLUSTERS") as [text|]; [|reflexivity].
    destruct (is_empty text); [reflexivity | discriminate]. }
  split; [exact Hc|]. split; [reflexivity|].
  destruct st as [registry cfg]. simpl in Hempty. subst registry.
  unfold initializeOpenSearch. rewrite Hc. reflexivity.
Qed.

Lemma no_source_fails_without_probing_witness :
  let W := Sample.world [] in
  let env := env_of [("OPENSEARCH_USERNAME", "admin");
                     ("OPENSEARCH_CLUSTER_NAME", "prod")] in
  createConfigFromEnv W env = (JObj [("clusters", JObj [])], [])
  /\ validateConfig W (JObj [("clusters", JObj [])]) = Ok (mkConfig [])
  /\ initializeOpenSearch W env new_server
     = (Throw (EMcp InternalError
                 ("Failed to initialize OpenSearch: " ++ no_cluster_message)),
        mkServer [] (Some (mkConfig [])),
        [ConsoleExn "Failed to initialize OpenSearch clients:"
           (EError no_cluster_message)]).
Proof.
  intros W env.
  apply (no_source_fails_without_probing W env new_server); reflexivity.
Defined.

Lemma shorthand_name_ordinary (env : Env) :
  env "OPENSEARCH_CLUSTER_NAME" <> Some "__proto__" ->
  String.eqb (shorthand_name env) "__proto__" = false.
Proof.
  intros Hname. unfold shorthand_name, given.
  destruct (env "OPENSEARCH_CLUSTER_NAME") as [n|]; [|reflexivity].
  destruct (is_empty n); [reflexivity|].
  destruct (has_endpoint env); [|reflexivity].
  apply String.eqb_neq. congruence.
Qed.

(** X6.  The shorthand cluster after validation.  With OPENSEARCH_URL set to a
    text that passes the URL test, a cluster name other than [__proto__]
    (or none), no bulk declaration, no node list and no timeout, the
    validated configuration is one cluster, under the given name or
    [default], whose node is that URL, with the timeouts 30000 and 3000,
    3 retries, no compression, and the credentials, TLS settings and index
    settings read from the environment (the AWS service is [es] unless
    AWS_SERVICE says otherwise). *)
Theorem shorthand_cluster_gets_the_defaults
  (W : World) (env : Env) (u : string)
  (Hurl : env "OPENSEARCH_URL" = Some u)
  (Hu : u <> EmptyString)
  (Hvalid : is_url W u = true)
  (Hname : env "OPENSEARCH_CLUSTER_NAME" <> Some "__proto__")
  (Hbulk : env "OPENSEARCH_CLUSTERS" = None)
  (Hnodes : env "OPENSEARCH_NODES" = None)
  (Htimeout : env "OPENSEARCH_REQUEST_TIMEOUT" = None) :
  validateConfig W (fst (createConfigFromEnv W env))
  = Ok (mkConfig
          [(shorthand_name env,
            mkCluster u None (Some (env_auth env)) (Some (env_ssl env))
              30000 3000 3 false
              (env "OPENSEARCH_DEFAULT_INDEX")
              (env "OPENSEARCH_INDEX_PREFIX"))]).
Proof.
  apply is_empty_false in Hu.
  assert (Hend : has_endpoint env = true).
  { unfold has_endpoint, E, env_get. rewrite Hurl. simpl. rewrite Hu.
    reflexivity. }
  rewrite (shorthand_config W env Hend Hbulk). simpl fst.
  unfold assign_cluster. rewrite (shorthand_name_ordinary env Hname).
  rewrite validate_declared, parse_record_single, parse_env_cluster.
  rewrite (shorthand_name_ordinary env Hname).
  unfold env_nodes, env_timeout. rewrite Hnodes, Htimeout.
  unfold js_or, E, env_get. rewrite Hurl. simpl truthy. rewrite Hu.
  simpl. rewrite Hvalid. reflexivity.
Qed.

Lemma shorthand_cluster_gets_the_defaults_witness :
  let W := Sample.world [] in
  let env := env_of [("OPENSEARCH_URL", "https://one:9200");
                     ("OPENSEARCH_CLUSTER_NAME", "one");
                     ("OPENSEARCH_USERNAME", "admin");
                     ("OPENSEARCH_PASSWORD", "admin");
                     ("OPENSEARCH_REJECT_UNAUTHORIZED", "false")] in
  validateConfig W (fst (createConfigFromEnv W env))
  = Ok (mkConfig
          [(shorthand_name env,
            mkCluster "https://one:9200" None (Some (env_auth env))
              (Some (env_ssl env)) 30000 3000 3 false
              (env "OPENSEARCH_DEFAULT_INDEX")
              (env "OPENSEARCH_INDEX_PREFIX"))]).
Proof.
  intros W env.
  apply (shorthand_cluster_gets_the_defaults W env "https://one:9200").
  - reflexivity.
  - discriminate.
  - reflexivity.
  - vm_compute. discriminate.
  - reflexivity.
  - reflexivity.
  - reflexivity.
Defined.

(* ================================================================= *)
(** ** More of the registry *)

(** When every client can be constructed the loop runs to its end. *)
Lemma connect_loop_returns (W : World)
      (entries : list (string * OpenSearchClusterConfig)) :
  Forall (fun e => constructs W e = true) entries ->
  forall st,
  exists st' trace, for_each entries (connect W) st = (Ok tt, st', trace).
Proof.
  induction 1 as [|[name cfg] es Hb _ IH]; intros st.
  - do 2 eexists. reflexivity.
  - assert (H1 : exists s1 t1, connect W (name, cfg) st = (Ok tt, s1, t1)).
    { unfold constructs in Hb. simpl in Hb. unfold connect.
      destruct (createClient W cfg) as [[options|e] printed];
        simpl in Hb; [|discriminate].
      unfold ping, bind, emit, emit_all, lift, set_client, ret. simpl.
      destruct (probe W name cfg) as [code|msg]; simpl.
      - destruct (code =? 200)%Z; simpl; do 2 eexists; reflexivity.
      - do 2 eexists; reflexivity. }
    destruct H1 as (s1 & t1 & H1).
    destruct (IH s1) as (s2 & t2 & H2).
    change (for_each ((name, cfg) :: es) (connect W) st)
      with (bind (connect W (name, cfg))
              (fun _ => for_each es (connect W)) st).
    unfold bind. rewrite H1, H2.
    do 2 eexists. reflexivity.
Qed.

(** Initialization of an empty registry from a valid configuration: what
    the loop throws is reported; when it runs to its end, only the size of
    the registry decides. *)
Lemma initialize_valid (W : World) (env : Env) (st : Server)
      (cfg : OpenSearchConfig) (r : Outcome unit) (st1 : Server)
      (trace : list Event) :
  opensearchClients st = [] ->
  validateConfig W (fst (createConfigFromEnv W env)) = Ok cfg ->
  for_each (clusters cfg) (connect W) (mkServer [] (Some cfg))
  = (r, st1, trace) ->
  fst (initializeOpenSearch W env st)
  = (match r with
     | Ok _ =>
         if (length (opensearchClients st1) =? 0)%nat
         then Throw (EMcp InternalError
                       ("Failed to initialize OpenSearch: "
                        ++ no_cluster_message))
         else Ok tt
     | Throw e =>
         Throw (EMcp InternalError
                  ("Failed to initialize OpenSearch: " ++ exn_message e))
     end,
     st1).
Proof.
  intros Hempty Hcfg Hloop.
  unfold initializeOpenSearch. unfold bind at 1. unfold clients at 1.
  rewrite Hempty. simpl.
  destruct (createConfigFromEnv W env) as [envConfig printed].
  simpl in Hcfg.
  unfold try_catch, bind, emit_all, lift, set_config, clients.
  rewrite Hcfg. simpl. rewrite Hempty, Hloop. simpl.
  destruct r as [[]|e]; simpl; [|reflexivity].
  destruct (length (opensearchClients st1) =? 0)%nat; reflexivity.
Qed.

(** The outcomes of validation. *)
Lemma validate_cases (W : World) (v : JValue) :
  (exists cfg, validateConfig W v = Ok cfg)
  \/ (exists e, validateConfig W v = Throw e).
Proof.
  destruct (validateConfig W v) as [cfg|e]; [left|right]; eexists; reflexivity.
Qed.

(** X7.  Initialization runs once.  When [initializeOpenSearch] returns
    normally on an empty registry, the registry it leaves is not empty,
    and running it again changes nothing, probes nothing and prints
    nothing. *)
Theorem initialization_runs_once
  (W : World) (env : Env) (st st1 : Server) (trace : list Event)
  (Hempty : opensearchClients st = [])
  (Hok : initializeOpenSearch W env st = (Ok tt, st1, trace)) :
  opensearchClients st1 <> []
  /\ initializeOpenSearch W env st1 = (Ok tt, st1, []).
Proof.
  assert (Hbuilt : opensearchClients st1 <> []).
  { destruct (validate_cases W (fst (createConfigFromEnv W env)))
      as [[cfg Hcfg]|[e Hbad]].
    - destruct (for_each (clusters cfg) (connect W) (mkServer [] (Some cfg)))
        as [[r s1] t] eqn:Hloop.
      assert (Hinit := initialize_valid W env st cfg r s1 t Hempty Hcfg Hloop).
      rewrite Hok in Hinit. simpl in Hinit.
      destruct r as [[]|e]; [|discriminate].
      destruct (opensearchClients s1) as [|c cs] eqn:Hs1.
      + simpl in Hinit. discriminate.
      + simpl in Hinit. injection Hinit as ->. rewrite Hs1. discriminate.
    - rewrite (initialize_invalid W env st e Hempty Hbad) in Hok.
      discriminate. }
  split; [exact Hbuilt|].
  apply initialize_when_built. exact Hbuilt.
Qed.

Lemma initialization_runs_once_witness :
  opensearchClients Sample.server_east <> []
  /\ initializeOpenSearch (Sample.world ["west"]) Sample.env_east_west
       Sample.server_east
     = (Ok tt, Sample.server_east, []).
Proof.
  apply (initialization_runs_once (Sample.world ["west"]) Sample.env_east_west
           new_server Sample.server_east
           [Ping "east";
            Console LLog "Successfully connected to OpenSearch cluster 'east'";
            Ping "west";
            ConsoleExn "OpenSearch ping failed:" (EError "connect ECONNREFUSED");
            Console LWarn "Warning: Failed to connect to OpenSearch cluster 'west'";
            Console LLog "Initialized 1 OpenSearch cluster(s)"]).
  - reflexivity.
  - vm_compute. reflexivity.
Defined.

(** X8.  The registry after a failed initialization.  When
    [initializeOpenSearch] throws on an empty registry, the error is an
    internal error whose message starts "Failed to initialize
    OpenSearch: ".  If the client of every configured cluster can be
    constructed, the registry is still empty, so the next request starts
    initialization over.  Otherwise the clusters registered before the
    failing constructor may remain, and then the next request finds the
    registry built and goes on with them. *)
Theorem registry_after_a_failed_initialization
  (W : World) (env : Env) (st st1 : Server) (e : Exn) (trace : list Event)
  (Hempty : opensearchClients st = [])
  (Hfail : initializeOpenSearch W env st = (Throw e, st1, trace)) :
  (exists reason,
     e = EMcp InternalError ("Failed to initialize OpenSearch: " ++ reason))
  /\ ((forall cfg,
         validateConfig W (fst (createConfigFromEnv W env)) = Ok cfg ->
         Forall (fun c => constructs W c = true) (clusters cfg)) ->
      opensearchClients st1 = [])
  /\ (opensearchClients st1 <> [] ->
      initializeOpenSearch W env st1 = (Ok tt, st1, [])).
Proof.
  split; [|split].
  - destruct (validate_cases W (fst (createConfigFromEnv W env)))
      as [[cfg Hcfg]|[e0 Hbad]].
    + destruct (for_each (clusters cfg) (connect W) (mkServer [] (Some cfg)))
        as [[r s1] t] eqn:Hloop.
      assert (Hinit := initialize_valid W env st cfg r s1 t Hempty Hcfg Hloop).
      rewrite Hfail in Hinit. simpl in Hinit.
      destruct r as [[]|e0].
      * destruct (length (opensearchClients s1) =? 0)%nat; [|discriminate].
        injection Hinit as -> _. eexists. reflexivity.
      * injection Hinit as -> _. eexists. reflexivity.
    + rewrite (initialize_invalid W env st e0 Hempty Hbad) in Hfail.
      injection Hfail as <- _ _. eexists. reflexivity.
  - intros Hbuilt.
    destruct (validate_cases W (fst (createConfigFromEnv W env)))
      as [[cfg Hcfg]|[e0 Hbad]].
    + destruct (connect_loop_returns W (clusters cfg) (Hbuilt cfg Hcfg)
                  (mkServer [] (Some cfg))) as (s1 & t & Hloop).
      assert (Hinit := initialize_valid W env st cfg (Ok tt) s1 t
                         Hempty Hcfg Hloop).
      rewrite Hfail in Hinit. simpl in Hinit.
      destruct (opensearchClients s1) as [|c cs] eqn:Hs1.
      * simpl in Hinit. injection Hinit as _ ->. exact Hs1.
      * simpl in Hinit. discriminate.
    + rewrite (initialize_invalid W env st e0 Hempty Hbad) in Hfail.
      injection Hfail as _ <- _. exact Hempty.
  - apply initialize_when_built.
Qed.

Lemma registry_after_a_failed_initialization_witness :
  (exists reason,
     EMcp InternalError
       "Failed to initialize OpenSearch: Failed to connect to any OpenSearch cluster"
     = EMcp InternalError ("Failed to initialize OpenSearch: " ++ reason))
  /\ opensearchClients (mkServer [] (Some Sample.config_east_west)) = [].
Proof.
  destruct (registry_after_a_failed_initialization
              (Sample.world ["east"; "west"]) Sample.env_east_west new_server
              (mkServer [] (Some Sample.config_east_west))
              (EMcp InternalError
                 "Failed to initialize OpenSearch: Failed to connect to any OpenSearch cluster")
              [Ping "east";
               ConsoleExn "OpenSearch ping failed:"
                 (EError "connect ECONNREFUSED");
               Console LWarn
                 "Warning: Failed to connect to OpenSearch cluster 'east'";
               Ping "west";
               ConsoleExn "OpenSearch ping failed:"
                 (EError "connect ECONNREFUSED");
               Console LWarn
                 "Warning: Failed to connect to OpenSearch cluster 'west'";
               ConsoleExn "Failed to initialize OpenSearch clients:"
                 (EError "Failed to connect to any OpenSearch cluster")])
    as [Hshape [Hregistry _]].
  - reflexivity.
  - vm_compute. reflexivity.
  - split; [exact Hshape|]. apply Hregistry.
    intros cfg Hcfg. vm_compute in Hcfg. injection Hcfg as <-.
    repeat constructor.
Defined.

(** A failure that is remembered: [east] is registered, the client of
    [files] cannot be constructed and initialization throws; the next call
    finds a registry and returns at once. *)
Example partial_registry_is_used :
  let W := Ftp.world in
  let st1 := mkServer [("east", Sample.east)] (Some Ftp.config) in
  snd (fst (initializeOpenSearch W Ftp.env new_server)) = st1
  /\ initializeOpenSearch W Ftp.env st1 = (Ok tt, st1, []).
Proof. vm_compute. split; reflexivity. Qed.

Lemma lookup_client_entry (W : World)
      (cs : list (string * OpenSearchClusterConfig)) (name : string)
      (c : OpenSearchClusterConfig) :
  NoDup (map fst cs) ->
  In (name, c) cs ->
  probe_ok W (name, c) = true ->
  lookup name (map client_entry (filter (probe_ok W) cs))
  = Some (mkClient name c).
Proof.
  induction cs as [|[k v] cs IH]; simpl; intros Hnd Hin Hok; [contradiction|].
  inversion Hnd as [|? ? Hnotin Hnd']; subst.
  destruct Hin as [Heq|Hin].
  - injection Heq as -> ->. rewrite Hok. simpl.
    rewrite String.eqb_refl. reflexivity.
  - assert (Hne : name <> k).
    { intros ->. apply Hnotin. apply (in_map fst) in Hin. exact Hin. }
    destruct (probe_ok W (k, v)); simpl.
    + apply String.eqb_neq in Hne. rewrite Hne. now apply IH.
    + now apply IH.
Qed.

(** The registry an empty server gets from a valid configuration with
    distinct names, when every client can be constructed. *)
Lemma initialize_registry (W : World) (env : Env) (st : Server)
      (cfg : OpenSearchConfig) :
  opensearchClients st = [] ->
  validateConfig W (fst (createConfigFromEnv W env)) = Ok cfg ->
  NoDup (map fst (clusters cfg)) ->
  Forall (fun e => constructs W e = true) (clusters cfg) ->
  fst (initializeOpenSearch W env st)
  = (match filter (probe_ok W) (clusters cfg) with
     | [] => Throw (EMcp InternalError
                      ("Failed to initialize OpenSearch: "
                       ++ no_cluster_message))
     | _ :: _ => Ok tt
     end,
     mkServer (map client_entry (filter (probe_ok W) (clusters cfg)))
       (Some cfg)).
Proof.
  intros Hempty Hcfg Hnd Hbuilt.
  destruct (connect_all W (clusters cfg) (mkServer [] (Some cfg)) Hbuilt Hnd)
    as [t Hall].
  { intros k _ []. }
  rewrite (initialize_valid W env st cfg _ _ _ Hempty Hcfg Hall).
  simpl. rewrite length_map.
  destruct (filter (probe_ok W) (clusters cfg)); reflexivity.
Qed.

(** X9.  What is registered can be resolved.  After initialization from a
    valid configuration with distinct names whose clients can all be
    constructed, every configured cluster with a non-empty name whose
    probe succeeded resolves, by that name, to the client built from its
    own configuration entry. *)
Theorem live_cluster_resolves_to_its_client
  (W : World) (env : Env) (st : Server) (cfg : OpenSearchConfig)
  (name : string) (c : OpenSearchClusterConfig)
  (Hempty : opensearchClients st = [])
  (Hcfg : validateConfig W (fst (createConfigFromEnv W env)) = Ok cfg)
  (Hnames : NoDup (map fst (clusters cfg)))
  (Hbuilt : Forall (fun e => constructs W e = true) (clusters cfg))
  (Hin : In (name, c) (clusters cfg))
  (Hlive : probe_ok W (name, c) = true)
  (Hname : name <> EmptyString) :
  let st1 := snd (fst (initializeOpenSearch W env st)) in
  getClient (JStr name) st1 = (Ok (mkClient name c), st1, []).
Proof.
  intros st1. unfold st1.
  rewrite (initialize_registry W env st cfg Hempty Hcfg Hnames Hbuilt).
  simpl snd.
  unfold getClient, bind, clients, js_or. simpl.
  apply is_empty_false in Hname. rewrite Hname. simpl. rewrite Hname. simpl.
  rewrite (lookup_client_entry W (clusters cfg) name c Hnames Hin Hlive).
  reflexivity.
Qed.

Lemma live_cluster_resolves_to_its_client_witness :
  let st1 := snd (fst (initializeOpenSearch (Sample.world ["east"])
                         Sample.env_east_west new_server)) in
  getClient (JStr "west") st1
  = (Ok (mkClient "west" (client_config Sample.west)), st1, []).
Proof.
  apply (live_cluster_resolves_to_its_client (Sample.world ["east"])
           Sample.env_east_west new_server Sample.config_east_west
           "west" (client_config Sample.west)).
  - reflexivity.
  - vm_compute. reflexivity.
  - simpl. repeat constructor; simpl; intuition discriminate.
  - repeat constructor.
  - simpl. right. left. reflexivity.
  - reflexivity.
  - discriminate.
Defined.

(** X10.  Listing after building.  On an empty server with a valid
    configuration of distinct names whose clients can all be constructed
    and of which at least one cluster answers the probe, the tool
    [opensearch_list_clusters], whatever its arguments, returns the names
    of the clusters that answered, in configuration order, and their
    number. *)
Theorem list_clusters_returns_live_names_in_order
  (W : World) (env : Env) (st : Server) (cfg : OpenSearchConfig)
  (args : option Props)
  (Hempty : opensearchClients st = [])
  (Hcfg : validateConfig W (fst (createConfigFromEnv W env)) = Ok cfg)
  (Hnames : NoDup (map fst (clusters cfg)))
  (Hbuilt : Forall (fun e => constructs W e = true) (clusters cfg))
  (Hsome : filter (probe_ok W) (clusters cfg) <> []) :
  let live := map fst (filter (probe_ok W) (clusters cfg)) in
  fst (fst (callTool W env "opensearch_list_clusters" args st))
  = Ok (TextContent (JObj [("clusters", JArr (map JStr live));
                           ("count", JNum (Z.of_nat (length live)))])).
Proof.
  intros live.
  assert (Hinit := initialize_registry W env st cfg Hempty Hcfg Hnames
                     Hbuilt).
  unfold callTool. unfold bind at 1.
  destruct (initializeOpenSearch W env st) as [[r s1] t1].
  simpl in Hinit.
  destruct (filter (probe_ok W) (clusters cfg)) as [|e alive] eqn:Halive;
    [congruence|].
  injection Hinit as -> ->.
  unfold live. rewrite map_map. simpl.
  unfold map_keys. rewrite !map_map. simpl. rewrite !length_map.
  reflexivity.
Qed.

Lemma list_clusters_returns_live_names_in_order_witness :
  let W := Sample.world ["east"] in
  let live := map fst (filter (probe_ok W) (clusters Sample.config_east_west)) in
  fst (fst (callTool W Sample.env_east_west "opensearch_list_clusters" None
              new_server))
  = Ok (TextContent (JObj [("clusters", JArr (map JStr live));
                           ("count", JNum (Z.of_nat (length live)))])).
Proof.
  apply (list_clusters_returns_live_names_in_order (Sample.world ["east"])
           Sample.env_east_west new_server Sample.config_east_west None).
  - reflexivity.
  - vm_compute. reflexivity.
  - simpl. repeat constructor; simpl; intuition discriminate.
  - repeat constructor.
  - vm_compute. discriminate.
Defined.

(* ================================================================= *)
(** ** More of dispatch *)

Lemma cluster_tools_lookup (name : string) (h : ToolHandler) :
  In (name, h) cluster_tools -> lookup name cases = Some (ClusterTool h).
Proof.
  unfold cluster_tools. simpl. intros H.
  repeat (destruct H as [H|H]; [injection H as <- <-; reflexivity|]).
  contradiction.
Qed.

(** [getClient] only reads. *)
Lemma getClient_reads (v : JValue) (st : Server) :
  exists r, getClient v st = (r, st, []).
Proof.
  unfold getClient, bind, clients. simpl.
  destruct (truthy (js_or v (first_key (opensearchClients st)))); simpl.
  - destruct (map_get_js _ _); eexists; reflexivity.
  - eexists; reflexivity.
Qed.

(** X11.  A request without arguments.  On a built registry, every tool except
    the cluster list, called without an [arguments] object, fails with the
    internal error that wraps the TypeError of reading [cluster] off
    [undefined]; no cluster is resolved and no backend is called. *)
Theorem missing_arguments_object_is_an_internal_error
  (W : World) (env : Env) (st : Server) (name : string) (h : ToolHandler)
  (Hbuilt : opensearchClients st <> [])
  (Htool : In (name, h) cluster_tools) :
  callTool W env name None st
  = (Throw (EMcp InternalError
              ("Tool " ++ name ++ " failed: " ++ undefined_args_message)),
     st, []).
Proof.
  rewrite (callTool_when_built W env st name None Hbuilt).
  unfold try_catch, dispatch.
  rewrite (cluster_tools_lookup name h Htool). reflexivity.
Qed.

Lemma missing_arguments_object_is_an_internal_error_witness :
  callTool (Sample.world []) Sample.env_east_west "opensearch_cluster_stats"
    None Sample.server_east
  = (Throw (EMcp InternalError
              ("Tool " ++ "opensearch_cluster_stats" ++ " failed: "
               ++ undefined_args_message)),
     Sample.server_east, []).
Proof.
  apply (missing_arguments_object_is_an_internal_error (Sample.world [])
           Sample.env_east_west Sample.server_east
           "opensearch_cluster_stats" handleClusterStats).
  - discriminate.
  - unfold cluster_tools. simpl. tauto.
Defined.

(** X12.  An unregistered cluster selector.  On a built registry, every tool
    except the cluster list, called with a [cluster] argument that is a
    non-empty name outside the registry, fails with the resolver's
    InvalidRequest error, passed on unchanged (not wrapped as a tool
    failure); the backend is not called. *)
Theorem unregistered_selector_fails_the_tool_call
  (W : World) (env : Env) (st : Server) (name : string) (h : ToolHandler)
  (a : Props) (target : string)
  (Hbuilt : opensearchClients st <> [])
  (Htool : In (name, h) cluster_tools)
  (Hselector : get a "cluster" = JStr target)
  (Htarget : target <> EmptyString)
  (Habsent : ~ In target (map_keys (opensearchClients st))) :
  callTool W env name (Some a) st
  = (Throw (EMcp InvalidRequest
              (not_found_message (JStr target) (opensearchClients st))),
     st, []).
Proof.
  rewrite (callTool_when_built W env st name (Some a) Hbuilt).
  unfold try_catch, dispatch.
  rewrite (cluster_tools_lookup name h Htool).
  unfold run_handler. unfold bind at 1. rewrite Hselector.
  unfold getClient, bind, clients, js_or. simpl.
  apply is_empty_false in Htarget. rewrite Htarget. simpl. rewrite Htarget.
  simpl. rewrite (lookup_fresh target (opensearchClients st) Habsent).
  reflexivity.
Qed.

Lemma unregistered_selector_fails_the_tool_call_witness :
  callTool (Sample.world []) Sample.env_east_west "opensearch_count"
    (Some [("cluster", JStr "west"); ("index", JStr "logs")])
    Sample.server_east
  = (Throw (EMcp InvalidRequest
              (not_found_message (JStr "west")
                 (opensearchClients Sample.server_east))),
     Sample.server_east, []).
Proof.
  apply (unregistered_selector_fails_the_tool_call (Sample.world [])
           Sample.env_east_west Sample.server_east "opensearch_count"
           handleCount [("cluster", JStr "west"); ("index", JStr "logs")]
           "west").
  - discriminate.
  - unfold cluster_tools. simpl. tauto.
  - reflexivity.
  - discriminate.
  - simpl. intros [H|[]]. discriminate H.
Defined.

(** X13.  A backend failure.  On a built registry, when the method a tool calls
    throws, the tool call fails with an internal error whose message is
    "Tool <name> failed: " followed by the backend's message, unchanged;
    exactly one backend call was made and the server is unchanged. *)
Theorem backend_failure_is_reported_verbatim
  (W : World) (env : Env) (st : Server) (name : string) (h : ToolHandler)
  (a : Props) (client : OpenSearchClient) (message : string)
  (Hbuilt : opensearchClients st <> [])
  (Htool : In (name, h) cluster_tools)
  (Hmethod : has_method (method h) = true)
  (Hclient : getClient (get a "cluster") st = (Ok client, st, []))
  (Hfails : backend W (client_cluster client) (method h) (params h a)
            = inr message) :
  callTool W env name (Some a) st
  = (Throw (EMcp InternalError ("Tool " ++ name ++ " failed: " ++ message)),
     st,
     [Call (client_cluster client) (method h) (params h a)]).
Proof.
  rewrite (callTool_calls_the_backend W env st name h a client Hbuilt
             (cluster_tools_lookup name h Htool) Hmethod Hclient).
  rewrite Hfails. reflexivity.
Qed.

Lemma backend_failure_is_reported_verbatim_witness :
  let W := mkWorld Sample.parse Sample.parse_int Sample.url Sample.issues
             (fun _ _ => Status 200)
             (fun _ _ _ => inr "index_not_found_exception")
             Sample.no_file Sample.accept Sample.no_require in
  callTool W Sample.env_east_west "opensearch_delete_index"
    (Some [("index", JStr "logs")]) Sample.server_east
  = (Throw (EMcp InternalError
              ("Tool " ++ "opensearch_delete_index" ++ " failed: "
               ++ "index_not_found_exception")),
     Sample.server_east,
     [Call (client_cluster Sample.east) (method handleDeleteIndex)
        (params handleDeleteIndex [("index", JStr "logs")])]).
Proof.
  intros W.
  apply (backend_failure_is_reported_verbatim W Sample.env_east_west
           Sample.server_east "opensearch_delete_index" handleDeleteIndex
           [("index", JStr "logs")] Sample.east "index_not_found_exception").
  - discriminate.
  - unfold cluster_tools. simpl. tauto.
  - reflexivity.
  - reflexivity.
  - reflexivity.
Defined.

Lemma run_handler_reads (W : World) (h : ToolHandler) (args : option Props)
      (st : Server) :
  exists r trace,
    run_handler W h args st = (r, st, trace)
    /\ pings trace = []
    /\ (length (calls trace) <= 1)%nat.
Proof.
  unfold run_handler. destruct args as [a|].
  - unfold bind at 1.
    destruct (getClient_reads (get a "cluster") st) as [r Hr]. rewrite Hr.
    destruct r as [client|e].
    + unfold invoke. destruct (has_method (method h)).
      * unfold bind, emit, lift, ret, throw.
        destruct (backend W (client_cluster client) (method h) (params h a))
          as [body|msg].
        -- destruct (respond h a body) as [json|e];
             do 2 eexists; (split; [reflexivity|]); simpl; split;
             [reflexivity | lia | reflexivity | lia].
        -- do 2 eexists. split; [reflexivity|]. simpl. split;
             [reflexivity | lia].
      * do 2 eexists. split; [reflexivity|]. simpl. split; [reflexivity | lia].
    + do 2 eexists. split; [reflexivity|]. simpl. split; [reflexivity | lia].
  - do 2 eexists. split; [reflexivity|]. simpl. split; [reflexivity | lia].
Qed.

(** X14.  Once the registry is built, a tool call only reads it.  Whatever the
    tool name and the arguments, the server is left unchanged, no cluster
    is probed, and at most one backend call is made. *)
Theorem tool_call_on_built_registry_only_reads
  (W : World) (env : Env) (st : Server) (name : string) (args : option Props)
  (Hbuilt : opensearchClients st <> []) :
  snd (fst (callTool W env name args st)) = st
  /\ pings (snd (callTool W env name args st)) = []
  /\ (length (calls (snd (callTool W env name args st))) <= 1)%nat.
Proof.
  rewrite (callTool_when_built W env st name args Hbuilt).
  unfold try_catch, dispatch.
  destruct (lookup name cases) as [[|h]|].
  - unfold handleListClusters, getAvailableClusters, bind, clients, ret.
    simpl. repeat split. lia.
  - destruct (run_handler_reads W h args st) as (r & t & Hrun & Hp & Hc).
    rewrite Hrun. destruct r as [res|e].
    + simpl. repeat split; assumption.
    + assert (Hrw : exists e', rewrap name e st = (Throw e', st, [])).
      { destruct e; eexists; reflexivity. }
      destruct Hrw as [e' ->]. simpl. rewrite app_nil_r.
      repeat split; assumption.
  - simpl. repeat split. lia.
Qed.

Lemma tool_call_on_built_registry_only_reads_witness :
  let W := Sample.world [] in
  let r := callTool W Sample.env_east_west "opensearch_search"
             (Some [("index", JStr "logs")]) Sample.server_east_west in
  snd (fst r) = Sample.server_east_west
  /\ pings (snd r) = []
  /\ (length (calls (snd r)) <= 1)%nat.
Proof.
  apply (tool_call_on_built_registry_only_reads (Sample.world [])
           Sample.env_east_west Sample.server_east_west "opensearch_search"
           (Some [("index", JStr "logs")])).
  discriminate.
Defined.

Lemma lookup_set_prop_same (k : string) (v : JValue) (ps : Props) :
  lookup k (set_prop k v ps) = Some v.
Proof.
  induction ps as [|[k' v'] ps IH]; simpl.
  - rewrite String.eqb_refl. reflexivity.
  - destruct (String.eqb_spec k k') as [->|Hne]; simpl.
    + rewrite String.eqb_refl. reflexivity.
    + apply String.eqb_neq in Hne. rewrite Hne. exact IH.
Qed.

Lemma lookup_set_prop_other (k k' : string) (v : JValue) (ps : Props) :
  k <> k' -> lookup k' (set_prop k v ps) = lookup k' ps.
Proof.
  intros Hne. induction ps as [|[k0 v0] ps IH]; simpl.
  - apply not_eq_sym in Hne. apply String.eqb_neq in Hne. rewrite Hne.
    reflexivity.
  - destruct (String.eqb_spec k k0) as [->|Hk]; simpl.
    + apply not_eq_sym in Hne. apply String.eqb_neq in Hne. rewrite Hne.
      reflexivity.
    + destruct (String.eqb k' k0); [reflexivity | exact IH].
Qed.

Lemma get_set_prop_same (k : string) (v : JValue) (ps : Props) :
  get (set_prop k v ps) k = v.
Proof. unfold get. rewrite lookup_set_prop_same. reflexivity. Qed.

Lemma get_set_prop_other (k k' : string) (v : JValue) (ps : Props) :
  k <> k' -> get (set_prop k v ps) k' = get ps k'.
Proof. intros H. unfold get. rewrite (lookup_set_prop_other k k' v ps H). reflexivity. Qed.

(** The property [k], set at the start, survives every later step of
    [searchParams] that writes another property. *)
Lemma searchParams_keeps (a : Props) (k : string) :
  k <> "body" -> k <> "q" -> k <> "sort" -> k <> "_source" ->
  lookup k (searchParams a)
  = lookup k [("index", get a "index");
              ("size", js_or (get a "size") (JNum 10));
              ("from", js_or (get a "from") (JNum 0))].
Proof.
  intros Hb Hq Hs Hsrc. unfold searchParams.
  set (p0 := [("index", get a "index");
              ("size", js_or (get a "size") (JNum 10));
              ("from", js_or (get a "from") (JNum 0))]).
  set (p1 := if truthy (get a "query")
             then set_prop "body" (JObj [("query", get a "query")]) p0
             else if truthy (get a "q") then set_prop "q" (get a "q") p0
                  else p0).
  set (p2 := if truthy (get a "sort")
             then set_prop "sort" (get a "sort") p1 else p1).
  set (p3 := match get a "_source" with
             | JUndefined => p2
             | src => set_prop "_source" src p2
             end).
  assert (H1 : lookup k p1 = lookup k p0).
  { unfold p1. destruct (truthy (get a "query")).
    - apply lookup_set_prop_other. congruence.
    - destruct (truthy (get a "q")); [|reflexivity].
      apply lookup_set_prop_other. congruence. }
  assert (H2 : lookup k p2 = lookup k p0).
  { unfold p2. destruct (truthy (get a "sort")); [|exact H1].
    rewrite lookup_set_prop_other by congruence. exact H1. }
  assert (H3 : lookup k p3 = lookup k p0).
  { unfold p3. destruct (get a "_source"); try exact H2;
      (rewrite lookup_set_prop_other by congruence; exact H2). }
  destruct (truthy (get a "highlight")); [|exact H3].
  rewrite lookup_set_prop_other by congruence. exact H3.
Qed.

(** X15.  The search tool's defaults.  The size handed to the client is the
    requested size when that is truthy and 10 otherwise, so a requested
    size of 0 becomes 10; likewise an offset that is not truthy becomes 0;
    and the object always carries an [index] property, [undefined] when
    the request names no index. *)
Theorem search_tool_replaces_a_falsy_size (a : Props) :
  get (searchParams a) "size"
  = (if truthy (get a "size") then get a "size" else JNum 10)
  /\ truthy (get (searchParams a) "size") = true
  /\ get (searchParams a) "from"
     = (if truthy (get a "from") then get a "from" else JNum 0)
  /\ lookup "index" (searchParams a) = Some (get a "index").
Proof.
  assert (Hsize : get (searchParams a) "size"
                  = js_or (get a "size") (JNum 10)).
  { unfold get at 1. rewrite searchParams_keeps by discriminate. reflexivity. }
  assert (Hfrom : get (searchParams a) "from"
                  = js_or (get a "from") (JNum 0)).
  { unfold get at 1. rewrite searchParams_keeps by discriminate. reflexivity. }
  rewrite Hsize, Hfrom. unfold js_or. repeat split.
  - destruct (truthy (get a "size")) eqn:Ht; [exact Ht | reflexivity].
  - rewrite searchParams_keeps by discriminate. reflexivity.
Qed.

Example size_zero_becomes_ten :
  get (searchParams [("index", JStr "logs"); ("size", JNum 0)]) "size"
  = JNum 10.
Proof. reflexivity. Qed.

(* ================================================================= *)
(** ** What the client hands to the library *)

Lemma get_copied (src : Props) (keys : list string) :
  forall (target : Props) (k : string),
    get (fold_left (fun acc k0 => set_prop k0 (get src k0) acc) keys target) k
    = if existsb (String.eqb k) keys then get src k else get target k.
Proof.
  induction keys as [|k1 ks IH]; intros target k; simpl; [reflexivity|].
  rewrite IH. destruct (existsb (String.eqb k) ks).
  - rewrite orb_true_r. reflexivity.
  - rewrite orb_false_r. destruct (String.eqb_spec k k1) as [->|Hne].
    + apply get_set_prop_same.
    + apply get_set_prop_other. congruence.
Qed.

Lemma own_key (k : string) (ps : Props) (v : JValue) :
  lookup k ps = Some v -> existsb (String.eqb k) (map fst ps) = true.
Proof.
  induction ps as [|[k' v'] ps IH]; simpl; [discriminate|].
  destruct (String.eqb k k'); [reflexivity | exact IH].
Qed.

Lemma no_own_key (k : string) (ps : Props) :
  lookup k ps = None -> existsb (String.eqb k) (map fst ps) = false.
Proof.
  induction ps as [|[k' v'] ps IH]; simpl; [reflexivity|].
  destruct (String.eqb k k'); [discriminate | exact IH].
Qed.

(** A spread copies an own property over the target's. *)
Lemma get_spread_own (src target : Props) (k : string) (v : JValue) :
  lookup k src = Some v -> get (Client.spread src target) k = v.
Proof.
  intros H. unfold Client.spread. rewrite get_copied, (own_key k src v H).
  unfold get. rewrite H. reflexivity.
Qed.

Lemma get_spread_absent (src target : Props) (k : string) :
  lookup k src = None -> get (Client.spread src target) k = get target k.
Proof.
  intros H. unfold Client.spread. rewrite get_copied, (no_own_key k src H).
  reflexivity.
Qed.

Lemma prefix_elements (c : OpenSearchClient) (p : string) (names : list string) :
  indexPrefix (client_config c) = Some p ->
  is_empty p = false ->
  Client.map_outcome (Client.prefix_element p) (map JStr names)
  = Ok (map (fun n => JStr (applyIndexPrefix c n)) names).
Proof.
  intros Hp Hne.
  assert (Ha : forall n, applyIndexPrefix c n
                         = if String.prefix p n then n else (p ++ n)%string).
  { intros n. unfold applyIndexPrefix. rewrite Hp, Hne.
    destruct (String.prefix p n); reflexivity. }
  induction names as [|n names IH]; simpl; [reflexivity|].
  rewrite IH. simpl. rewrite Ha. reflexivity.
Qed.

Lemma applyIndexPrefix_without_prefix (c : OpenSearchClient) (s : string) :
  given (indexPrefix (client_config c)) = None -> applyIndexPrefix c s = s.
Proof.
  unfold applyIndexPrefix, given.
  destruct (indexPrefix (client_config c)) as [p|]; [|reflexivity].
  destruct (is_empty p); [reflexivity | discriminate].
Qed.

(** X16.  [search] and [applyIndexPrefix] agree on a name.  When the parameter
    object of [search] carries a non-empty index name, the index passed
    to the library is what [applyIndexPrefix] makes of that name: the
    second implementation of the prefix rule, in [search], is the same
    rule. *)
Theorem search_prefixes_a_name_like_applyIndexPrefix
  (c : OpenSearchClient) (params : Props) (s : string)
  (Hown : lookup "index" params = Some (JStr s))
  (Hs : s <> EmptyString) :
  exists r,
    Client.searchParams c params = Ok r
    /\ get r "index" = JStr (applyIndexPrefix c s).
Proof.
  apply is_empty_false in Hs.
  unfold Client.searchParams.
  match goal with
  | |- context [Client.spread params ?b] => set (sp := Client.spread params b)
  end.
  assert (Hsp : get sp "index" = JStr s)
    by (apply get_spread_own; exact Hown).
  unfold applyIndexPrefix.
  destruct (indexPrefix (client_config c)) as [p|].
  - rewrite Hsp. simpl. rewrite Hs. simpl.
    destruct (is_empty p); simpl.
    + eexists. split; [reflexivity | exact Hsp].
    + eexists. split; [reflexivity|]. rewrite get_set_prop_same.
      destruct (String.prefix p s); reflexivity.
  - eexists. split; [reflexivity | exact Hsp].
Qed.

Lemma search_prefixes_a_name_like_applyIndexPrefix_witness :
  exists r,
    Client.searchParams
      (mkClient "east"
         (mkCluster "http://east:9200" None None None 30000 3000 3 false None
            (Some "prod-")))
      [("index", JStr "logs"); ("q", JStr "error")] = Ok r
    /\ get r "index"
       = JStr (applyIndexPrefix
                 (mkClient "east"
                    (mkCluster "http://east:9200" None None None 30000 3000 3
                       false None (Some "prod-"))) "logs").
Proof.
  apply (search_prefixes_a_name_like_applyIndexPrefix
           (mkClient "east"
              (mkCluster "http://east:9200" None None None 30000 3000 3 false
                 None (Some "prod-")))
           [("index", JStr "logs"); ("q", JStr "error")] "logs").
  - reflexivity.
  - discriminate.
Defined.

(** X17.  [search] prefixes every name of a list.  When the parameter object of
    [search] carries an array of index names, the library gets the array
    of what [applyIndexPrefix] makes of each name, in the same order. *)
Theorem search_prefixes_every_name_of_a_list
  (c : OpenSearchClient) (params : Props) (names : list string)
  (Hown : lookup "index" params = Some (JArr (map JStr names))) :
  exists r,
    Client.searchParams c params = Ok r
    /\ get r "index" = JArr (map (fun n => JStr (applyIndexPrefix c n)) names).
Proof.
  unfold Client.searchParams.
  match goal with
  | |- context [Client.spread params ?b] => set (sp := Client.spread params b)
  end.
  assert (Hsp : get sp "index" = JArr (map JStr names))
    by (apply get_spread_own; exact Hown).
  assert (Hid : given (indexPrefix (client_config c)) = None ->
                JArr (map JStr names)
                = JArr (map (fun n => JStr (applyIndexPrefix c n)) names)).
  { intros Hnone. f_equal. apply map_ext. intros n.
    now rewrite applyIndexPrefix_without_prefix. }
  destruct (indexPrefix (client_config c)) as [p|] eqn:Hp.
  - rewrite Hsp. simpl. destruct (is_empty p) eqn:Hne; simpl.
    + eexists. split; [reflexivity|]. rewrite Hsp. apply Hid.
      simpl. rewrite Hne. reflexivity.
    + rewrite (prefix_elements c p names Hp Hne). simpl.
      eexists. split; [reflexivity|]. apply get_set_prop_same.
  - eexists. split; [reflexivity|]. rewrite Hsp. apply Hid. reflexivity.
Qed.

Lemma search_prefixes_every_name_of_a_list_witness :
  exists r,
    Client.searchParams
      (mkClient "east"
         (mkCluster "http://east:9200" None None None 30000 3000 3 false None
            (Some "prod-")))
      [("index", JArr (map JStr ["logs"; "prod-metrics"]))] = Ok r
    /\ get r "index"
       = JArr (map (fun n =>
                      JStr (applyIndexPrefix
                              (mkClient "east"
                                 (mkCluster "http://east:9200" None None None
                                    30000 3000 3 false None (Some "prod-")))
                              n))
                 ["logs"; "prod-metrics"]).
Proof.
  apply (search_prefixes_every_name_of_a_list
           (mkClient "east"
              (mkCluster "http://east:9200" None None None 30000 3000 3 false
                 None (Some "prod-")))
           [("index", JArr (map JStr ["logs"; "prod-metrics"]))]
           ["logs"; "prod-metrics"]).
  reflexivity.
Defined.

(** An own [index] property that is not truthy reaches the library as it
    is, whatever default index is configured. *)
Lemma search_keeps_a_falsy_index (c : OpenSearchClient) (params : Props)
      (v : JValue) :
  lookup "index" params = Some v ->
  truthy v = false ->
  exists r, Client.searchParams c params = Ok r /\ get r "index" = v.
Proof.
  intros Hown Hv. unfold Client.searchParams.
  match goal with
  | |- context [Client.spread params ?b] => set (sp := Client.spread params b)
  end.
  assert (Hsp : get sp "index" = v) by (apply get_spread_own; exact Hown).
  destruct (indexPrefix (client_config c)) as [p|].
  - rewrite Hsp, Hv, andb_false_r. eexists. split; [reflexivity | exact Hsp].
  - eexists. split; [reflexivity | exact Hsp].
Qed.

(** X18.  The default index applies only to a parameter object without an
    [index] property.  For such an object and a configured, non-empty
    default index, the library gets the default, prefixed as
    [applyIndexPrefix] does. *)
Theorem search_falls_back_to_the_default_index
  (c : OpenSearchClient) (params : Props) (d : string)
  (Habsent : lookup "index" params = None)
  (Hdefault : defaultIndex (client_config c) = Some d)
  (Hd : d <> EmptyString) :
  exists r,
    Client.searchParams c params = Ok r
    /\ get r "index" = JStr (applyIndexPrefix c d).
Proof.
  apply is_empty_false in Hd.
  unfold Client.searchParams.
  match goal with
  | |- context [Client.spread params ?b] => set (sp := Client.spread params b)
  end.
  assert (Hsp : get sp "index" = JStr d).
  { unfold sp. rewrite (get_spread_absent params _ "index" Habsent).
    unfold get at 1. simpl. unfold get. rewrite Habsent, Hdefault.
    reflexivity. }
  unfold applyIndexPrefix.
  destruct (indexPrefix (client_config c)) as [p|].
  - rewrite Hsp. simpl. rewrite Hd. simpl.
    destruct (is_empty p); simpl.
    + eexists. split; [reflexivity | exact Hsp].
    + eexists. split; [reflexivity|]. rewrite get_set_prop_same.
      destruct (String.prefix p d); reflexivity.
  - eexists. split; [reflexivity | exact Hsp].
Qed.

Lemma search_falls_back_to_the_default_index_witness :
  exists r,
    Client.searchParams
      (mkClient "east"
         (mkCluster "http://east:9200" None None None 30000 3000 3 false
            (Some "logs-*") (Some "prod-")))
      [("q", JStr "error")] = Ok r
    /\ get r "index"
       = JStr (applyIndexPrefix
                 (mkClient "east"
                    (mkCluster "http://east:9200" None None None 30000 3000 3
                       false (Some "logs-*") (Some "prod-"))) "logs-*").
Proof.
  apply (search_falls_back_to_the_default_index
           (mkClient "east"
              (mkCluster "http://east:9200" None None None 30000 3000 3 false
                 (Some "logs-*") (Some "prod-")))
           [("q", JStr "error")] "logs-*").
  - reflexivity.
  - reflexivity.
  - discriminate.
Defined.

Lemma request_search (c : OpenSearchClient) (ps : Props) :
  Client.request c "search" [JObj ps]
  = Some (Client.bind_outcome (Client.searchParams c ps)
            (fun r => Ok ("search", JObj r))).
Proof.
  unfold Client.request. simpl.
  destruct (Client.searchParams c ps); reflexivity.
Qed.

Lemma request_aggregate (c : OpenSearchClient) (i g q : JValue) :
  Client.request c "aggregate" [i; g; q]
  = Some (Client.bind_outcome (Client.aggregateParams c i g q)
            (fun r => Ok ("search", JObj r))).
Proof. reflexivity. Qed.

(** X19.  The search and aggregate tools never use the default index.  Both
    handlers pass an [index] property even when the request names no
    index; so for a request without [index] the library gets an undefined
    index, whatever default index the cluster is configured with. *)
Theorem tools_never_use_the_default_index
  (c : OpenSearchClient) (a : Props)
  (Hnone : get a "index" = JUndefined) :
  (exists r,
     Client.request c (method handleSearch) (params handleSearch a)
     = Some (Ok ("search", JObj r))
     /\ get r "index" = JUndefined)
  /\ (exists r,
        Client.request c (method handleAggregate) (params handleAggregate a)
        = Some (Ok ("search", JObj r))
        /\ get r "index" = JUndefined).
Proof.
  split.
  - simpl method. simpl params. rewrite request_search.
    destruct (search_keeps_a_falsy_index c (searchParams a) JUndefined)
      as (r & Hr & Hi).
    + rewrite searchParams_keeps by discriminate. simpl. now rewrite Hnone.
    + reflexivity.
    + rewrite Hr. exists r. split; [reflexivity | exact Hi].
  - simpl method. simpl params. rewrite request_aggregate, Hnone.
    unfold Client.aggregateParams.
    match goal with
    | |- context [Client.searchParams c ?ps] =>
        destruct (search_keeps_a_falsy_index c ps JUndefined)
          as (r & Hr & Hi); [reflexivity | reflexivity |]
    end.
    rewrite Hr. exists r. split; [reflexivity | exact Hi].
Qed.

Lemma tools_never_use_the_default_index_witness :
  let c := mkClient "east"
             (mkCluster "http://east:9200" None None None 30000 3000 3 false
                (Some "logs-*") None) in
  let a := [("q", JStr "error")] in
  (exists r,
     Client.request c (method handleSearch) (params handleSearch a)
     = Some (Ok ("search", JObj r))
     /\ get r "index" = JUndefined)
  /\ (exists r,
        Client.request c (method handleAggregate) (params handleAggregate a)
        = Some (Ok ("search", JObj r))
        /\ get r "index" = JUndefined).
Proof.
  intros c a. apply (tools_never_use_the_default_index c a). reflexivity.
Defined.

Lemma request_of_prefixing_tools (c : OpenSearchClient) (a : Props) :
  Client.request c (method handleIndexDocument) (params handleIndexDocument a)
  = Some (Client.bind_outcome
            (Client.indexParams c
               [("index", get a "index"); ("id", get a "id");
                ("body", get a "document"); ("refresh", get a "refresh")])
            (fun r => Ok ("index", JObj r)))
  /\ Client.request c (method handleGetDocument) (params handleGetDocument a)
     = Some (Client.bind_outcome
               (Client.getParams c
                  [("index", get a "index"); ("id", get a "id");
                   ("_source", get a "_source")])
               (fun r => Ok ("get", JObj r)))
  /\ Client.request c (method handleUpdateDocument)
       (params handleUpdateDocument a)
     = Some (Client.bind_outcome
               (Client.updateParams c
                  [("index", get a "index"); ("id", get a "id");
                   ("body", JObj (updateBody a));
                   ("refresh", get a "refresh")])
               (fun r => Ok ("update", JObj r)))
  /\ Client.request c (method handleDeleteDocument)
       (params handleDeleteDocument a)
     = Some (Client.bind_outcome
               (Client.deleteParams c
                  [("index", get a "index"); ("id", get a "id");
                   ("refresh", get a "refresh")])
               (fun r => Ok ("delete", JObj r)))
  /\ Client.request c (method handleCreateIndex) (params handleCreateIndex a)
     = Some (Client.bind_outcome
               (Client.createIndexParams c (get a "index") (get a "settings")
                  (get a "mappings"))
               (fun r => Ok ("indices.create", JObj r)))
  /\ Client.request c (method handleDeleteIndex) (params handleDeleteIndex a)
     = Some (Client.bind_outcome
               (Client.requiredIndexParams c (get a "index"))
               (fun r => Ok ("indices.delete", JObj r)))
  /\ Client.request c (method handlePutMapping) (params handlePutMapping a)
     = Some (Client.bind_outcome
               (Client.putMappingParams c (get a "index") (get a "mappings"))
               (fun r => Ok ("indices.putMapping", JObj r))).
Proof. repeat split. Qed.

Lemma applyIndexPrefix_js_undefined (c : OpenSearchClient) :
  Client.applyIndexPrefix_js c JUndefined
  = match given (indexPrefix (client_config c)) with
    | Some _ =>
        Throw (EError
                 "Cannot read properties of undefined (reading 'startsWith')")
    | None => Ok JUndefined
    end.
Proof.
  unfold Client.applyIndexPrefix_js, given.
  destruct (indexPrefix (client_config c)) as [p|]; [|reflexivity].
  destruct (is_empty p); reflexivity.
Qed.

(** X20.  A missing index meets the index prefix.  For the seven tools whose
    client method prefixes the index unconditionally (index, get, update
    and delete a document; create and delete an index; put a mapping), a
    request without [index]: on a cluster with a non-empty index prefix,
    throws a TypeError inside the client while the request is prepared, so
    nothing is handed to the library; on a cluster without prefix, is
    handed to the library with an undefined index. *)
Theorem missing_index_meets_the_prefix
  (c : OpenSearchClient) (a : Props) (h : ToolHandler)
  (Hnone : get a "index" = JUndefined)
  (Htool : In h prefixing_tools) :
  match given (indexPrefix (client_config c)) with
  | Some _ =>
      Client.request c (method h) (params h a)
      = Some (Throw (EError
                 "Cannot read properties of undefined (reading 'startsWith')"))
  | None =>
      exists f r,
        Client.request c (method h) (params h a) = Some (Ok (f, JObj r))
        /\ get r "index" = JUndefined
  end.
Proof.
  destruct (request_of_prefixing_tools c a)
    as (H1 & H2 & H3 & H4 & H5 & H6 & H7).
  assert (Hu := applyIndexPrefix_js_undefined c).
  assert (Hg : forall v rest, get (("index", v) :: rest) "index" = v)
    by reflexivity.
  unfold prefixing_tools in Htool. simpl in Htool.
  destruct Htool as [<-|[<-|[<-|[<-|[<-|[<-|[<-|[]]]]]]]].
  - rewrite H1. unfold Client.indexParams.
    rewrite Hg, Hnone, Hu.
    destruct (given _); [reflexivity|]. do 2 eexists. split; reflexivity.
  - rewrite H2. unfold Client.getParams.
    rewrite Hg, Hnone, Hu.
    destruct (given _); [reflexivity|]. do 2 eexists. split; reflexivity.
  - rewrite H3. unfold Client.updateParams.
    rewrite Hg, Hnone, Hu.
    destruct (given _); [reflexivity|]. do 2 eexists. split; reflexivity.
  - rewrite H4. unfold Client.deleteParams.
    rewrite Hg, Hnone, Hu.
    destruct (given _); [reflexivity|]. do 2 eexists. split; reflexivity.
  - rewrite H5. unfold Client.createIndexParams. rewrite Hnone, Hu.
    destruct (given _); [reflexivity|]. do 2 eexists. split; reflexivity.
  - rewrite H6. unfold Client.requiredIndexParams. rewrite Hnone, Hu.
    destruct (given _); [reflexivity|]. do 2 eexists. split; reflexivity.
  - rewrite H7. unfold Client.putMappingParams. rewrite Hnone, Hu.
    destruct (given _); [reflexivity|]. do 2 eexists. split; reflexivity.
Qed.

Lemma missing_index_meets_the_prefix_witness :
  Client.request
    (mkClient "east"
       (mkCluster "http://east:9200" None None None 30000 3000 3 false None
          (Some "prod-")))
    (method handleGetDocument) (params handleGetDocument [("id", JStr "7")])
  = Some (Throw (EError
             "Cannot read properties of undefined (reading 'startsWith')")).
Proof.
  apply (missing_index_meets_the_prefix
           (mkClient "east"
              (mkCluster "http://east:9200" None None None 30000 3000 3 false
                 None (Some "prod-")))
           [("id", JStr "7")] handleGetDocument).
  - reflexivity.
  - unfold prefixing_tools. simpl. tauto.
Defined.

Lemma request_catIndices (c : OpenSearchClient) (a : Props) :
  Client.request c (method handleListIndices) (params handleListIndices a)
  = Some (Ok ("cat.indices", JObj (Client.catIndicesParams (JObj a)))).
Proof. reflexivity. Qed.

Lemma request_clusterHealth (c : OpenSearchClient) (a : Props) :
  Client.request c (method handleClusterHealth) (params handleClusterHealth a)
  = Some (Ok ("cluster.health",
              JObj (Client.clusterHealthParams (get a "index") (JObj a)))).
Proof. reflexivity. Qed.

(** X21.  The cluster selector leaks into two requests.  The handlers of
    [opensearch_list_indices] and [opensearch_cluster_health] pass the
    whole argument object to the client, which spreads it into the
    request: a [cluster] argument, meant to select the registry entry, is
    also handed to the library as a request parameter. *)
Theorem cluster_selector_is_forwarded_to_the_library
  (c : OpenSearchClient) (a : Props) (selector : JValue)
  (Hselector : lookup "cluster" a = Some selector) :
  (exists r,
     Client.request c (method handleListIndices) (params handleListIndices a)
     = Some (Ok ("cat.indices", JObj r))
     /\ get r "cluster" = selector)
  /\ (exists r,
        Client.request c (method handleClusterHealth)
          (params handleClusterHealth a)
        = Some (Ok ("cluster.health", JObj r))
        /\ get r "cluster" = selector).
Proof.
  split.
  - rewrite request_catIndices. eexists. split; [reflexivity|].
    unfold Client.catIndicesParams. simpl Client.own_props.
    apply get_spread_own. exact Hselector.
  - rewrite request_clusterHealth. eexists. split; [reflexivity|].
    unfold Client.clusterHealthParams. simpl Client.own_props.
    apply get_spread_own. exact Hselector.
Qed.

Lemma cluster_selector_is_forwarded_to_the_library_witness :
  (exists r,
     Client.request Sample.east (method handleListIndices)
       (params handleListIndices [("cluster", JStr "east")])
     = Some (Ok ("cat.indices", JObj r))
     /\ get r "cluster" = JStr "east")
  /\ (exists r,
        Client.request Sample.east (method handleClusterHealth)
          (params handleClusterHealth [("cluster", JStr "east")])
        = Some (Ok ("cluster.health", JObj r))
        /\ get r "cluster" = JStr "east").
Proof.
  apply (cluster_selector_is_forwarded_to_the_library Sample.east
           [("cluster", JStr "east")] (JStr "east")).
  reflexivity.
Defined.

(* ================================================================= *)
(** ** Building the library client *)

(** Without an AWS region the credentials are assembled without error. *)
Lemma auth_without_region (W : World) (c : OpenSearchClusterConfig) :
  aws_region c = None ->
  exists a,
    match auth c with
    | Some a => clientAuth W a
    | None => Ok None
    end = Ok a.
Proof.
  unfold aws_region, clientAuth. intros Hregion.
  destruct (auth c) as [a|]; [|eexists; reflexivity].
  rewrite Hregion. eexists. reflexivity.
Qed.

(** X22.  Which credentials are used.  A configured AWS region makes the
    construction of the client throw, whatever user name, password or API
    key are configured as well: line 67 calls [require], which the module
    does not have.  Nothing is read or printed before, and in the registry
    loop the cluster is not probed.  Without a region, a user name
    without a password is not used: the API key is, when there is one, and
    otherwise the client gets no credentials. *)
Theorem credentials_precedence
  (W : World) (c : OpenSearchClusterConfig) (a : AuthConfig)
  (Hauth : auth c = Some a) :
  (forall region,
     given (awsRegion a) = Some region ->
     createClient W c = (Throw (EError (require_error W)), [])
     /\ forall name st,
          connect W (name, c) st = (Throw (EError (require_error W)), st, []))
  /\ (given (awsRegion a) = None ->
      given (password a) = None ->
      exists options printed,
        clientConfig W c = (Ok options, printed)
        /\ opt_auth options
           = match given (apiKey a) with
             | Some k => Some (ApiKeyAuth k)
             | None => None
             end).
Proof.
  split.
  - intros region Hr.
    assert (Hc : createClient W c = (Throw (EError (require_error W)), [])).
    { unfold createClient, clientConfig, clientAuth.
      rewrite Hauth, Hr. reflexivity. }
    split; [exact Hc|]. intros name st.
    rewrite (connect_throws W (name, c) st (EError (require_error W)));
      simpl; rewrite Hc; reflexivity.
  - intros Hr Hp. unfold clientConfig, clientAuth. rewrite Hauth, Hr, Hp.
    destruct (match ssl c with
              | Some s =>
                  if String.prefix "https" (node c)
                  then let '(agent, printed) := agentOptions W s in
                       (Some agent, printed)
                  else (None, [])
              | None => (None, [])
              end) as [s printed].
    do 2 eexists. split; [reflexivity|].
    simpl. destruct (given (username a)); reflexivity.
Qed.

Lemma credentials_precedence_witness :
  let W := Sample.world [] in
  let c := mkCluster "https://one:9200" None
             (Some (mkAuth (Some "admin") (Some "secret") None
                      (Some "eu-west-1") (Some "es")))
             None 30000 3000 3 false None None in
  let c' := mkCluster "https://one:9200" None
              (Some (mkAuth (Some "admin") None (Some "key-1") None
                       (Some "es")))
              None 30000 3000 3 false None None in
  createClient W c = (Throw (EError "require is not defined"), [])
  /\ exists options printed,
       clientConfig W c' = (Ok options, printed)
       /\ opt_auth options = Some (ApiKeyAuth "key-1").
Proof.
  intros W c c'. split.
  - apply (proj1 (credentials_precedence W c
                    (mkAuth (Some "admin") (Some "secret") None
                       (Some "eu-west-1") (Some "es")) eq_refl)
             "eu-west-1").
    reflexivity.
  - apply (proj2 (credentials_precedence W c'
                    (mkAuth (Some "admin") None (Some "key-1") None
                       (Some "es")) eq_refl)).
    + reflexivity.
    + reflexivity.
Defined.

(** A cluster configured with an AWS region, as the shorthand variables
    give it whenever AWS_REGION is set, cannot be connected: startup fails
    on the constructor, before the probe. *)
Example aws_region_fails_startup :
  let W := Sample.world [] in
  let env := env_of [("OPENSEARCH_URL", "https://one:9200");
                     ("AWS_REGION", "eu-west-1")] in
  initializeOpenSearch W env new_server
  = (Throw (EMcp InternalError
              "Failed to initialize OpenSearch: require is not defined"),
     mkServer []
       (Some (mkConfig
                [("default",
                  mkCluster "https://one:9200" None (Some (env_auth env))
                    (Some (env_ssl env)) 30000 3000 3 false None None)])),
     [ConsoleExn "Failed to initialize OpenSearch clients:"
        (EError "require is not defined")]).
Proof. vm_compute. reflexivity. Qed.

(** X23.  TLS settings reach the library for https nodes only.  For a cluster
    without AWS region whose node does not start with "https", the
    options handed to the library carry no TLS options, whatever the
    configuration says about certificate verification; the CA file is not
    read and nothing is printed. *)
Theorem tls_settings_need_an_https_node
  (W : World) (c : OpenSearchClusterConfig)
  (Hregion : aws_region c = None)
  (Hplain : String.prefix "https" (node c) = false) :
  exists options,
    clientConfig W c = (Ok options, [])
    /\ opt_ssl options = None
    /\ snd (createClient W c) = [].
Proof.
  destruct (auth_without_region W c Hregion) as [a Ha].
  unfold createClient, clientConfig. rewrite Ha, Hplain.
  destruct (ssl c); eexists; (split; [reflexivity|]);
    (split; [reflexivity|]); simpl; destruct (new_Client W _); reflexivity.
Qed.

Lemma tls_settings_need_an_https_node_witness :
  let W := Sample.world [] in
  let c := mkCluster "http://one:9200" None None
             (Some (mkSsl false None None None (Some "/etc/ca.pem") None))
             30000 3000 3 false None None in
  exists options,
    clientConfig W c = (Ok options, [])
    /\ opt_ssl options = None
    /\ snd (createClient W c) = [].
Proof.
  intros W c.
  apply (tls_settings_need_an_https_node W c).
  - reflexivity.
  - reflexivity.
Defined.

(** X24.  The CA material of an https node.  The [ca] of the configuration is
    never used: changing it changes nothing of the outcome of
    [createClient].  For a cluster without AWS region, the CA bundle, when
    given, is the CA handed to the library even if a CA file was read; and
    a CA file that cannot be read only prints a warning and leaves the CA
    unset. *)
Theorem ca_comes_from_bundle_or_file_only
  (W : World) (c : OpenSearchClusterConfig) (s : SslConfig)
  (Hssl : ssl c = Some s)
  (Hhttps : String.prefix "https" (node c) = true)
  (Hregion : aws_region c = None) :
  (forall ca', createClient W (with_ca ca' c) = createClient W c)
  /\ (forall bundle,
        given (caBundle s) = Some bundle ->
        exists options printed agent,
          clientConfig W c = (Ok options, printed)
          /\ opt_ssl options = Some agent
          /\ agent_ca agent = Some bundle)
  /\ (forall path text,
        given (caBundle s) = None ->
        given (caCertPath s) = Some path ->
        readFileSync W path = inr text ->
        exists a,
          clientConfig W c
          = (Ok (mkOptions (node c) (nodes c) (requestTimeout c)
                   (pingTimeout c) (maxRetries c) (compression c) a
                   (Some (mkAgent (rejectUnauthorized s) None (given (cert s))
                            (given (key s))))),
             [ca_warning path text])).
Proof.
  destruct (auth_without_region W c Hregion) as [a Ha].
  split; [|split].
  - intros ca'. unfold createClient, clientConfig, with_ca. simpl.
    rewrite Hssl. reflexivity.
  - intros bundle Hb. unfold clientConfig. rewrite Ha, Hssl, Hhttps.
    unfold agentOptions. rewrite Hb.
    destruct (given (caCertPath s)) as [path|].
    + destruct (readFileSync W path); do 3 eexists;
        (split; [reflexivity|]); split; reflexivity.
    + do 3 eexists. split; [reflexivity|]. split; reflexivity.
  - intros path text Hb Hp Hread. exists a. unfold clientConfig.
    rewrite Ha, Hssl, Hhttps. unfold agentOptions. rewrite Hb, Hp, Hread.
    reflexivity.
Qed.

Lemma ca_comes_from_bundle_or_file_only_witness :
  let W := Sample.world [] in
  let c := mkCluster "https://one:9200" None None
             (Some (mkSsl true (Some "unused") None None (Some "/etc/ca.pem")
                      None))
             30000 3000 3 false None None in
  createClient W (with_ca None c) = createClient W c
  /\ exists a,
       clientConfig W c
       = (Ok (mkOptions (node c) (nodes c) (requestTimeout c)
                (pingTimeout c) (maxRetries c) (compression c) a
                (Some (mkAgent true None None None))),
          [ca_warning "/etc/ca.pem"
             "Error: ENOENT: no such file or directory"]).
Proof.
  intros W c.
  destruct (ca_comes_from_bundle_or_file_only W c
              (mkSsl true (Some "unused") None None (Some "/etc/ca.pem") None)
              eq_refl eq_refl eq_refl) as (Hca & _ & Hwarn).
  split.
  - apply Hca.
  - apply (Hwarn "/etc/ca.pem" "Error: ENOENT: no such file or directory");
      reflexivity.
Defined.

(* ================================================================= *)
(** ** Resources and shutdown *)

Lemma readResource_when_built (W : World) (env : Env) (st : Server)
      (uri k : string) (c : OpenSearchClient)
      (rest : list (string * OpenSearchClient)) :
  opensearchClients st = (k, c) :: rest ->
  k <> EmptyString ->
  readResource W env uri st
  = try_catch
      (data <- resource_data W c uri ;; ret (ResourceContents uri data))
      (fun error =>
         throw (EMcp InternalError
                  ("Failed to read resource " ++ uri ++ ": "
                   ++ exn_message error))) st.
Proof.
  intros Hst Hk.
  assert (Hbuilt : opensearchClients st <> []) by (rewrite Hst; discriminate).
  unfold readResource. unfold bind at 1.
  rewrite (initialize_when_built W env st Hbuilt).
  unfold bind at 1. unfold clients at 1. rewrite Hst.
  change (length ((k, c) :: rest) =? 0)%nat with false. cbv beta iota.
  unfold bind at 1. rewrite (getClient_omitted st k c rest Hst Hk).
  match goal with
  | |- context [try_catch ?m ?h st] => destruct (try_catch m h st) as [[r s] t]
  end.
  reflexivity.
Qed.

(** X25.  Resources are read from the first cluster.  On a built registry
    whose first key is not empty, reading one of the three resources makes
    exactly one call, of the resource's client method without arguments,
    on the first registered cluster; the caller gets that answer, or an
    internal error carrying the backend's message. *)
Theorem resource_is_read_from_the_first_cluster
  (W : World) (env : Env) (st : Server) (uri m k : string)
  (c : OpenSearchClient) (rest : list (string * OpenSearchClient))
  (Hst : opensearchClients st = (k, c) :: rest)
  (Hk : k <> EmptyString)
  (Hres : In (uri, m) resources) :
  readResource W env uri st
  = (match backend W (client_cluster c) m [] with
     | inl body => Ok (ResourceContents uri body)
     | inr message =>
         Throw (EMcp InternalError
                  ("Failed to read resource " ++ uri ++ ": " ++ message))
     end,
     st,
     [Call (client_cluster c) m []]).
Proof.
  rewrite (readResource_when_built W env st uri k c rest Hst Hk).
  unfold resources in Hres. simpl in Hres.
  destruct Hres as [H|[H|[H|[]]]]; injection H as <- <-;
    unfold try_catch, bind, resource_data, invoke; simpl;
    unfold bind, emit, ret, throw;
    match goal with
    | |- context [backend W ?n ?m ?p] => destruct (backend W n m p)
    end; reflexivity.
Qed.

Lemma resource_is_read_from_the_first_cluster_witness :
  readResource (Sample.world []) Sample.env_east_west
    "opensearch://cluster/health" Sample.server_east_west
  = (match backend (Sample.world []) (client_cluster Sample.east)
             "clusterHealth" [] with
     | inl body => Ok (ResourceContents "opensearch://cluster/health" body)
     | inr message =>
         Throw (EMcp InternalError
                  ("Failed to read resource " ++ "opensearch://cluster/health"
                   ++ ": " ++ message))
     end,
     Sample.server_east_west,
     [Call (client_cluster Sample.east) "clusterHealth" []]).
Proof.
  apply (resource_is_read_from_the_first_cluster (Sample.world [])
           Sample.env_east_west Sample.server_east_west
           "opensearch://cluster/health" "clusterHealth" "east" Sample.east
           [("west", Sample.west)]).
  - reflexivity.
  - discriminate.
  - unfold resources. simpl. tauto.
Defined.

(** X26.  An unknown resource is an internal error.  On a built registry whose
    first key is not empty, reading a URI that is none of the three
    resources fails with the code InternalError, not InvalidRequest: the
    handler's own "Unknown resource" error is caught and wrapped, its
    code surviving only inside the message.  No backend is called. *)
Theorem unknown_resource_is_an_internal_error
  (W : World) (env : Env) (st : Server) (uri k : string)
  (c : OpenSearchClient) (rest : list (string * OpenSearchClient))
  (Hst : opensearchClients st = (k, c) :: rest)
  (Hk : k <> EmptyString)
  (Hunknown : ~ In uri (map fst resources)) :
  readResource W env uri st
  = (Throw (EMcp InternalError
              ("Failed to read resource " ++ uri ++ ": "
               ++ exn_message
                    (EMcp InvalidRequest ("Unknown resource: " ++ uri)))),
     st, []).
Proof.
  rewrite (readResource_when_built W env st uri k c rest Hst Hk).
  unfold resources in Hunknown. simpl in Hunknown.
  unfold try_catch, bind, resource_data.
  destruct (String.eqb_spec uri "opensearch://cluster/info") as [->|_];
    [exfalso; tauto|].
  destruct (String.eqb_spec uri "opensearch://cluster/health") as [->|_];
    [exfalso; tauto|].
  destruct (String.eqb_spec uri "opensearch://indices/list") as [->|_];
    [exfalso; tauto|].
  reflexivity.
Qed.

Lemma unknown_resource_is_an_internal_error_witness :
  readResource (Sample.world []) Sample.env_east_west
    "opensearch://cluster/stats" Sample.server_east_west
  = (Throw (EMcp InternalError
              ("Failed to read resource " ++ "opensearch://cluster/stats"
               ++ ": "
               ++ exn_message
                    (EMcp InvalidRequest
                       ("Unknown resource: " ++ "opensearch://cluster/stats")))),
     Sample.server_east_west, []).
Proof.
  apply (unknown_resource_is_an_internal_error (Sample.world [])
           Sample.env_east_west Sample.server_east_west
           "opensearch://cluster/stats" "east" Sample.east
           [("west", Sample.west)]).
  - reflexivity.
  - discriminate.
  - unfold resources. simpl. intuition discriminate.
Defined.

Lemma close_one_succeeds (W : World) (entry : string * OpenSearchClient)
      (st : Server) (body : JValue) :
  backend W (client_cluster (snd entry)) "close" [] = inl body ->
  exists trace,
    close_one W entry st = (Ok tt, st, trace)
    /\ calls trace = [close_call entry].
Proof.
  intros H. unfold close_one, bind, emit, invoke, ret. simpl. rewrite H.
  eexists. split; reflexivity.
Qed.

Lemma close_one_fails (W : World) (entry : string * OpenSearchClient)
      (st : Server) (message : string) :
  backend W (client_cluster (snd entry)) "close" [] = inr message ->
  exists trace,
    close_one W entry st = (Throw (EError message), st, trace)
    /\ calls trace = [close_call entry].
Proof.
  intros H. unfold close_one, bind, emit, invoke, ret. simpl. rewrite H.
  eexists. split; reflexivity.
Qed.

Lemma calls_app (t1 t2 : list Event) : calls (t1 ++ t2) = calls t1 ++ calls t2.
Proof. unfold calls. apply filter_app. Qed.

Lemma close_loop (W : World) (before : list (string * OpenSearchClient)) :
  forall (st : Server),
    (forall e, In e before ->
               exists body,
                 backend W (client_cluster (snd e)) "close" [] = inl body) ->
    exists trace,
      calls trace = map close_call before
      /\ forall after,
           for_each (before ++ after) (close_one W) st
           = (let '(r, s, t) := for_each after (close_one W) st in
              (r, s, trace ++ t)).
Proof.
  induction before as [|e es IH]; intros st Hall.
  - exists []. split; [reflexivity|]. intros after. simpl.
    destruct (for_each after (close_one W) st) as [[r s] t]. reflexivity.
  - destruct (Hall e (or_introl eq_refl)) as [body Hbody].
    destruct (close_one_succeeds W e st body Hbody) as (t1 & H1 & Hc1).
    destruct (IH st (fun x Hx => Hall x (or_intror Hx))) as (t2 & Hc2 & H2).
    exists (t1 ++ t2). split.
    + rewrite calls_app, Hc1, Hc2. reflexivity.
    + intros after. simpl app. simpl for_each. unfold bind at 1.
      rewrite H1, (H2 after).
      destruct (for_each after (close_one W) st) as [[r s] t].
      rewrite app_assoc. reflexivity.
Qed.

(** X27.  Shutdown closes every client, in order.  When every [close]
    succeeds, the shutdown handler returns normally, having called [close]
    exactly once on each registered client, in registration order, and
    nothing else on any backend. *)
Theorem shutdown_closes_every_client_in_order
  (W : World) (st : Server)
  (Hall : forall e, In e (opensearchClients st) ->
                    exists body,
                      backend W (client_cluster (snd e)) "close" [] = inl body) :
  fst (shutdown W st) = (Ok tt, st)
  /\ calls (snd (shutdown W st)) = map close_call (opensearchClients st).
Proof.
  destruct (close_loop W (opensearchClients st) st Hall)
    as (t & Hc & Hloop).
  specialize (Hloop []). rewrite app_nil_r in Hloop. simpl in Hloop.
  unfold shutdown, bind, emit, clients. rewrite Hloop. simpl.
  rewrite app_nil_r. split; [reflexivity | exact Hc].
Qed.

Lemma shutdown_closes_every_client_in_order_witness :
  fst (shutdown (Sample.world []) Sample.server_east_west)
  = (Ok tt, Sample.server_east_west)
  /\ calls (snd (shutdown (Sample.world []) Sample.server_east_west))
     = map close_call (opensearchClients Sample.server_east_west).
Proof.
  apply (shutdown_closes_every_client_in_order (Sample.world [])
           Sample.server_east_west).
  intros e _. eexists. reflexivity.
Defined.

(** X28.  Shutdown stops at the first [close] that fails.  When the clients
    registered before some client close normally and that client's
    [close] throws, the handler ends with that error: the clients
    registered after it are never closed. *)
Theorem shutdown_stops_at_the_first_failure
  (W : World) (st : Server) (before after : list (string * OpenSearchClient))
  (e : string * OpenSearchClient) (message : string)
  (Hst : opensearchClients st = before ++ e :: after)
  (Hbefore : forall x, In x before ->
                       exists body,
                         backend W (client_cluster (snd x)) "close" []
                         = inl body)
  (Hfails : backend W (client_cluster (snd e)) "close" [] = inr message) :
  fst (shutdown W st) = (Throw (EError message), st)
  /\ calls (snd (shutdown W st)) = map close_call before ++ [close_call e].
Proof.
  destruct (close_loop W before st Hbefore) as (t & Hc & Hloop).
  specialize (Hloop (e :: after)).
  destruct (close_one_fails W e st message Hfails) as (t1 & H1 & Hc1).
  assert (Hrun : shutdown W st
                 = (Throw (EError message), st,
                    Console LLog "Shutting down OpenSearch MCP server..."
                    :: t ++ t1)).
  { unfold shutdown, bind, emit, clients. rewrite Hst, Hloop.
    simpl for_each. unfold bind at 1. rewrite H1. reflexivity. }
  rewrite Hrun. split; [reflexivity|].
  simpl snd. change (calls (Console LLog _ :: t ++ t1)) with (calls (t ++ t1)).
  rewrite calls_app, Hc, Hc1. reflexivity.
Qed.

Lemma shutdown_stops_at_the_first_failure_witness :
  let W := mkWorld Sample.parse Sample.parse_int Sample.url Sample.issues
             (fun _ _ => Status 200)
             (fun cluster _ _ =>
                if String.eqb cluster "east" then inr "socket hang up"
                else inl JNull)
             Sample.no_file Sample.accept Sample.no_require in
  fst (shutdown W Sample.server_east_west)
  = (Throw (EError "socket hang up"), Sample.server_east_west)
  /\ calls (snd (shutdown W Sample.server_east_west))
     = map close_call [] ++ [close_call ("east", Sample.east)].
Proof.
  intros W.
  apply (shutdown_stops_at_the_first_failure W Sample.server_east_west
           [] [("west", Sample.west)] ("east", Sample.east) "socket hang up").
  - reflexivity.
  - intros x [].
  - reflexivity.
Defined.
